(** * SBOM Harbor: the Dependency Track client and the Lambda handlers

    A shallow embedding of [cyclonedx/clients/dependency_track/dependency_track.py]
    and of the handlers of [cyclonedx/api.py] that drive it.

    The Python code talks to four outside services:
    - the SSM parameter store (the "Secret Store") and the S3 blob store, which
      are modelled as finite maps with read-your-writes behaviour;
    - the Dependency Track server (the "Analyzer") and the DynamoDB team table,
      which are kept abstract: any deterministic state machine that answers
      requests is an instance.
    Every call that leaves the process is recorded in a trace, so that
    statements such as "exactly one grant call per permission" or "no network
    call" are statements about that trace.

    Functions that recurse or loop without a bound in the source take a fuel
    argument; running out of fuel is a third outcome, next to returning and
    raising.  The retries of [__create_project] are nested calls, which the
    interpreter's recursion limit cuts short with [RecursionError]: that
    function also takes the number of nested calls the limit has room for. *)

From Stdlib Require Import ZArith NArith QArith String Ascii List Lia.
From stdpp Require Import base gmap strings list pretty.

Set Warnings "-register-all".
Open Scope Z_scope.

(** ** Python values *)

(** The values that cross the code: what [json.loads] produces, plus [bytes]. *)
Inductive value : Type :=
| VNone
| VBool (b : bool)
| VInt (z : Z)
| VStr (s : string)
| VBytes (s : string)
| VList (l : list value)
| VDict (d : list (string * value)).

(** Python's truth test ([if x:], [not x]). *)
Definition truthy (v : value) : bool :=
  match v with
  | VNone => false
  | VBool b => b
  | VInt z => negb (z =? 0)
  | VStr s => negb (String.eqb s "")
  | VBytes s => negb (String.eqb s "")
  | VList l => match l with [] => false | _ => true end
  | VDict d => match d with [] => false | _ => true end
  end.

(** [v == s] for a string literal [s]. *)
Definition eq_str (v : value) (s : string) : bool :=
  match v with
  | VStr s' => String.eqb s' s
  | _ => false
  end.

(** Lookup and in-place assignment in a [dict]; insertion order is kept. *)
Fixpoint dict_get (d : list (string * value)) (k : string) : option value :=
  match d with
  | [] => None
  | (k', v) :: rest => if String.eqb k' k then Some v else dict_get rest k
  end.

Fixpoint dict_set (d : list (string * value)) (k : string) (v : value)
  : list (string * value) :=
  match d with
  | [] => [(k, v)]
  | (k', v') :: rest =>
      if String.eqb k' k then (k, v) :: rest else (k', v') :: dict_set rest k v
  end.

(** ** Exceptions *)

Inductive Exn : Type :=
| KeyError (k : string)
| IndexError
| TypeError
| JSONDecodeError
| ValidationError (text : string)      (* jsonschema; [text] is [str(err)] *)
| RequestException                     (* requests: no response was obtained *)
| ParameterNotFound                    (* ssm.exceptions.ParameterNotFound *)
| ParameterAlreadyExists
| ParamValidationError                 (* botocore: ill-typed argument *)
| ClientError (code : string)          (* botocore: the service refused *)
| AttributeError
| ValueError
| RecursionError                       (* the interpreter's recursion limit *)
| PyException (msg : string).          (* [raise Exception(msg)] *)

Definition is_ParameterNotFound (e : Exn) : bool :=
  match e with ParameterNotFound => true | _ => false end.

Definition is_ValidationError (e : Exn) : bool :=
  match e with ValidationError _ => true | _ => false end.

(** ** cyclonedx/constants.py *)

Definition DT_DEFAULT_ADMIN_PWD : string := "admin".
Definition ENRICHMENT_ID : string := "ENRICHMENTID".
Definition SBOM_BUCKET_NAME_KEY : string := "sbom.bucket.name".
Definition SBOM_S3_KEY : string := "sbom.s3.key".
Definition DT_API_KEY : string := "DT_API_KEY".
Definition DT_ROOT_PWD : string := "DT_ROOT_PWD".
Definition EMPTY_VALUE : string := "EMPTY".

(** Modelled from the spec: [TEAM_TABLE_NAME] is imported by api.py from
    cyclonedx.constants but is not defined in the constants.py under src/; it
    only names the DynamoDB table that backs the teams, so it is kept as the
    name of that table. *)
Definition TEAM_TABLE_NAME : string := "TEAM_TABLE_NAME".

(** ** HTTP requests to Dependency Track *)

(** Modelled from the spec: the module cyclonedx.dtendpoints ([DTEndpoints]) is
    not under src/.  Each of its URL builders is kept as a constructor that
    names the endpoint (section 6 of the spec lists them) and carries the
    arguments the code passes to the builder. *)
Inductive Endpoint : Type :=
| force_chg_pwd
| do_login
| get_teams_data
| add_permission_to_team (perm : string) (team_uuid : value)
| get_sbom_status (sbom_token : value)
| get_findings (project_uuid : value)
| rotate_api_key (old_key : value)
| create_project
| delete_project (project_uuid : value)
| post_sbom.

Inductive Method : Type := GET | POST | PUT.

(** What the code hands to requests as [data=] or [json=]. *)
Inductive Payload : Type :=
| NoPayload
| FormData (params : list (string * value))
| JsonPayload (body : value)
| Multipart (boundary : string) (fields : list (string * value)).

Record Request : Type := mkRequest {
  rq_method : Method;
  rq_url : Endpoint;
  rq_headers : list (string * value);
  rq_payload : Payload
}.

Record Response : Type := mkResponse {
  status_code : Z;
  text : string
}.

(** A request either gets a response, whatever its status, or fails in
    transport, which requests reports by raising. *)
Inductive NetResult : Type :=
| Resp (r : Response)
| ConnErr.

(** ** Outside collaborators *)

(** The Analyzer: any deterministic server.  [dt_url] is the text [DTEndpoints]
    renders for an endpoint; the code only ever logs it. *)
Class Analyzer : Type := {
  DT : Type;
  dt_send : Request -> DT -> NetResult * DT;
  dt_url : Endpoint -> string
}.

(** The DynamoDB team table: [get_item] and [update_item], each of which may
    be refused by the service. *)
Class Dynamo : Type := {
  DDB : Type;
  ddb_get_item : string -> value -> DDB -> (Exn + value) * DDB;
  ddb_update_item :
    string -> value -> string -> list (string * string) -> DDB -> (Exn + unit) * DDB
}.

(** [json.loads] and [json.dumps]; [repr] is Python's rendering of a container
    inside an f-string. *)
Class Json : Type := {
  loads : string -> option value;
  dumps : value -> string;
  repr : value -> string
}.

(** [os.urandom(16)], read as a 128-bit number; the argument counts the draws. *)
Class Entropy : Type := {
  urandom16 : nat -> N
}.

(** The values that have no [encode]: numbers, booleans and dicts. *)
Definition unencodable (v : value) : bool :=
  match v with
  | VInt _ | VBool _ | VDict _ => true
  | _ => false
  end.

(** requests_toolbelt's [MultipartEncoder(fields=...)] encodes the fields, in
    their order, when it is built, and raises for a value it cannot encode:
    [encoder_error fields] is that exception, if there is one.  A value that
    has no [encode] is one it cannot encode, with [AttributeError]; a list is
    unpacked as a file tuple, which is left to the instance. *)
Class Encoder : Type := {
  encoder_error : list (string * value) -> option Exn;
  encoder_error_unencodable :
    forall k v rest,
      unencodable v = true -> encoder_error ((k, v) :: rest) = Some AttributeError
}.

(** ** uuid4 and its string forms *)

Definition hex_digit (n : N) : ascii :=
  match n with
  | 0%N => "0" | 1%N => "1" | 2%N => "2" | 3%N => "3" | 4%N => "4"
  | 5%N => "5" | 6%N => "6" | 7%N => "7" | 8%N => "8" | 9%N => "9"
  | 10%N => "a" | 11%N => "b" | 12%N => "c" | 13%N => "d" | 14%N => "e"
  | _ => "f"
  end%char.

(** The lowest [w] hexadecimal digits of [n], most significant first. *)
Fixpoint hex_fixed (w : nat) (n : N) : string :=
  match w with
  | O => EmptyString
  | S w' => hex_fixed w' (N.shiftr n 4) +:+ String (hex_digit (N.land n 15)) EmptyString
  end.

(** [uuid.UUID(bytes=..., version=4)]: variant and version bits forced. *)
Definition uuid_v4 (raw : N) : N :=
  let n := N.land raw (N.ones 128) in
  let n := N.ldiff n (N.shiftl 0xc000 48) in
  let n := N.lor n (N.shiftl 0x8000 48) in
  let n := N.ldiff n (N.shiftl 0xf000 64) in
  N.lor n (N.shiftl 4 76).

(** [str(u)]: 8-4-4-4-12. *)
Definition uuid_str (u : N) : string :=
  hex_fixed 8 (N.shiftr u 96) +:+ "-" +:+
  hex_fixed 4 (N.shiftr u 80) +:+ "-" +:+
  hex_fixed 4 (N.shiftr u 64) +:+ "-" +:+
  hex_fixed 4 (N.shiftr u 48) +:+ "-" +:+
  hex_fixed 12 u.

(** [u.hex] *)
Definition uuid_hex (u : N) : string := hex_fixed 32 u.

(** ** The world and its trace *)

Inductive LogLevel : Type := INFO | WARNING | ERROR.

Inductive Event : Type :=
| EHttp (rq : Request) (res : NetResult)
| ESsmGet (name : string)
| ESsmPut (name : string) (v : value) (overwrite : bool)
| ES3Get (bucket key : value)
| ES3Put (bucket key : value) (body : string) (metadata : list (string * value))
| EDdbGet (table : string) (key : value)
| EDdbUpdate (table : string) (key : value) (expr : string)
    (names : list (string * string))
| ESleep (seconds : Q)
| ELog (lvl : LogLevel) (msg : value) (args : list value).

Record S3Object : Type := mkS3Object {
  Body : string;
  Metadata : list (string * value)
}.

Section Model.

Context `{AN : Analyzer} `{DY : Dynamo} `{JS : Json} `{EN : Entropy}.

Record World : Type := mkWorld {
  ssm : gmap string string;              (* SSM parameters, by name *)
  s3 : gmap (string * string) S3Object;  (* S3 objects, by bucket and key *)
  environ : gmap string string;          (* os.environ *)
  dt : DT;                               (* the Analyzer's state *)
  ddb : DDB;                             (* the team table's state *)
  draws : nat;                           (* uuid4 calls made so far *)
  trace : list Event                     (* oldest event first *)
}.

Definition emit (e : Event) (w : World) : World :=
  mkWorld (ssm w) (s3 w) (environ w) (dt w) (ddb w) (draws w) (trace w ++ [e]).

Definition set_ssm (m : gmap string string) (w : World) : World :=
  mkWorld m (s3 w) (environ w) (dt w) (ddb w) (draws w) (trace w).

Definition set_s3 (m : gmap (string * string) S3Object) (w : World) : World :=
  mkWorld (ssm w) m (environ w) (dt w) (ddb w) (draws w) (trace w).

Definition set_dt (d : DT) (w : World) : World :=
  mkWorld (ssm w) (s3 w) (environ w) d (ddb w) (draws w) (trace w).

Definition set_ddb (d : DDB) (w : World) : World :=
  mkWorld (ssm w) (s3 w) (environ w) (dt w) d (draws w) (trace w).

Definition set_draws (n : nat) (w : World) : World :=
  mkWorld (ssm w) (s3 w) (environ w) (dt w) (ddb w) n (trace w).

(** ** The monad of Python computations *)

Inductive Res (A : Type) : Type :=
| Ok (a : A) (w : World)          (* returned [a] *)
| Raise (e : Exn) (w : World)     (* an exception left the function *)
| OutOfFuel (w : World).          (* still running when the fuel ran out *)

Arguments Ok {A} a w.
Arguments Raise {A} e w.
Arguments OutOfFuel {A} w.

Definition M (A : Type) : Type := World -> Res A.

Definition ret {A} (a : A) : M A := fun w => Ok a w.

Definition bind {A B} (m : M A) (k : A -> M B) : M B :=
  fun w =>
    match m w with
    | Ok a w' => k a w'
    | Raise e w' => Raise e w'
    | OutOfFuel w' => OutOfFuel w'
    end.

Definition raise {A} (e : Exn) : M A := fun w => Raise e w.

Definition out_of_fuel {A} : M A := fun w => OutOfFuel w.

(** [try: body  except E: handler], where [handles] recognises [E]. *)
Definition try_except {A} (body : M A) (handles : Exn -> bool)
  (handler : Exn -> M A) : M A :=
  fun w =>
    match body w with
    | Raise e w' => if handles e then handler e w' else Raise e w'
    | r => r
    end.

Definition record (e : Event) : M unit := fun w => Ok tt (emit e w).

End Model.

Arguments Ok {AN DY A} a w.
Arguments Raise {AN DY A} e w.
Arguments OutOfFuel {AN DY A} w.

Declare Scope py_scope.
Delimit Scope py_scope with py.
Notation "x <- c1 ;; c2" := (bind c1 (fun x => c2))
  (at level 100, c1 at next level, right associativity) : py_scope.
Notation "c1 ;; c2" := (bind c1 (fun _ => c2))
  (at level 100, right associativity) : py_scope.
Open Scope py_scope.

(** ** Primitive operations: the Python and library calls the code makes *)

Section Primitives.

Context `{AN : Analyzer} `{DY : Dynamo} `{JS : Json} `{EN : Entropy} `{EC : Encoder}.

(** [v[k]] for a string key. *)
Definition getitem (v : value) (k : string) : M value :=
  match v with
  | VDict d =>
      match dict_get d k with
      | Some x => ret x
      | None => raise (KeyError k)
      end
  | _ => raise TypeError
  end.

(** [v[0]] *)
Definition getitem0 (v : value) : M value :=
  match v with
  | VList (x :: _) => ret x
  | VList [] => raise IndexError
  | VStr (String c _) => ret (VStr (String c EmptyString))
  | VStr EmptyString => raise IndexError
  | VBytes (String c _) => ret (VInt (Z.of_nat (nat_of_ascii c)))
  | VBytes EmptyString => raise IndexError
  | VDict _ => raise (KeyError "0")
  | _ => raise TypeError
  end.

Fixpoint chars (s : string) : list value :=
  match s with
  | EmptyString => []
  | String c r => VStr (String c EmptyString) :: chars r
  end.

Fixpoint byte_values (s : string) : list value :=
  match s with
  | EmptyString => []
  | String c r => VInt (Z.of_nat (nat_of_ascii c)) :: byte_values r
  end.

(** What [for x in v] goes through. *)
Definition iterate (v : value) : M (list value) :=
  match v with
  | VList l => ret l
  | VDict d => ret (map (fun kv => VStr (fst kv)) d)
  | VStr s => ret (chars s)
  | VBytes s => ret (byte_values s)
  | _ => raise TypeError
  end.

(** [k in v] for a string literal [k]. *)
Definition contains (k : string) (v : value) : M bool :=
  match v with
  | VDict d => ret (match dict_get d k with Some _ => true | None => false end)
  | VList l => ret (existsb (fun x => eq_str x k) l)
  | VStr s => ret (match String.index 0 k s with Some _ => true | None => false end)
  | _ => raise TypeError
  end.

(** [str(v)], as an f-string renders [v]. *)
Definition py_str (v : value) : string :=
  match v with
  | VStr s => s
  | VInt z => pretty z
  | VBool true => "True"
  | VBool false => "False"
  | VNone => "None"
  | _ => repr v
  end.

(** [json.loads(v)] *)
Definition py_loads (v : value) : M value :=
  match v with
  | VStr s | VBytes s =>
      match loads s with
      | Some x => ret x
      | None => raise JSONDecodeError
      end
  | _ => raise TypeError
  end.

(** [response.json()] *)
Definition json_of (r : Response) : M value :=
  match loads (text r) with
  | Some x => ret x
  | None => raise JSONDecodeError
  end.

(** [uuid4()] *)
Definition uuid4 : M N :=
  fun w => Ok (uuid_v4 (urandom16 (draws w))) (set_draws (S (draws w)) w).

(** requests: the Analyzer answers or the transport fails. *)
Definition request (m : Method) (url : Endpoint) (headers : list (string * value))
  (payload : Payload) : M Response :=
  fun w =>
    let rq := mkRequest m url headers payload in
    let res := dt_send rq (dt w) in
    let w' := emit (EHttp rq (fst res)) (set_dt (snd res) w) in
    match fst res with
    | Resp r => Ok r w'
    | ConnErr => Raise RequestException w'
    end.

Definition get (url : Endpoint) (headers : list (string * value)) : M Response :=
  request GET url headers NoPayload.

Definition post (url : Endpoint) (headers : list (string * value))
  (payload : Payload) : M Response :=
  request POST url headers payload.

Definition put (url : Endpoint) (headers : list (string * value))
  (payload : Payload) : M Response :=
  request PUT url headers payload.

(** [ssm.get_parameter(Name=name, WithDecryption=False)["Parameter"]["Value"]] *)
Definition ssm_get_parameter (name : string) : M value :=
  fun w =>
    let w' := emit (ESsmGet name) w in
    match ssm w !! name with
    | Some v => Ok (VStr v) w'
    | None => Raise ParameterNotFound w'
    end.

(** What the parameter store takes as the value of a parameter of the
    Standard tier: at least one character and at most 4096. *)
Definition ssm_value_ok (s : string) : bool :=
  (1 <=? Z.of_nat (String.length s)) && (Z.of_nat (String.length s) <=? 4096).

(** [ssm.put_parameter(Name=name, Value=v, Type="String", Overwrite=overwrite,
    Tier="Standard", ...)]: a value that is not a string is refused by
    botocore, a string the store does not take by the service, with a
    [ValidationException]; in both cases nothing is stored. *)
Definition ssm_put_parameter (name : string) (v : value) (overwrite : bool) : M unit :=
  fun w =>
    let w' := emit (ESsmPut name v overwrite) w in
    match v with
    | VStr s =>
        if ssm_value_ok s then
          match ssm w !! name with
          | Some _ =>
              if overwrite then Ok tt (set_ssm (<[name := s]> (ssm w)) w')
              else Raise ParameterAlreadyExists w'
          | None => Ok tt (set_ssm (<[name := s]> (ssm w)) w')
          end
        else Raise (ClientError "ValidationException") w'
    | _ => Raise ParamValidationError w'
    end.

(** [s3.Object(bucket, key).get()] *)
Definition s3_get (bucket key : value) : M S3Object :=
  fun w =>
    let w' := emit (ES3Get bucket key) w in
    match bucket, key with
    | VStr b, VStr k =>
        match s3 w !! (b, k) with
        | Some o => Ok o w'
        | None => Raise (ClientError "NoSuchKey") w'
        end
    | _, _ => Raise ParamValidationError w'
    end.

(** [s3.Object(bucket, key).put(Body=body, Metadata=metadata)] *)
Definition s3_put (bucket key : value) (body : string)
  (metadata : list (string * value)) : M unit :=
  fun w =>
    let w' := emit (ES3Put bucket key body metadata) w in
    match bucket, key with
    | VStr b, VStr k => Ok tt (set_s3 (<[(b, k) := mkS3Object body metadata]> (s3 w)) w')
    | _, _ => Raise ParamValidationError w'
    end.

(** [table.get_item(Key=key)] *)
Definition table_get_item (table : string) (key : value) : M value :=
  fun w =>
    let res := ddb_get_item table key (ddb w) in
    let w' := emit (EDdbGet table key) (set_ddb (snd res) w) in
    match fst res with
    | inr v => Ok v w'
    | inl e => Raise e w'
    end.

(** [table.update_item(Key=key, UpdateExpression=expr, ExpressionAttributeNames=names)] *)
Definition table_update_item (table : string) (key : value) (expr : string)
  (names : list (string * string)) : M unit :=
  fun w =>
    let res := ddb_update_item table key expr names (ddb w) in
    let w' := emit (EDdbUpdate table key expr names) (set_ddb (snd res) w) in
    match fst res with
    | inr _ => Ok tt w'
    | inl e => Raise e w'
    end.

(** [environ[k]] *)
Definition environ_get (k : string) : M value :=
  fun w =>
    match environ w !! k with
    | Some v => Ok (VStr v) w
    | None => Raise (KeyError k) w
    end.

(** [MultipartEncoder(fields=fields)]: it picks [uuid4().hex] as its boundary,
    then encodes the fields, which is where it raises; the result is the
    boundary, which its [content_type] carries. *)
Definition multipart_encoder (fields : list (string * value)) : M string :=
  b <- uuid4 ;;
  match encoder_error fields with
  | Some e => raise e
  | None => ret (uuid_hex b)
  end.

(** [sleep(seconds)] *)
Definition sleep (seconds : Q) : M unit := record (ESleep seconds).

(** [logger.info(msg, *args)] *)
Definition logger_info (msg : value) (args : list value) : M unit :=
  record (ELog INFO msg args).

(** [for x in l: body(x)] *)
Fixpoint for_each {A} (l : list A) (body : A -> M unit) : M unit :=
  match l with
  | [] => ret tt
  | x :: rest => body x ;; for_each rest body
  end.

End Primitives.

(** ** cyclonedx/clients/dependency_track/dependency_track.py *)

Section DependencyTrack.

Context `{AN : Analyzer} `{DY : Dynamo} `{JS : Json} `{EN : Entropy} `{EC : Encoder}.

Definition __change_dt_root_pwd : M value :=
  logger_info (VStr "@START __change_dt_root_pwd()") [] ;;
  let pwd := VStr DT_DEFAULT_ADMIN_PWD in
  u <- uuid4 ;;
  let new_pwd := VStr (uuid_str u) in
  logger_info (VStr "NEW PASSWORD __change_dt_root_pwd %s") [new_pwd] ;;
  let headers :=
    [("Content-Type", VStr "application/x-www-form-urlencoded");
     ("Accept", VStr "text/plain")] in
  let params :=
    [("username", pwd);
     ("password", pwd);
     ("newPassword", new_pwd);
     ("confirmPassword", new_pwd)] in
  post force_chg_pwd headers (FormData params) ;;
  (* Put the API Key into SSM *)
  ssm_put_parameter DT_ROOT_PWD new_pwd true ;;
  logger_info (VStr "END __change_dt_root_pwd() -> new Pwd %s") [new_pwd] ;;
  ret new_pwd.

Fixpoint __get_root_password (fuel : nat) : M value :=
  match fuel with
  | O => out_of_fuel
  | S n =>
      try_except
        (value <- ssm_get_parameter DT_ROOT_PWD ;;
         if eq_str value EMPTY_VALUE then
           __change_dt_root_pwd ;;
           __get_root_password n
         else ret value)
        is_ParameterNotFound
        (fun _ =>
           __change_dt_root_pwd ;;
           __get_root_password n)
  end.

(** [root_pwd] defaults to [None]. *)
Definition __get_jwt (fuel : nat) (root_pwd : value) : M value :=
  logger_info (VStr "@START __get_jwt()") [] ;;
  root_pwd <- match root_pwd with
              | VNone => __get_root_password fuel
              | _ => ret root_pwd
              end ;;
  let user := VStr "admin" in
  let headers :=
    [("Content-Type", VStr "application/x-www-form-urlencoded");
     ("Accept", VStr "text/plain")] in
  let params :=
    [("username", user);
     ("password", root_pwd)] in
  logger_info (VStr "GetJwtRequest ep=%s headers=%s params= %s")
    [VStr (dt_url do_login); VDict headers; VDict params] ;;
  response <- post do_login headers (FormData params) ;;
  let jwt := VStr (text response) in
  logger_info (VStr "END __get_jwt %s") [jwt] ;;
  ret jwt.

(** [f"Bearer {jwt}"] *)
Definition bearer (jwt : value) : value := VStr ("Bearer " +:+ py_str jwt).

Definition __get_teams (fuel : nat) : M value :=
  logger_info (VStr "@START __get_teams()") [] ;;
  jwt <- __get_jwt fuel VNone ;;
  let headers :=
    [("Authorization", bearer jwt);
     ("Accept", VStr "application/json")] in
  response <- get get_teams_data headers ;;
  teams <- json_of response ;;
  logger_info (VStr "END __get_teams %s") [teams] ;;
  ret teams.

(** The body of the [for team in ...] loop of
    [__get_automation_team_data_from_dt], over the teams still to visit. *)
Fixpoint __get_automation_team_data_from_dt_for (teams : list value)
  : M (value * value) :=
  match teams with
  | [] => raise (PyException "Unable to find Automation team in DT")
  | team :: rest =>
      name <- getitem team "name" ;;
      if eq_str name "Automation" then
        uuid <- getitem team "uuid" ;;
        api_keys <- getitem team "apiKeys" ;;
        first_key <- getitem0 api_keys ;;
        api_key <- getitem first_key "key" ;;
        logger_info (VStr "END __get_automation_team_data_from_dt %s") [uuid] ;;
        ret (uuid, api_key)
      else __get_automation_team_data_from_dt_for rest
  end.

Definition __get_automation_team_data_from_dt (fuel : nat) : M (value * value) :=
  logger_info (VStr "@START __get_automation_team_data_from_dt()") [] ;;
  teams <- __get_teams fuel ;;
  teams <- iterate teams ;;
  __get_automation_team_data_from_dt_for teams.

Definition permissions : list string :=
  ["ACCESS_MANAGEMENT";
   "POLICY_MANAGEMENT";
   "POLICY_VIOLATION_ANALYSIS";
   "PORTFOLIO_MANAGEMENT";
   "PROJECT_CREATION_UPLOAD";
   "SYSTEM_CONFIGURATION";
   "VIEW_PORTFOLIO";
   "VIEW_VULNERABILITY";
   "VULNERABILITY_ANALYSIS"].

Definition __set_team_permissions (fuel : nat) (team_uuid : value) : M unit :=
  logger_info (VStr "@START __set_team_permissions()") [] ;;
  jwt <- __get_jwt fuel VNone ;;
  let headers :=
    [("Authorization", bearer jwt);
     ("Accept", VStr "application/json")] in
  for_each permissions
    (fun perm =>
       post (add_permission_to_team perm team_uuid) headers NoPayload ;;
       ret tt) ;;
  logger_info (VStr "@END __set_team_permissions()") [].

Definition __set_initial_api_key_in_ssm (fuel : nat) : M value :=
  (* Dig through the JSON returned by hitting the Teams endpoint *)
  team_data <- __get_automation_team_data_from_dt fuel ;;
  let automation_team_uuid := fst team_data in
  let api_key := snd team_data in
  (* Update the permissions of the Automation Team *)
  __set_team_permissions fuel automation_team_uuid ;;
  (* Put the API Key into SSM *)
  ssm_put_parameter DT_API_KEY api_key true ;;
  ret api_key.

Definition __get_api_key (fuel : nat) : M value :=
  try_except
    ((* Will attempt to get the Key from SSM params *)
     value <- ssm_get_parameter DT_API_KEY ;;
     if eq_str value EMPTY_VALUE then __set_initial_api_key_in_ssm fuel
     else ret value)
    is_ParameterNotFound
    (fun _ =>
       logger_info (VStr "<__get_api_key -> Loc 05>") [] ;;
       __set_initial_api_key_in_ssm fuel).

Definition __findings_ready (key sbom_token : value) : M bool :=
  let headers :=
    [("X-Api-Key", key);
     ("Accept", VStr "application/json")] in
  response <- get (get_sbom_status sbom_token) headers ;;
  json_dict <- json_of response ;;
  processing <- getitem json_dict "processing" ;;
  ret (negb (truthy processing)).

(** The [while not __findings_ready(key, sbom_token)] loop of [__get_findings]. *)
Fixpoint __get_findings_while (fuel : nat) (key sbom_token : value) : M unit :=
  match fuel with
  | O => out_of_fuel
  | S n =>
      ready <- __findings_ready key sbom_token ;;
      if negb ready then
        sleep (1 # 2) ;;
        logger_info (VStr "Not ready...") [] ;;
        __get_findings_while n key sbom_token
      else ret tt
  end.

Definition __get_findings (fuel : nat) (project_uuid sbom_token : value) : M value :=
  key <- __get_api_key fuel ;;
  let headers :=
    [("X-Api-Key", key);
     ("Accept", VStr "application/json")] in
  __get_findings_while fuel key sbom_token ;;
  findings <- get (get_findings project_uuid) headers ;;
  json <- json_of findings ;;
  logger_info (VStr "<Results are in!>") [] ;;
  logger_info json [] ;;
  logger_info (VStr "</Results are in!>") [] ;;
  ret json.

Definition __validate (event : value) : M unit :=
  if negb (truthy event) then raise (ValidationError "event should never be none")
  else ret tt.

(** The function has no [return]: its caller gets [None]. *)
Definition __rotate_api_key (fuel : nat) : M value :=
  old_key <- __get_api_key fuel ;;
  jwt <- __get_jwt fuel VNone ;;
  let headers :=
    [("Authorization", bearer jwt);
     ("Accept", VStr "application/json")] in
  resp <- post (rotate_api_key old_key) headers NoPayload ;;
  json <- json_of resp ;;
  new_api_key <- getitem json "key" ;;
  (* Put the API Key into SSM *)
  ssm_put_parameter DT_API_KEY new_api_key true ;;
  ret VNone.

(** The retry after a 401 is a nested call, [return __create_project()]:
    [frames] is the number of activations of the function that the
    interpreter's recursion limit has room for, and the call that would go
    beyond it raises [RecursionError], as CPython does. *)
Fixpoint __create_project (frames fuel : nat) : M value :=
  match frames with
  | O => raise RecursionError
  | S frames' =>
      key <- __get_api_key fuel ;;
      let create_project_headers :=
        [("X-Api-Key", key);
         ("Content-Type", VStr "application/json");
         ("Accept", VStr "application/json")] in
      u <- uuid4 ;;
      let create_proj_body :=
        [("author", VStr "EnrichmentLambda");
         ("version", VStr "1.0.0");
         ("classifier", VStr "APPLICATION");
         ("name", VStr (uuid_str u));
         ("description", VStr "auto generated project")] in
      create_proj_rsp <-
        put create_project create_project_headers (JsonPayload (VDict create_proj_body)) ;;
      if status_code create_proj_rsp =? 401 then
        __rotate_api_key fuel ;;
        __create_project frames' fuel
      else
        proj <- json_of create_proj_rsp ;;
        project_uuid <- getitem proj "uuid" ;;
        logger_info (VStr "ProjectCreated uuid= %s") [project_uuid] ;;
        ret project_uuid
  end.

Definition __delete_project (fuel : nat) (project_uuid : value) : M unit :=
  api_key <- __get_api_key fuel ;;
  let create_project_headers :=
    [("X-Api-Key", api_key);
     ("Content-Type", VStr "application/json");
     ("Accept", VStr "application/json")] in
  logger_info (VStr "<DeletingProject>") [] ;;
  logger_info project_uuid [] ;;
  logger_info (VStr "</DeletingProject>") [] ;;
  put (delete_project project_uuid) create_project_headers NoPayload ;;
  ret tt.

Definition __upload_sbom (fuel : nat) (project_uuid bom_str_file : value) : M value :=
  api_key <- __get_api_key fuel ;;
  let fields :=
    [("project", project_uuid);
     ("autoCreate", VStr "false");
     ("bom", VList [VStr "filename"; bom_str_file; VStr "multipart/form-data"])] in
  boundary <- multipart_encoder fields ;;
  let content_type := VStr ("multipart/form-data; boundary=" +:+ boundary) in
  let bom_upload_headers :=
    [("X-Api-Key", api_key);
     ("Accept", VStr "application/json");
     ("Content-Type", content_type)] in
  logger_info (VStr "<BomUploadHeaders>") [] ;;
  logger_info (VDict bom_upload_headers) [] ;;
  logger_info (VStr "</BomUploadHeaders>") [] ;;
  upload_sbom_rsp <- post post_sbom bom_upload_headers (Multipart boundary fields) ;;
  json <- json_of upload_sbom_rsp ;;
  getitem json "token".

Definition __get_body_from_event (event : value) : M value :=
  event_dict <- match event with
                | VDict _ => ret event
                | VStr _ => py_loads event
                | _ => ret (VDict [])
                end ;;
  has_records <- contains "Records" event_dict ;;
  event_dict <- (if has_records then
                   records <- getitem event_dict "Records" ;;
                   getitem0 records
                 else ret event_dict) ;;
  body <- getitem event_dict "body" ;;
  (* [body.decode("utf-8")]: the bytes are taken to hold text *)
  let body := match body with VBytes b => VStr b | _ => body end in
  py_loads body.

Definition __get_body_from_first_record (event : value) : M value :=
  let event_dict := event in
  has_records <- contains "Records" event_dict ;;
  event_dict <- (if has_records then
                   records <- getitem event_dict "Records" ;;
                   getitem0 records
                 else ret event_dict) ;;
  body <- getitem event_dict "body" ;;
  py_loads body.

Definition __create_pristine_response_obj (bucket_name key : value) : value :=
  VDict
    [("statusCode", VInt 200);
     ("isBase64Encoded", VBool false);
     ("body",
      VStr (dumps (VDict [("valid", VBool true);
                          ("s3BucketName", bucket_name);
                          ("s3ObjectKey", key)])))].

(** [msg] defaults to [None]. *)
Definition __token_response_obj (status_code : Z) (token msg : value) : value :=
  let body := [("token", token)] in
  let body := if truthy msg then dict_set body "error" msg else body in
  VDict
    [("statusCode", VInt status_code);
     ("isBase64Encoded", VBool false);
     ("body", VStr (dumps (VDict body)))].

End DependencyTrack.

(** ** cyclonedx/api.py *)

(** Code of the repository that api.py imports but that is not under src/,
    taken as parameters: [CycloneDxCore.validate] (from cyclonedx.core), which
    returns or raises; and, from cyclonedx.util, [__generate_sbom_api_token],
    which may do anything a Python function can, and [__get_token_index], the
    lookup of a token in a team's token list. *)
Class Helpers `{AN : Analyzer} `{DY : Dynamo} : Type := {
  core_validate : value -> option Exn;
  __generate_sbom_api_token : M value;
  __get_token_index : value -> value -> M value
}.

(** [str(err)] for a caught exception.  The texts of the built-in exceptions
    are Python's; a [ClientError] carries its own. *)
Definition exn_str (e : Exn) : string :=
  match e with
  | KeyError k => "'" +:+ k +:+ "'"
  | IndexError => "list index out of range"
  | TypeError => "TypeError"
  | JSONDecodeError => "JSONDecodeError"
  | ValidationError t => t
  | RequestException => "RequestException"
  | ParameterNotFound => "ParameterNotFound"
  | ParameterAlreadyExists => "ParameterAlreadyExists"
  | ParamValidationError => "ParamValidationError"
  | ClientError t => t
  | AttributeError => "AttributeError"
  | ValueError => "ValueError"
  | RecursionError => "maximum recursion depth exceeded"
  | PyException msg => msg
  end.

Section Api.

Context `{AN : Analyzer} `{DY : Dynamo} `{JS : Json} `{EN : Entropy} `{EC : Encoder}.
Context `{HP : !Helpers}.

(** [core.validate(bom_obj)] *)
Definition validate (bom_obj : value) : M unit :=
  match core_validate bom_obj with
  | None => ret tt
  | Some e => raise e
  end.

Definition pristine_sbom_ingress_handler (event context : value) : M value :=
  bom_obj <- __get_body_from_event event ;;
  (* Get the bucket name from the environment variable *)
  bucket_name <- environ_get SBOM_BUCKET_NAME_KEY ;;
  (* Generate the name of the object in S3 *)
  u <- uuid4 ;;
  let key := VStr ("sbom-" +:+ uuid_str u) in
  (* Create a response object to add values to. *)
  let response_obj := __create_pristine_response_obj bucket_name key in
  try_except
    ((* Validate the BOM here *)
     validate bom_obj ;;
     (* Actually put the object in S3 *)
     token <- __generate_sbom_api_token ;;
     let metadata := [(ENRICHMENT_ID, token)] in
     (* Extract the actual SBOM. *)
     let bom_bytes := dumps bom_obj in
     s3_put bucket_name key bom_bytes metadata ;;
     ret response_obj)
    is_ValidationError
    (fun validation_error =>
       match response_obj with
       | VDict d =>
           let d := dict_set d "statusCode" (VInt 400) in
           let d := dict_set d "body" (VStr (exn_str validation_error)) in
           ret (VDict d)
       | _ => raise TypeError
       end).

(** [frames] is what the recursion limit leaves to [__create_project]. *)
Definition dt_interface_handler (frames fuel : nat) (event context : value)
  : M value :=
  (* Currently making sure it isn't empty *)
  __validate event ;;
  (* Extract the body from the first Record in the event. *)
  s3_info <- __get_body_from_first_record event ;;
  bucket_name <- getitem s3_info SBOM_BUCKET_NAME_KEY ;;
  key <- getitem s3_info SBOM_S3_KEY ;;
  (* Get the SBOM from the bucket and stick it into a string based file handle. *)
  s3_object <- s3_get bucket_name key ;;
  let sbom := Body s3_object in
  (* [sbom.decode("utf-8")]: the object is taken to hold text *)
  let d_sbom := VStr sbom in
  let bom_str_file := d_sbom in
  (* Create a new Dependency Track Project to analyze the SBOM *)
  project_uuid <- __create_project frames fuel ;;
  (* Upload the SBOM to DT into the temp project *)
  sbom_token <- __upload_sbom fuel project_uuid bom_str_file ;;
  (* Poll DT to see when the SBOM is finished being analyzed. *)
  findings <- __get_findings fuel project_uuid sbom_token ;;
  (* Clean up the project we made to do the processing *)
  __delete_project fuel project_uuid ;;
  (* Dump the findings into a byte array and store them in the S3 bucket *)
  let findings_bytes := dumps findings in
  original_key <- getitem s3_info SBOM_S3_KEY ;;
  let findings_key := VStr ("findings-" +:+ py_str original_key) in
  s3_put bucket_name findings_key findings_bytes [] ;;
  ret (VBool true).

Definition delete_token_handler (event context : value) : M value :=
  (* Grab the team and the token from the path parameters *)
  path_parameters <- getitem event "pathParameters" ;;
  team_name <- getitem path_parameters "team" ;;
  path_parameters <- getitem event "pathParameters" ;;
  token <- getitem path_parameters "token" ;;
  (* Set the Key for update_item(). The Id is the team name *)
  let key := VDict [("Id", team_name)] in
  (* Get the team from the table *)
  get_item_rsp <- table_get_item TEAM_TABLE_NAME key ;;
  (* Extract the existing tokens and find the index of the token *)
  team <- getitem get_item_rsp "Item" ;;
  tokens <- getitem team "tokens" ;;
  index <- __get_token_index tokens token ;;
  (* If the key is found belonging to the team *)
  if truthy index then
    let update_expression := "REMOVE #t[" +:+ py_str index +:+ "]" in
    let exp_attr_names := [("#t", "tokens")] in
    try_except
      ((* Get rid of the token *)
       table_update_item TEAM_TABLE_NAME key update_expression exp_attr_names ;;
       (* Craft a response saying the operation went well *)
       ret (__token_response_obj 200 token VNone))
      (fun _ => true)
      (fun err =>
         ret (__token_response_obj 500 token
                (VStr ("Request Error: " +:+ exn_str err))))
  else
    (* If no token exists, tell them we couldn't find it. *)
    ret (__token_response_obj 401 token
           (VStr ("No such token(" +:+ py_str token +:+ ") belongs to team("
                  +:+ py_str team_name +:+ ") "))).

End Api.

(** ** The rest of dependency_track.py and of api.py *)

Section MoreFunctions.

Context `{AN : Analyzer} `{DY : Dynamo} `{JS : Json} `{EN : Entropy}.

(** [str(type(v))], which is what the log line of [__get_records_from_event]
    shows of [type(event)]. *)
Definition type_name (v : value) : string :=
  match v with
  | VNone => "<class 'NoneType'>"
  | VBool _ => "<class 'bool'>"
  | VInt _ => "<class 'int'>"
  | VStr _ => "<class 'str'>"
  | VBytes _ => "<class 'bytes'>"
  | VList _ => "<class 'list'>"
  | VDict _ => "<class 'dict'>"
  end.

Definition __get_records_from_event (event : value) : M value :=
  logger_info (VStr "Incoming Event: %s") [event] ;;
  logger_info (VStr "Incoming Event Type: %s") [VStr (type_name event)] ;;
  event_dict <- match event with
                | VDict _ => ret event
                | VStr _ => py_loads event
                | _ => ret (VDict [])
                end ;;
  has_records <- contains "Records" event_dict ;;
  if has_records then getitem event_dict "Records"
  else raise (KeyError "No 'Records' Key in event").

Definition allow_policy (method_arn : value) : value :=
  VDict
    [("principalId", VStr "apigateway.amazonaws.com");
     ("policyDocument",
      VDict
        [("Version", VStr "2012-10-17");
         ("Statement",
          VList [VDict [("Action", VStr "execute-api:Invoke");
                        ("Effect", VStr "Allow");
                        ("Resource", method_arn)]])])].

Definition deny_policy : value :=
  VDict
    [("principalId", VStr "*");
     ("policyDocument",
      VDict
        [("Version", VStr "2012-10-17");
         ("Statement",
          VList [VDict [("Action", VStr "*");
                        ("Effect", VStr "Deny");
                        ("Resource", VStr "*")]])])].

Definition verify_token (token : value) : value := VBool true.

Definition jwt_authorizer_handler (event context : value) : M value :=
  method_arn <- getitem event "methodArn" ;;
  token <- getitem event "authorizationToken" ;;
  ret (if truthy (verify_token token) then allow_policy method_arn else deny_policy).

End MoreFunctions.


(** ** Reading a trace *)

Definition is_grant_url (u : Endpoint) : bool :=
  match u with add_permission_to_team _ _ => true | _ => false end.

Definition is_rotate_url (u : Endpoint) : bool :=
  match u with rotate_api_key _ => true | _ => false end.

Definition is_delete_url (u : Endpoint) : bool :=
  match u with delete_project _ => true | _ => false end.

Definition is_status_url (u : Endpoint) : bool :=
  match u with get_sbom_status _ => true | _ => false end.

Definition is_create_url (u : Endpoint) : bool :=
  match u with create_project => true | _ => false end.

(** The requests of a trace that went to an endpoint of the given kind. *)
Definition http_to (kind : Endpoint -> bool) (e : Event) : bool :=
  match e with
  | EHttp rq _ => kind (rq_url rq)
  | _ => false
  end.

Definition is_sleep (e : Event) : bool :=
  match e with ESleep _ => true | _ => false end.

Definition is_warning (e : Event) : bool :=
  match e with
  | ELog WARNING _ _ | ELog ERROR _ _ => true
  | _ => false
  end.

Definition is_s3_put (e : Event) : bool :=
  match e with ES3Put _ _ _ _ => true | _ => false end.

Definition is_ssm_put (e : Event) : bool :=
  match e with ESsmPut _ _ _ => true | _ => false end.

Definition is_ddb_update (e : Event) : bool :=
  match e with EDdbUpdate _ _ _ _ => true | _ => false end.

Fixpoint count_events (p : Event -> bool) (tr : list Event) : nat :=
  match tr with
  | [] => O
  | e :: rest => ((if p e then 1 else 0) + count_events p rest)%nat
  end.

(** The permission grants of a trace, in order: permission and team. *)
Fixpoint granted (tr : list Event) : list (string * value) :=
  match tr with
  | [] => []
  | EHttp rq _ :: rest =>
      match rq_method rq, rq_url rq with
      | POST, add_permission_to_team perm team => (perm, team) :: granted rest
      | _, _ => granted rest
      end
  | _ :: rest => granted rest
  end.

(** The projects a trace asked the Analyzer to delete, in order. *)
Fixpoint deleted_projects (tr : list Event) : list value :=
  match tr with
  | [] => []
  | EHttp rq _ :: rest =>
      match rq_url rq with
      | delete_project p => p :: deleted_projects rest
      | _ => deleted_projects rest
      end
  | _ :: rest => deleted_projects rest
  end.

(** The pauses of a trace, in seconds, in order. *)
Fixpoint sleeps (tr : list Event) : list Q :=
  match tr with
  | [] => []
  | ESleep s :: rest => s :: sleeps rest
  | _ :: rest => sleeps rest
  end.

Section Outcomes.

Context `{AN : Analyzer} `{DY : Dynamo}.

(** The world a computation stopped in, whatever the outcome. *)
Definition world_of {A} (r : Res A) : World :=
  match r with
  | Ok _ w => w
  | Raise _ w => w
  | OutOfFuel w => w
  end.

(** [m] only ever appends events that satisfy [P]. *)
Definition appends (p : Event -> bool) {A} (m : M A) : Prop :=
  forall w, exists l, trace (world_of (m w)) = trace w ++ l /\ forallb p l = true.

(** The Analyzer answers every request (no transport failure). *)
Definition always_answers : Prop :=
  forall rq d, exists r, fst (dt_send rq d) = Resp r.

End Outcomes.

(** ** The requests and events the code is expected to produce *)

Section Expected.

Context `{AN : Analyzer} `{DY : Dynamo} `{JS : Json} `{EN : Entropy}.

(** The request [__change_dt_root_pwd] sends for a new password. *)
Definition force_chg_request (new_pwd : string) : Request :=
  mkRequest POST force_chg_pwd
    [("Content-Type", VStr "application/x-www-form-urlencoded");
     ("Accept", VStr "text/plain")]
    (FormData
       [("username", VStr DT_DEFAULT_ADMIN_PWD);
        ("password", VStr DT_DEFAULT_ADMIN_PWD);
        ("newPassword", VStr new_pwd);
        ("confirmPassword", VStr new_pwd)]).

(** The events of one run of [__change_dt_root_pwd]. *)
Definition change_events (new_pwd : string) (r : Response) : list Event :=
  [ELog INFO (VStr "@START __change_dt_root_pwd()") [];
   ELog INFO (VStr "NEW PASSWORD __change_dt_root_pwd %s") [VStr new_pwd];
   EHttp (force_chg_request new_pwd) (Resp r);
   ESsmPut DT_ROOT_PWD (VStr new_pwd) true;
   ELog INFO (VStr "END __change_dt_root_pwd() -> new Pwd %s") [VStr new_pwd]].

(** Any event but a request to a delete-project endpoint or a write to the
    blob store. *)
Definition analysis_event (e : Event) : bool :=
  negb (http_to is_delete_url e) && negb (is_s3_put e).

(** [m] leaves the world as it found it, whatever its outcome. *)
Definition pure {A} (m : M A) : Prop := forall w, world_of (m w) = w.

(** The request [__delete_project] sends with the API key [k]. *)
Definition delete_request (k project_uuid : value) : Request :=
  mkRequest PUT (delete_project project_uuid)
    [("X-Api-Key", k);
     ("Content-Type", VStr "application/json");
     ("Accept", VStr "application/json")]
    NoPayload.

(** The events of [__delete_project] when the API key [k] is in the Secret
    Store and the Analyzer's answer is [res]. *)
Definition delete_events (k : string) (project_uuid : value) (res : NetResult)
  : list Event :=
  [ESsmGet DT_API_KEY;
   ELog INFO (VStr "<DeletingProject>") [];
   ELog INFO project_uuid [];
   ELog INFO (VStr "</DeletingProject>") [];
   EHttp (delete_request (VStr k) project_uuid) res].

(** The login request of [__get_jwt] for the admin password [pwd], and the
    events that go with it when the Analyzer answers [r]. *)
Definition login_request (pwd : string) : Request :=
  mkRequest POST do_login
    [("Content-Type", VStr "application/x-www-form-urlencoded");
     ("Accept", VStr "text/plain")]
    (FormData [("username", VStr "admin"); ("password", VStr pwd)]).

Definition login_events (pwd : string) (r : Response) : list Event :=
  [ELog INFO (VStr "GetJwtRequest ep=%s headers=%s params= %s")
     [VStr (dt_url do_login);
      VDict [("Content-Type", VStr "application/x-www-form-urlencoded");
             ("Accept", VStr "text/plain")];
      VDict [("username", VStr "admin"); ("password", VStr pwd)]];
   EHttp (login_request pwd) (Resp r);
   ELog INFO (VStr "END __get_jwt %s") [VStr (text r)]].

Definition is_admin_url (u : Endpoint) : bool :=
  match u with force_chg_pwd | do_login => true | _ => false end.

(** What authenticating as admin may leave in the trace: log lines at level
    INFO, reads and writes of the admin password, and requests to the
    force-change-password and login endpoints. *)
Definition admin_event (e : Event) : bool :=
  match e with
  | ELog INFO _ _ => true
  | ESsmGet name => String.eqb name DT_ROOT_PWD
  | ESsmPut name _ _ => String.eqb name DT_ROOT_PWD
  | EHttp rq _ => is_admin_url (rq_url rq)
  | _ => false
  end.

(** The Analyzer answers every request to an endpoint of the given kind. *)
Definition answers (kind : Endpoint -> bool) : Prop :=
  forall rq d, kind (rq_url rq) = true -> exists r, fst (dt_send rq d) = Resp r.

(** The admin password can be had from [w] with this much fuel: one unit when
    it is stored, two when it has to be rotated first. *)
Definition enough_fuel (fuel : nat) (w : World) : Prop :=
  (2 <= fuel)%nat \/
  ((1 <= fuel)%nat /\ exists p, ssm w !! DT_ROOT_PWD = Some p /\ p <> EMPTY_VALUE).

(** [w'] is [w] after authenticating as admin with the session token [jwt]:
    the trace has grown by admin events that end with the login whose answer
    carries [jwt], the admin password is stored, and the other secrets are
    untouched. *)
Definition admin_step (w w' : World) (jwt : string) : Prop :=
  (exists l p r,
     trace w' = trace w ++ l ++ login_events p r /\
     forallb admin_event l = true /\
     jwt = text r /\
     ssm w' !! DT_ROOT_PWD = Some p /\ p <> EMPTY_VALUE) /\
  (forall name, name <> DT_ROOT_PWD -> ssm w' !! name = ssm w !! name).

(** The request [__rotate_api_key] sends for the stored key [k] with the
    session token [jwt]. *)
Definition rotate_request (k jwt : string) : Request :=
  mkRequest POST (rotate_api_key (VStr k))
    [("Authorization", VStr ("Bearer " +:+ jwt));
     ("Accept", VStr "application/json")]
    NoPayload.

(** Every rotation request is answered with a JSON object whose ["key"] is a
    string that the Secret Store takes as a value and that is not the [EMPTY]
    placeholder. *)
Definition rotates : Prop :=
  forall rq d,
    is_rotate_url (rq_url rq) = true ->
    exists r body k',
      fst (dt_send rq d) = Resp r /\
      loads (text r) = Some (VDict body) /\
      dict_get body "key" = Some (VStr k') /\
      ssm_value_ok k' = true /\
      k' <> EMPTY_VALUE.

(** Every rotation request is answered with a JSON object whose ["key"] is
    the empty string. *)
Definition rotates_to_nothing : Prop :=
  forall rq d,
    is_rotate_url (rq_url rq) = true ->
    exists r body,
      fst (dt_send rq d) = Resp r /\
      loads (text r) = Some (VDict body) /\
      dict_get body "key" = Some (VStr "").



(** The Analyzer reports every job as still processing, whenever asked. *)
Definition never_ready : Prop :=
  forall rq d,
    is_status_url (rq_url rq) = true ->
    exists r body processing,
      fst (dt_send rq d) = Resp r /\
      loads (text r) = Some (VDict body) /\
      dict_get body "processing" = Some processing /\
      truthy processing = true.

(** The values of the put calls of a trace for the secret [name], in order. *)
Fixpoint ssm_writes (name : string) (tr : list Event) : list value :=
  match tr with
  | [] => []
  | ESsmPut n v _ :: rest =>
      if String.eqb n name then v :: ssm_writes name rest else ssm_writes name rest
  | _ :: rest => ssm_writes name rest
  end.

Definition is_teams_url (u : Endpoint) : bool :=
  match u with get_teams_data => true | _ => false end.

(** The Analyzer answers every team listing with the JSON array [teams]. *)
Definition lists_teams (teams : list value) : Prop :=
  forall rq d,
    is_teams_url (rq_url rq) = true ->
    exists r, fst (dt_send rq d) = Resp r /\ loads (text r) = Some (VList teams).

(** A team object with a name other than "Automation". *)
Definition other_team (t : value) : Prop :=
  exists d name,
    t = VDict d /\ dict_get d "name" = Some name /\ eq_str name "Automation" = false.

(** The team object named "Automation", with its uuid and the string [k] as
    the key of its first API key. *)
Definition automation_team (t uuid : value) (k : string) : Prop :=
  exists d first_key more_keys,
    t = VDict d /\
    dict_get d "name" = Some (VStr "Automation") /\
    dict_get d "uuid" = Some uuid /\
    dict_get d "apiKeys" = Some (VList (VDict first_key :: more_keys)) /\
    dict_get first_key "key" = Some (VStr k).

(** Neither a permission grant nor a write of the API key. *)
Definition bootstrap_quiet (e : Event) : bool :=
  match e with
  | EHttp rq _ => negb (is_grant_url (rq_url rq))
  | ESsmPut name _ _ => negb (String.eqb name DT_API_KEY)
  | _ => true
  end.

(** The request [__upload_sbom] sends with the stored key [k]; the boundary is
    the one [MultipartEncoder] drew. *)
Definition upload_headers (k boundary : string) : list (string * value) :=
  [("X-Api-Key", VStr k);
   ("Accept", VStr "application/json");
   ("Content-Type", VStr ("multipart/form-data; boundary=" +:+ boundary))].

(** The fields [__upload_sbom] hands to the encoder. *)
Definition upload_fields (project_uuid bom : value) : list (string * value) :=
  [("project", project_uuid);
   ("autoCreate", VStr "false");
   ("bom", VList [VStr "filename"; bom; VStr "multipart/form-data"])].

Definition upload_request (k boundary : string) (project_uuid bom : value) : Request :=
  mkRequest POST post_sbom (upload_headers k boundary)
    (Multipart boundary (upload_fields project_uuid bom)).

Definition upload_events (k boundary : string) (project_uuid bom : value)
  (r : Response) : list Event :=
  [ESsmGet DT_API_KEY;
   ELog INFO (VStr "<BomUploadHeaders>") [];
   ELog INFO (VDict (upload_headers k boundary)) [];
   ELog INFO (VStr "</BomUploadHeaders>") [];
   EHttp (upload_request k boundary project_uuid bom) (Resp r)].

(** The request [__create_project] sends with the stored key [k] for a project
    named [name]. *)
Definition create_request (k name : string) : Request :=
  mkRequest PUT create_project
    [("X-Api-Key", VStr k);
     ("Content-Type", VStr "application/json");
     ("Accept", VStr "application/json")]
    (JsonPayload
       (VDict [("author", VStr "EnrichmentLambda");
               ("version", VStr "1.0.0");
               ("classifier", VStr "APPLICATION");
               ("name", VStr name);
               ("description", VStr "auto generated project")])).

(** What a function makes of a response whose JSON body it indexes with
    [field]: the value there, or the exception Python raises. *)
Definition field_of_body (r : Response) (field : string) (w : World) : Res value :=
  match loads (text r) with
  | Some (VDict body) =>
      match dict_get body field with
      | Some v => Ok v w
      | None => Raise (KeyError field) w
      end
  | Some _ => Raise TypeError w
  | None => Raise JSONDecodeError w
  end.

(** The status request of [__findings_ready]. *)
Definition status_request (key sbom_token : value) : Request :=
  mkRequest GET (get_sbom_status sbom_token)
    [("X-Api-Key", key); ("Accept", VStr "application/json")]
    NoPayload.

(** The Analyzer, in state [d], reports the job as still processing for the
    next [k] status requests and as done for the one after. *)
Fixpoint done_after (k : nat) (key sbom_token : value) (d : DT) : Prop :=
  exists r body processing,
    fst (dt_send (status_request key sbom_token) d) = Resp r /\
    loads (text r) = Some (VDict body) /\
    dict_get body "processing" = Some processing /\
    match k with
    | O => truthy processing = false
    | S k' =>
        truthy processing = true /\
        done_after k' key sbom_token (snd (dt_send (status_request key sbom_token) d))
    end.

(** The Analyzer's state after [n] status requests. *)
Fixpoint polled (n : nat) (key sbom_token : value) (d : DT) : DT :=
  match n with
  | O => d
  | S n' => polled n' key sbom_token (snd (dt_send (status_request key sbom_token) d))
  end.

(** The findings request of [__get_findings]. *)
Definition findings_request (key project_uuid : value) : Request :=
  mkRequest GET (get_findings project_uuid)
    [("X-Api-Key", key); ("Accept", VStr "application/json")]
    NoPayload.

Definition is_findings_url (u : Endpoint) : bool :=
  match u with get_findings _ => true | _ => false end.

(** A team object named "Automation" that has a uuid but no API key. *)
Definition keyless_automation_team (t : value) : Prop :=
  exists d uuid,
    t = VDict d /\
    dict_get d "name" = Some (VStr "Automation") /\
    dict_get d "uuid" = Some uuid /\
    dict_get d "apiKeys" = Some (VList []).

(** The events of a run of [__change_dt_root_pwd] whose request got no answer. *)
Definition failed_change_events (new_pwd : string) : list Event :=
  [ELog INFO (VStr "@START __change_dt_root_pwd()") [];
   ELog INFO (VStr "NEW PASSWORD __change_dt_root_pwd %s") [VStr new_pwd];
   EHttp (force_chg_request new_pwd) ConnErr].

Definition is_dict (v : value) : bool :=
  match v with VDict _ => true | _ => false end.

Definition not_s3_put (e : Event) : bool := negb (is_s3_put e).

(** Unless [m] returns, it has only appended events that satisfy [p]. *)
Definition fails_quietly (p : Event -> bool) {A} (m : M A) : Prop :=
  forall w,
    match m w with
    | Ok _ _ => True
    | Raise _ w' | OutOfFuel w' =>
        exists l, trace w' = trace w ++ l /\ forallb p l = true
    end.

Definition is_force_chg_url (u : Endpoint) : bool :=
  match u with force_chg_pwd => true | _ => false end.

(** Neither a force-change-password request nor a write of the admin
    password. *)
Definition no_root_change (e : Event) : bool :=
  match e with
  | EHttp rq _ => negb (is_force_chg_url (rq_url rq))
  | ESsmPut name _ _ => negb (String.eqb name DT_ROOT_PWD)
  | _ => true
  end.

(** Started with [p] as the stored admin password, [m] stops, whatever its
    outcome, with [p] still stored and without having tried to change it. *)
Definition keeps_root (p : string) {A} (m : M A) : Prop :=
  forall w,
    ssm w !! DT_ROOT_PWD = Some p ->
    ssm (world_of (m w)) !! DT_ROOT_PWD = Some p /\
    exists l, trace (world_of (m w)) = trace w ++ l /\ forallb no_root_change l = true.

(** The update [delete_token_handler] asks of the team table for the index [i]. *)
Definition remove_expression (i : Z) : string := "REMOVE #t[" +:+ pretty i +:+ "]".

(** The Analyzer, in state [d], reports the job as still processing for the
    next [k] status requests; the one after fails in transport. *)
Fixpoint lost_after (k : nat) (key sbom_token : value) (d : DT) : Prop :=
  match k with
  | O => fst (dt_send (status_request key sbom_token) d) = ConnErr
  | S k' =>
      exists r body processing,
        fst (dt_send (status_request key sbom_token) d) = Resp r /\
        loads (text r) = Some (VDict body) /\
        dict_get body "processing" = Some processing /\
        truthy processing = true /\
        lost_after k' key sbom_token (snd (dt_send (status_request key sbom_token) d))
  end.

End Expected.

Section ExpectedOfHelpers.

Context `{AN : Analyzer} `{DY : Dynamo} `{JS : Json} `{EN : Entropy}.
Context `{HP : !Helpers}.

(** What is assumed of the absent [__get_token_index]: for a token that is the
    first of the list it gives that position, the integer 0, and has no
    effect. *)
Definition first_token_has_index_zero : Prop :=
  forall (first : list (string * value)) (rest : list value) (token : string)
         (w : World),
    dict_get first "token" = Some (VStr token) ->
    __get_token_index (VList (VDict first :: rest)) (VStr token) w = Ok (VInt 0) w.

(** The text of the "no such token" answer of [delete_token_handler]. *)
Definition no_such_token (token team_name : value) : string :=
  "No such token(" +:+ py_str token +:+ ") belongs to team("
  +:+ py_str team_name +:+ ") ".

End ExpectedOfHelpers.

(** ** A stub Analyzer and its surroundings

    Concrete instances of the collaborators, on which the statements below are
    run: a Dependency Track stand-in configured by the status it gives to
    project creation, the number of status polls it answers with
    [processing: true], and what happens to a delete request. *)

Module Stub.

Record Config : Type := mkConfig {
  create_status : Z;
  ready_after : option nat;       (* [None]: never ready *)
  delete_result : NetResult
}.

(** The texts the stub sends, and what they parse to. *)
Definition stub_loads (s : string) : option value :=
  if String.eqb s "TEAMS" then
    Some (VList
            [VDict [("name", VStr "Administrators"); ("uuid", VStr "team-0");
                    ("apiKeys", VList [])];
             VDict [("name", VStr "Automation"); ("uuid", VStr "team-1");
                    ("apiKeys", VList [VDict [("key", VStr "key-0")];
                                       VDict [("key", VStr "key-00")]])]])
  else if String.eqb s "PROJECT" then Some (VDict [("uuid", VStr "proj-1")])
  else if String.eqb s "TOKEN" then Some (VDict [("token", VStr "tok-1")])
  else if String.eqb s "PROCESSING" then Some (VDict [("processing", VBool true)])
  else if String.eqb s "DONE" then Some (VDict [("processing", VBool false)])
  else if String.eqb s "FINDINGS" then Some (VDict [("vulns", VList [])])
  else if String.eqb s "ROTATED" then Some (VDict [("key", VStr "key-1")])
  else if String.eqb s "MESSAGE" then
    Some (VDict [(SBOM_BUCKET_NAME_KEY, VStr "sboms"); (SBOM_S3_KEY, VStr "sbom-abc")])
  else if String.eqb s "BOM" then
    Some (VDict [("bomFormat", VStr "CycloneDX"); ("specVersion", VStr "1.4")])
  else if String.eqb s "NOT-A-BOM" then Some (VDict [("hello", VStr "world")])
  else None.

(** A plain rendering, enough to tell values apart. *)
Fixpoint stub_dumps (v : value) : string :=
  match v with
  | VNone => "null"
  | VBool true => "true"
  | VBool false => "false"
  | VInt z => pretty z
  | VStr s => "'" +:+ s +:+ "'"
  | VBytes s => "b'" +:+ s +:+ "'"
  | VList l =>
      "[" +:+ (fix items (l : list value) : string :=
                 match l with
                 | [] => ""
                 | x :: rest => stub_dumps x +:+ "," +:+ items rest
                 end) l +:+ "]"
  | VDict d =>
      "{" +:+ (fix items (d : list (string * value)) : string :=
                 match d with
                 | [] => ""
                 | (k, x) :: rest => "'" +:+ k +:+ "':" +:+ stub_dumps x +:+ "," +:+ items rest
                 end) d +:+ "}"
  end.

#[export] Instance stub_json : Json :=
  {| loads := stub_loads; dumps := stub_dumps; repr := stub_dumps |}.

#[export] Instance stub_entropy : Entropy :=
  {| urandom16 := fun n => (0x0123456789abcdef0123456789abcdef + N.of_nat n)%N |}.

(** An encoder that takes text and bytes as the content of a part and refuses
    anything else; a field that is a list is a file tuple of two to four
    entries, the second of which is the content. *)
Definition stub_part_error (v : value) : option Exn :=
  match v with
  | VStr _ | VBytes _ => None
  | _ => Some AttributeError
  end.

Definition stub_field_error (v : value) : option Exn :=
  match v with
  | VList [_; data] | VList [_; data; _] | VList [_; data; _; _] =>
      stub_part_error data
  | VList _ => Some ValueError
  | _ => stub_part_error v
  end.

Fixpoint stub_encoder_error (fields : list (string * value)) : option Exn :=
  match fields with
  | [] => None
  | (_, v) :: rest =>
      match stub_field_error v with
      | Some e => Some e
      | None => stub_encoder_error rest
      end
  end.

Definition stub_encoder_unencodable (k : string) (v : value)
  (rest : list (string * value)) :
  unencodable v = true -> stub_encoder_error ((k, v) :: rest) = Some AttributeError.
Proof. destruct v; (discriminate || reflexivity). Qed.

#[export] Instance stub_encoder : Encoder :=
  {| encoder_error := stub_encoder_error;
     encoder_error_unencodable := stub_encoder_unencodable |}.

Definition ok (body : string) : NetResult := Resp (mkResponse 200 body).

(** The stub's state is the number of status polls it has answered. *)
Definition stub_send (cfg : Config) (rq : Request) (polls : nat) : NetResult * nat :=
  match rq_url rq with
  | force_chg_pwd => (ok "", polls)
  | do_login => (ok "jwt-1", polls)
  | get_teams_data => (ok "TEAMS", polls)
  | add_permission_to_team _ _ => (ok "", polls)
  | get_sbom_status _ =>
      (match ready_after cfg with
       | Some n => if (polls <? n)%nat then ok "PROCESSING" else ok "DONE"
       | None => ok "PROCESSING"
       end, S polls)
  | get_findings _ => (ok "FINDINGS", polls)
  | rotate_api_key _ => (ok "ROTATED", polls)
  | create_project =>
      (if create_status cfg =? 401 then Resp (mkResponse 401 "")
       else Resp (mkResponse (create_status cfg) "PROJECT"), polls)
  | delete_project _ => (delete_result cfg, polls)
  | post_sbom => (ok "TOKEN", polls)
  end.

Definition stub_analyzer (cfg : Config) : Analyzer :=
  {| DT := nat; dt_send := stub_send cfg; dt_url := fun _ => "http://dt/api" |}.

(** A team table that holds one item per team and accepts every update. *)
#[export] Instance stub_dynamo : Dynamo :=
  {| DDB := list (string * value);
     ddb_get_item := fun _ key table =>
       (inr (match key with
             | VDict [(_, VStr id)] =>
                 match dict_get table id with
                 | Some item => VDict [("Item", item)]
                 | None => VDict []
                 end
             | _ => VDict []
             end), table);
     ddb_update_item := fun _ _ _ _ table => (inr tt, table) |}.

(** Modelled from the spec: [__get_token_index] (cyclonedx.util) is not under
    src/.  The spec calls it the token-index lookup used "for deleting an
    automation token on a team": the position in the list of the entry whose
    ["token"] is the one asked for.  What it gives for a token that is not in
    the list is not said; [None] is used here. *)
Fixpoint token_index_from (i : Z) (tokens : list value) (token : string) : value :=
  match tokens with
  | [] => VNone
  | VDict d :: rest =>
      match dict_get d "token" with
      | Some t => if eq_str t token then VInt i else token_index_from (i + 1) rest token
      | None => token_index_from (i + 1) rest token
      end
  | _ :: rest => token_index_from (i + 1) rest token
  end.

Definition stub_helpers (cfg : Config) : @Helpers (stub_analyzer cfg) stub_dynamo :=
  {| core_validate := fun bom =>
       match bom with
       | VDict d =>
           match dict_get d "bomFormat" with
           | Some _ => None
           | None => Some (ValidationError "'bomFormat' is a required property")
           end
       | _ => Some (ValidationError "not of type 'object'")
       end;
     __generate_sbom_api_token :=
       @bind (stub_analyzer cfg) stub_dynamo _ _
         (@uuid4 (stub_analyzer cfg) stub_dynamo stub_entropy)
         (fun u => ret (VStr ("sbom-api-" +:+ uuid_str u)));
     __get_token_index := fun tokens token =>
       match tokens, token with
       | VList l, VStr t => ret (token_index_from 0 l t)
       | _, _ => raise TypeError
       end |}.

Definition world (cfg : Config) (secrets : list (string * string))
  (objects : list (string * string * S3Object)) (env : list (string * string))
  (table : list (string * value)) : @World (stub_analyzer cfg) stub_dynamo :=
  @mkWorld (stub_analyzer cfg) stub_dynamo
    (list_to_map secrets) (list_to_map objects) (list_to_map env) O table O [].

(** The scenario of the spec: two polls report [processing: true], the third
    [false]; the delete succeeds. *)
Definition happy : Config := mkConfig 201 (Some 2%nat) (ok "").


Definition stuck : Config := mkConfig 201 None (ok "").

Definition delete_refused : Config :=
  mkConfig 201 (Some 2%nat) (Resp (mkResponse 500 "Internal Server Error")).

Definition delete_unreachable : Config := mkConfig 201 (Some 2%nat) ConnErr.

Definition warm_secrets : list (string * string) :=
  [(DT_API_KEY, "key-0"); (DT_ROOT_PWD, "s3cret")].

Definition sbom_objects : list (string * string * S3Object) :=
  [("sboms", "sbom-abc", mkS3Object "BOM" [(ENRICHMENT_ID, VStr "sbom-api-1")])].

Definition message : value :=
  VDict [("Records", VList [VDict [("body", VStr "MESSAGE")]])].

(** The world of a configuration with both secrets stored and the SBOM of the
    spec's scenario in the bucket. *)
Definition warm (cfg : Config) : @World (stub_analyzer cfg) stub_dynamo :=
  world cfg warm_secrets sbom_objects [(SBOM_BUCKET_NAME_KEY, "sboms")] [].

(** The world of a configuration before anything was provisioned. *)
Definition cold (cfg : Config) : @World (stub_analyzer cfg) stub_dynamo :=
  world cfg [] sbom_objects [(SBOM_BUCKET_NAME_KEY, "sboms")] [].

(** A team whose first token is ["sbom-api-1"]. *)
Definition team_a : value :=
  VDict [("Id", VStr "team-a");
         ("tokens", VList [VDict [("name", VStr "ci"); ("token", VStr "sbom-api-1")];
                           VDict [("name", VStr "cd"); ("token", VStr "sbom-api-2")]])].

Definition with_team_a : @World (stub_analyzer happy) stub_dynamo :=
  world happy warm_secrets [] [] [("team-a", team_a)].

Definition delete_event (token : string) : value :=
  VDict [("pathParameters", VDict [("team", VStr "team-a"); ("token", VStr token)])].

(** The run of the orchestrator on the scenario, and the worlds it goes
    through: after project creation, after the upload, after the findings were
    fetched. *)
Definition scenario_start (cfg : Config) : @World (stub_analyzer cfg) stub_dynamo :=
  emit (ES3Get (VStr "sboms") (VStr "sbom-abc")) (warm cfg).

Definition scenario_created (cfg : Config) : @World (stub_analyzer cfg) stub_dynamo :=
  world_of (@__create_project (stub_analyzer cfg) _ _ _ 5 5 (scenario_start cfg)).

Definition scenario_uploaded (cfg : Config) : @World (stub_analyzer cfg) stub_dynamo :=
  world_of (@__upload_sbom (stub_analyzer cfg) _ _ _ _ 5 (VStr "proj-1") (VStr "BOM")
              (scenario_created cfg)).

Definition scenario_found (cfg : Config) : @World (stub_analyzer cfg) stub_dynamo :=
  world_of (@__get_findings (stub_analyzer cfg) _ _ _ 5 (VStr "proj-1") (VStr "tok-1")
              (scenario_uploaded cfg)).

Definition scenario_end (cfg : Config) : @World (stub_analyzer cfg) stub_dynamo :=
  world_of (@dt_interface_handler (stub_analyzer cfg) _ _ _ _ 5 5 message VNone
              (warm cfg)).

End Stub.

(** ** A second stub, for the runs that go wrong

    An Analyzer that can be unreachable, and whose team listing, answer to an
    upload and answer to a rotation are chosen by the setup. *)

Module Lab.

Record Setup : Type := mkSetup {
  reachable : bool;
  teams_text : string;
  upload_answer : NetResult;
  rotation_text : string
}.

Definition lab_loads (s : string) : option value :=
  if String.eqb s "ONLY-ADMINS" then
    Some (VList
            [VDict [("name", VStr "Administrators"); ("uuid", VStr "team-0");
                    ("apiKeys", VList [VDict [("key", VStr "key-a")]])]])
  else if String.eqb s "KEYLESS" then
    Some (VList
            [VDict [("name", VStr "Administrators"); ("uuid", VStr "team-0");
                    ("apiKeys", VList [VDict [("key", VStr "key-a")]])];
             VDict [("name", VStr "Automation"); ("uuid", VStr "team-1");
                    ("apiKeys", VList [])]])
  else if String.eqb s "EMPTY-KEY" then
    Some (VList
            [VDict [("name", VStr "Automation"); ("uuid", VStr "team-1");
                    ("apiKeys", VList [VDict [("key", VStr "")]])]])
  else if String.eqb s "ROTATED-TO-NOTHING" then Some (VDict [("key", VStr "")])
  else Stub.stub_loads s.

Definition lab_json : Json :=
  {| loads := lab_loads; dumps := Stub.stub_dumps; repr := Stub.stub_dumps |}.

Definition lab_send (setup : Setup) (rq : Request) (n : nat) : NetResult * nat :=
  if reachable setup then
    match rq_url rq with
    | force_chg_pwd => (Stub.ok "", S n)
    | do_login => (Stub.ok "jwt-1", S n)
    | get_teams_data => (Stub.ok (teams_text setup), S n)
    | add_permission_to_team _ _ => (Stub.ok "", S n)
    | get_sbom_status _ => (Stub.ok "DONE", S n)
    | get_findings _ => (Stub.ok "FINDINGS", S n)
    | rotate_api_key _ => (Stub.ok (rotation_text setup), S n)
    | create_project => (Resp (mkResponse 201 "PROJECT"), S n)
    | delete_project _ => (Stub.ok "", S n)
    | post_sbom => (upload_answer setup, S n)
    end
  else (ConnErr, n).

(** The state of this stub counts the requests it answered. *)
Definition lab_analyzer (setup : Setup) : Analyzer :=
  {| DT := nat; dt_send := lab_send setup; dt_url := fun _ => "http://dt/api" |}.

Definition lab_world (setup : Setup) (secrets : list (string * string))
  : @World (lab_analyzer setup) Stub.stub_dynamo :=
  @mkWorld (lab_analyzer setup) Stub.stub_dynamo
    (list_to_map secrets) (list_to_map Stub.sbom_objects) ∅ O [] O [].

Definition only_admins : Setup :=
  mkSetup true "ONLY-ADMINS" (Stub.ok "TOKEN") "ROTATED".

Definition keyless : Setup := mkSetup true "KEYLESS" (Stub.ok "TOKEN") "ROTATED".

Definition unreachable : Setup := mkSetup false "TEAMS" (Stub.ok "TOKEN") "ROTATED".

(** The Automation team's first key, and the key of every rotation, is the
    empty string. *)
Definition empty_key : Setup :=
  mkSetup true "EMPTY-KEY" (Stub.ok "TOKEN") "ROTATED-TO-NOTHING".

(** The upload is answered with 401 and a body that is not JSON. *)
Definition upload_refused : Setup :=
  mkSetup true "TEAMS" (Resp (mkResponse 401 "Unauthorized")) "ROTATED".

End Lab.

(** * Properties *)

(** ** Strings of uuids *)

Lemma length_append (s1 s2 : string) :
  String.length (s1 +:+ s2) = (String.length s1 + String.length s2)%nat.
Proof.
  induction s1 as [|c s1 IH]; simpl; [reflexivity | now rewrite IH].
Qed.

Lemma length_hex_fixed (w : nat) (n : N) : String.length (hex_fixed w n) = w.
Proof.
  revert n. induction w as [|w IH]; intros n; simpl; [reflexivity |].
  rewrite length_append, IH. simpl. lia.
Qed.

Lemma length_uuid_str (u : N) : String.length (uuid_str u) = 36%nat.
Proof.
  unfold uuid_str. repeat rewrite length_append. repeat rewrite length_hex_fixed.
  reflexivity.
Qed.

(** A uuid string is never the [EMPTY] placeholder, nor the default password. *)
Lemma uuid_str_not_EMPTY (u : N) : uuid_str u <> EMPTY_VALUE.
Proof.
  intros E. apply (f_equal String.length) in E. rewrite length_uuid_str in E.
  discriminate E.
Qed.

Lemma uuid_str_not_default (u : N) : uuid_str u <> DT_DEFAULT_ADMIN_PWD.
Proof.
  intros E. apply (f_equal String.length) in E. rewrite length_uuid_str in E.
  discriminate E.
Qed.

Lemma eq_str_VStr_false (s t : string) : s <> t -> eq_str (VStr s) t = false.
Proof. intros Hne. simpl. now apply String.eqb_neq. Qed.

Lemma eq_str_VStr_true (s : string) : eq_str (VStr s) s = true.
Proof. simpl. apply String.eqb_refl. Qed.

Section Theory.

Context `{AN : Analyzer} `{DY : Dynamo} `{JS : Json} `{EN : Entropy} `{EC : Encoder}.

(** ** The monad *)

Lemma bind_Ok {A B} (m : M A) (k : A -> M B) (w w1 : World) (a : A) :
  m w = Ok a w1 -> bind m k w = k a w1.
Proof. intros E. unfold bind. now rewrite E. Qed.

Lemma bind_Raise {A B} (m : M A) (k : A -> M B) (w w1 : World) (e : Exn) :
  m w = Raise e w1 -> bind m k w = Raise e w1.
Proof. intros E. unfold bind. now rewrite E. Qed.

Lemma bind_OutOfFuel {A B} (m : M A) (k : A -> M B) (w w1 : World) :
  m w = OutOfFuel w1 -> bind m k w = OutOfFuel w1.
Proof. intros E. unfold bind. now rewrite E. Qed.

Lemma bind_Ok_inv {A B} (m : M A) (k : A -> M B) (w w' : World) (b : B) :
  bind m k w = Ok b w' -> exists a w1, m w = Ok a w1 /\ k a w1 = Ok b w'.
Proof.
  unfold bind. destruct (m w) as [a w1|e w1|w1]; intros E; try discriminate E.
  now exists a, w1.
Qed.

Lemma try_except_Ok {A} (m : M A) (h : Exn -> bool) (k : Exn -> M A)
  (w w1 : World) (a : A) :
  m w = Ok a w1 -> try_except m h k w = Ok a w1.
Proof. intros E. unfold try_except. now rewrite E. Qed.

Lemma try_except_OutOfFuel {A} (m : M A) (h : Exn -> bool) (k : Exn -> M A)
  (w w1 : World) :
  m w = OutOfFuel w1 -> try_except m h k w = OutOfFuel w1.
Proof. intros E. unfold try_except. now rewrite E. Qed.

Lemma try_except_caught {A} (m : M A) (h : Exn -> bool) (k : Exn -> M A)
  (w w1 : World) (e : Exn) :
  m w = Raise e w1 -> h e = true -> try_except m h k w = k e w1.
Proof. intros E He. unfold try_except. now rewrite E, He. Qed.

Lemma try_except_passed {A} (m : M A) (h : Exn -> bool) (k : Exn -> M A)
  (w w1 : World) (e : Exn) :
  m w = Raise e w1 -> h e = false -> try_except m h k w = Raise e w1.
Proof. intros E He. unfold try_except. now rewrite E, He. Qed.

(** ** The stored API key is returned without any other effect *)

Lemma get_api_key_warm (fuel : nat) (w : World) (v : string) :
  ssm w !! DT_API_KEY = Some v ->
  v <> EMPTY_VALUE ->
  __get_api_key fuel w = Ok (VStr v) (emit (ESsmGet DT_API_KEY) w).
Proof.
  intros Hget Hne. unfold __get_api_key. apply try_except_Ok.
  unfold bind, ssm_get_parameter. rewrite Hget.
  now rewrite (eq_str_VStr_false _ _ Hne).
Qed.

(** C8. When the Secret Store holds an API key that is not the [EMPTY]
    placeholder, [__get_api_key] returns exactly that value; the only thing it
    does is the one read of the parameter: the trace gains that read and
    nothing else (no request to the Analyzer, no write to the store), and the
    Secret Store, the Analyzer and the blob store are as they were. *)
Theorem get_api_key_stored (fuel : nat) (w : World) (v : string) :
  ssm w !! DT_API_KEY = Some v ->
  v <> EMPTY_VALUE ->
  exists w',
    __get_api_key fuel w = Ok (VStr v) w' /\
    trace w' = trace w ++ [ESsmGet DT_API_KEY] /\
    ssm w' = ssm w /\ dt w' = dt w /\ s3 w' = s3 w /\ ddb w' = ddb w.
Proof.
  intros Hget Hne. exists (emit (ESsmGet DT_API_KEY) w).
  split; [now apply get_api_key_warm | repeat split].
Qed.

(** ** Reading and rotating the admin password *)

Lemma get_root_password_stored (n : nat) (w : World) (p : string) :
  ssm w !! DT_ROOT_PWD = Some p ->
  p <> EMPTY_VALUE ->
  __get_root_password (S n) w = Ok (VStr p) (emit (ESsmGet DT_ROOT_PWD) w).
Proof.
  intros Hget Hne. simpl. apply try_except_Ok.
  unfold bind, ssm_get_parameter. rewrite Hget.
  now rewrite (eq_str_VStr_false _ _ Hne).
Qed.

Lemma change_dt_root_pwd_answered (w : World) (r : Response) (d : DT) :
  let new_pwd := uuid_str (uuid_v4 (urandom16 (draws w))) in
  dt_send (force_chg_request new_pwd) (dt w) = (Resp r, d) ->
  exists w',
    __change_dt_root_pwd w = Ok (VStr new_pwd) w' /\
    trace w' = trace w ++ change_events new_pwd r /\
    ssm w' = <[DT_ROOT_PWD := new_pwd]> (ssm w) /\
    dt w' = d /\ s3 w' = s3 w /\ ddb w' = ddb w /\ environ w' = environ w /\
    draws w' = S (draws w).
Proof.
  intros new_pwd Hsend.
  unfold __change_dt_root_pwd, bind, logger_info, record, uuid4, post, request,
    ssm_put_parameter, ret. cbn.
  fold new_pwd. unfold force_chg_request in Hsend. rewrite Hsend. cbn.
  destruct (ssm w !! DT_ROOT_PWD); eexists; (split; [reflexivity|]); cbn;
    repeat rewrite <- app_assoc; repeat split.
Qed.

Lemma get_root_password_cold (n : nat) (w : World) (r : Response) (d : DT) :
  let new_pwd := uuid_str (uuid_v4 (urandom16 (draws w))) in
  (ssm w !! DT_ROOT_PWD = None \/ ssm w !! DT_ROOT_PWD = Some EMPTY_VALUE) ->
  dt_send (force_chg_request new_pwd) (dt w) = (Resp r, d) ->
  exists w',
    __get_root_password (S (S n)) w = Ok (VStr new_pwd) w' /\
    new_pwd <> DT_DEFAULT_ADMIN_PWD /\
    trace w' =
      trace w ++ [ESsmGet DT_ROOT_PWD] ++ change_events new_pwd r
              ++ [ESsmGet DT_ROOT_PWD] /\
    ssm w' = <[DT_ROOT_PWD := new_pwd]> (ssm w) /\
    dt w' = d.
Proof.
  intros new_pwd Hcold Hsend.
  set (w1 := emit (ESsmGet DT_ROOT_PWD) w).
  destruct (change_dt_root_pwd_answered w1 r d Hsend)
    as (w2 & Hchg & Htr & Hssm & Hdt & _).
  fold new_pwd in Hchg, Htr, Hssm.
  assert (Hre : __get_root_password (S n) w2
                = Ok (VStr new_pwd) (emit (ESsmGet DT_ROOT_PWD) w2)).
  { apply get_root_password_stored.
    - rewrite Hssm. apply lookup_insert_eq.
    - apply uuid_str_not_EMPTY. }
  assert (Hrun : __get_root_password (S (S n)) w
                 = Ok (VStr new_pwd) (emit (ESsmGet DT_ROOT_PWD) w2)).
  { change (__get_root_password (S (S n)) w) with
      (try_except
         (value <- ssm_get_parameter DT_ROOT_PWD ;;
          if eq_str value EMPTY_VALUE
          then __change_dt_root_pwd ;; __get_root_password (S n)
          else ret value)
         is_ParameterNotFound
         (fun _ => __change_dt_root_pwd ;; __get_root_password (S n)) w).
    destruct Hcold as [Habsent | Hempty].
    - rewrite (try_except_caught _ _ _ w w1 ParameterNotFound).
      + now rewrite (bind_Ok _ _ _ _ _ Hchg).
      + unfold bind, ssm_get_parameter. now rewrite Habsent.
      + reflexivity.
    - apply try_except_Ok.
      unfold bind at 1. unfold ssm_get_parameter. rewrite Hempty.
      fold w1. rewrite eq_str_VStr_true.
      now rewrite (bind_Ok _ _ _ _ _ Hchg). }
  exists (emit (ESsmGet DT_ROOT_PWD) w2). split; [exact Hrun|].
  split; [apply uuid_str_not_default|].
  split; [|split].
  - cbn. rewrite Htr. cbn. now rewrite <- !app_assoc.
  - exact Hssm.
  - exact Hdt.
Qed.

(** C4. Starting from an admin password that is absent from the Secret Store
    or is the [EMPTY] placeholder, and provided the force-change-password
    request gets an answer, [__get_root_password] returns the freshly
    generated value, which is not the default password.  What it did is, in
    order: the first read of the secret, one force-change-password request
    carrying the default password and the new value, one write of the new
    value, and one re-read; two units of fuel suffice, so the self-recursion
    stops after that one extra lookup. *)
Theorem get_root_password_rotates_once (n : nat) (w : World) (r : Response) (d : DT) :
  let new_pwd := uuid_str (uuid_v4 (urandom16 (draws w))) in
  (ssm w !! DT_ROOT_PWD = None \/ ssm w !! DT_ROOT_PWD = Some EMPTY_VALUE) ->
  dt_send (force_chg_request new_pwd) (dt w) = (Resp r, d) ->
  exists w',
    __get_root_password (S (S n)) w = Ok (VStr new_pwd) w' /\
    new_pwd <> DT_DEFAULT_ADMIN_PWD /\
    trace w' =
      trace w ++ [ESsmGet DT_ROOT_PWD] ++ change_events new_pwd r
              ++ [ESsmGet DT_ROOT_PWD] /\
    ssm w' = <[DT_ROOT_PWD := new_pwd]> (ssm w) /\
    dt w' = d.
Proof. exact (get_root_password_cold n w r d). Qed.


(** ** Computations that only append events of a given kind *)

Section Appends.

Variable p : Event -> bool.

Lemma appends_ret {A} (a : A) : appends p (ret a).
Proof. intros w. exists []. cbn. now rewrite app_nil_r. Qed.

Lemma appends_raise {A} (e : Exn) : appends p (@raise _ _ A e).
Proof. intros w. exists []. cbn. now rewrite app_nil_r. Qed.

Lemma appends_out_of_fuel {A} : appends p (@out_of_fuel _ _ A).
Proof. intros w. exists []. cbn. now rewrite app_nil_r. Qed.

Lemma appends_bind {A B} (m : M A) (k : A -> M B) :
  appends p m -> (forall a, appends p (k a)) -> appends p (bind m k).
Proof.
  intros Hm Hk w. destruct (Hm w) as (l1 & E1 & F1). unfold bind.
  destruct (m w) as [a w1|e w1|w1]; cbn in E1 |- *.
  - destruct (Hk a w1) as (l2 & E2 & F2). exists (l1 ++ l2). split.
    + now rewrite E2, E1, app_assoc.
    + rewrite forallb_app, F1, F2. reflexivity.
  - now exists l1.
  - now exists l1.
Qed.

Lemma appends_try_except {A} (m : M A) (h : Exn -> bool) (k : Exn -> M A) :
  appends p m -> (forall e, appends p (k e)) -> appends p (try_except m h k).
Proof.
  intros Hm Hk w. destruct (Hm w) as (l1 & E1 & F1). unfold try_except.
  destruct (m w) as [a w1|e w1|w1]; cbn in E1 |- *.
  - now exists l1.
  - destruct (h e).
    + destruct (Hk e w1) as (l2 & E2 & F2). exists (l1 ++ l2). split.
      * now rewrite E2, E1, app_assoc.
      * rewrite forallb_app, F1, F2. reflexivity.
    + now exists l1.
  - now exists l1.
Qed.

Lemma appends_record (e : Event) : p e = true -> appends p (record e).
Proof. intros He w. exists [e]. cbn. now rewrite He. Qed.

Lemma appends_request (m : Method) (url : Endpoint) (headers : list (string * value))
  (payload : Payload) :
  (forall res, p (EHttp (mkRequest m url headers payload) res) = true) ->
  appends p (request m url headers payload).
Proof.
  intros He w. unfold request.
  exists [EHttp (mkRequest m url headers payload)
            (fst (dt_send (mkRequest m url headers payload) (dt w)))].
  split; [|cbn; now rewrite He].
  destruct (fst (dt_send (mkRequest m url headers payload) (dt w))); reflexivity.
Qed.

Lemma appends_ssm_get_parameter (name : string) :
  p (ESsmGet name) = true -> appends p (ssm_get_parameter name).
Proof.
  intros He w. exists [ESsmGet name]. unfold ssm_get_parameter.
  split; [|cbn; now rewrite He]. destruct (ssm w !! name); reflexivity.
Qed.

Lemma appends_ssm_put_parameter (name : string) (v : value) (o : bool) :
  p (ESsmPut name v o) = true -> appends p (ssm_put_parameter name v o).
Proof.
  intros He w. exists [ESsmPut name v o]. unfold ssm_put_parameter.
  split; [|cbn; now rewrite He].
  destruct v; try reflexivity.
  destruct (ssm_value_ok s); [|reflexivity].
  destruct (ssm w !! name); [destruct o|]; reflexivity.
Qed.

Lemma appends_s3_get (bucket key : value) :
  p (ES3Get bucket key) = true -> appends p (s3_get bucket key).
Proof.
  intros He w. exists [ES3Get bucket key]. unfold s3_get.
  split; [|cbn; now rewrite He].
  destruct bucket; try reflexivity. destruct key; try reflexivity.
  destruct (s3 w !! (s, s0)); reflexivity.
Qed.

Lemma appends_s3_put (bucket key : value) (body : string)
  (metadata : list (string * value)) :
  p (ES3Put bucket key body metadata) = true ->
  appends p (s3_put bucket key body metadata).
Proof.
  intros He w. exists [ES3Put bucket key body metadata]. unfold s3_put.
  split; [|cbn; now rewrite He].
  destruct bucket; try reflexivity. destruct key; reflexivity.
Qed.

Lemma appends_uuid4 : appends p uuid4.
Proof. intros w. exists []. cbn. now rewrite app_nil_r. Qed.

Lemma appends_getitem (v : value) (k : string) : appends p (getitem v k).
Proof.
  unfold getitem. destruct v; try apply appends_raise.
  destruct (dict_get d k); [apply appends_ret | apply appends_raise].
Qed.

Lemma appends_getitem0 (v : value) : appends p (getitem0 v).
Proof.
  unfold getitem0.
  destruct v as [| | |s|s|l|d]; try apply appends_raise;
    try (destruct s; [apply appends_raise | apply appends_ret]).
  destruct l; [apply appends_raise | apply appends_ret].
Qed.

Lemma appends_iterate (v : value) : appends p (iterate v).
Proof. destruct v; cbn; first [apply appends_raise | apply appends_ret]. Qed.

Lemma appends_contains (k : string) (v : value) : appends p (contains k v).
Proof. destruct v; cbn; first [apply appends_raise | apply appends_ret]. Qed.

Lemma appends_json_of (r : Response) : appends p (json_of r).
Proof.
  unfold json_of. destruct (loads (text r)); [apply appends_ret | apply appends_raise].
Qed.

Lemma appends_py_loads (v : value) : appends p (py_loads v).
Proof.
  unfold py_loads.
  destruct v; try apply appends_raise;
    (destruct (loads s); [apply appends_ret | apply appends_raise]).
Qed.

Lemma appends_multipart_encoder (fields : list (string * value)) :
  appends p (multipart_encoder fields).
Proof.
  unfold multipart_encoder. apply appends_bind; [apply appends_uuid4|]. intros b.
  destruct (encoder_error fields); [apply appends_raise | apply appends_ret].
Qed.

Lemma appends_for_each {A} (l : list A) (body : A -> M unit) :
  (forall a, appends p (body a)) -> appends p (for_each l body).
Proof.
  intros Hb. induction l as [|a l IH]; cbn.
  - apply appends_ret.
  - apply appends_bind; [apply Hb | intros _; exact IH].
Qed.

End Appends.


(** ** The client functions other than [__delete_project] neither delete a
       project nor write to the blob store *)

Create HintDb appends.

Ltac appends_step :=
  first
    [ apply appends_ret | apply appends_raise | apply appends_out_of_fuel
    | apply appends_uuid4 | apply appends_getitem | apply appends_getitem0
    | apply appends_iterate | apply appends_contains | apply appends_json_of
    | apply appends_py_loads | apply appends_multipart_encoder
    | apply appends_record; reflexivity
    | apply appends_request; intros; reflexivity
    | apply appends_ssm_get_parameter; reflexivity
    | apply appends_ssm_put_parameter; reflexivity
    | apply appends_s3_get; reflexivity
    | apply appends_s3_put; reflexivity
    | solve [auto with appends]
    | apply appends_bind; [|intros]
    | apply appends_try_except; [|intros]
    | apply appends_for_each; intros
    | match goal with |- appends _ (if ?b then _ else _) => destruct b end
    | match goal with |- appends _ (match ?x with _ => _ end) => destruct x end ].

Ltac appends_auto :=
  unfold logger_info, sleep, get, post, put; repeat appends_step.

Lemma change_dt_root_pwd_analysis : appends analysis_event __change_dt_root_pwd.
Proof. unfold __change_dt_root_pwd. appends_auto. Qed.

#[local] Hint Resolve change_dt_root_pwd_analysis : appends.

Lemma get_root_password_analysis (fuel : nat) :
  appends analysis_event (__get_root_password fuel).
Proof.
  induction fuel as [|n IH]; cbn [__get_root_password]; appends_auto.
Qed.

#[local] Hint Resolve get_root_password_analysis : appends.

Lemma get_jwt_analysis (fuel : nat) (root_pwd : value) :
  appends analysis_event (__get_jwt fuel root_pwd).
Proof. unfold __get_jwt. appends_auto. Qed.

#[local] Hint Resolve get_jwt_analysis : appends.

Lemma get_teams_analysis (fuel : nat) : appends analysis_event (__get_teams fuel).
Proof. unfold __get_teams. appends_auto. Qed.

#[local] Hint Resolve get_teams_analysis : appends.

Lemma get_automation_team_for_analysis (teams : list value) :
  appends analysis_event (__get_automation_team_data_from_dt_for teams).
Proof.
  induction teams as [|team rest IH];
    cbn [__get_automation_team_data_from_dt_for]; appends_auto.
Qed.

#[local] Hint Resolve get_automation_team_for_analysis : appends.

Lemma get_automation_team_analysis (fuel : nat) :
  appends analysis_event (__get_automation_team_data_from_dt fuel).
Proof. unfold __get_automation_team_data_from_dt. appends_auto. Qed.

#[local] Hint Resolve get_automation_team_analysis : appends.

Lemma set_team_permissions_analysis (fuel : nat) (team_uuid : value) :
  appends analysis_event (__set_team_permissions fuel team_uuid).
Proof. unfold __set_team_permissions. appends_auto. Qed.

#[local] Hint Resolve set_team_permissions_analysis : appends.

Lemma set_initial_api_key_analysis (fuel : nat) :
  appends analysis_event (__set_initial_api_key_in_ssm fuel).
Proof. unfold __set_initial_api_key_in_ssm. appends_auto. Qed.

#[local] Hint Resolve set_initial_api_key_analysis : appends.

Lemma get_api_key_analysis (fuel : nat) : appends analysis_event (__get_api_key fuel).
Proof. unfold __get_api_key. appends_auto. Qed.

#[local] Hint Resolve get_api_key_analysis : appends.

Lemma rotate_api_key_analysis (fuel : nat) :
  appends analysis_event (__rotate_api_key fuel).
Proof. unfold __rotate_api_key. appends_auto. Qed.

#[local] Hint Resolve rotate_api_key_analysis : appends.

Lemma create_project_analysis (frames fuel : nat) :
  appends analysis_event (__create_project frames fuel).
Proof.
  induction frames as [|n IH]; cbn [__create_project]; appends_auto.
Qed.

#[local] Hint Resolve create_project_analysis : appends.

Lemma upload_sbom_analysis (fuel : nat) (project_uuid bom : value) :
  appends analysis_event (__upload_sbom fuel project_uuid bom).
Proof. unfold __upload_sbom. appends_auto. Qed.

#[local] Hint Resolve upload_sbom_analysis : appends.

Lemma findings_ready_analysis (key token : value) :
  appends analysis_event (__findings_ready key token).
Proof. unfold __findings_ready. appends_auto. Qed.

#[local] Hint Resolve findings_ready_analysis : appends.

Lemma get_findings_while_analysis (fuel : nat) (key token : value) :
  appends analysis_event (__get_findings_while fuel key token).
Proof.
  induction fuel as [|n IH]; cbn [__get_findings_while]; appends_auto.
Qed.

#[local] Hint Resolve get_findings_while_analysis : appends.

Lemma get_findings_analysis (fuel : nat) (project_uuid token : value) :
  appends analysis_event (__get_findings fuel project_uuid token).
Proof. unfold __get_findings. appends_auto. Qed.

#[local] Hint Resolve get_findings_analysis : appends.


Lemma appends_Ok {A} (p : Event -> bool) (m : M A) (w w1 : World) (a : A) :
  appends p m -> m w = Ok a w1 ->
  exists l, trace w1 = trace w ++ l /\ forallb p l = true.
Proof. intros Hm E. specialize (Hm w). now rewrite E in Hm. Qed.

Lemma deleted_projects_app (l1 l2 : list Event) :
  deleted_projects (l1 ++ l2) = deleted_projects l1 ++ deleted_projects l2.
Proof.
  induction l1 as [|e l1 IH]; [reflexivity|]. cbn.
  destruct e; try exact IH. destruct (rq_url rq); try exact IH.
  cbn. now rewrite IH.
Qed.

Lemma count_events_app (p : Event -> bool) (l1 l2 : list Event) :
  count_events p (l1 ++ l2) = (count_events p l1 + count_events p l2)%nat.
Proof.
  induction l1 as [|e l1 IH]; [reflexivity|]. cbn. rewrite IH. lia.
Qed.

Lemma analysis_deleted_projects (l : list Event) :
  forallb analysis_event l = true -> deleted_projects l = [].
Proof.
  induction l as [|e l IH]; [reflexivity|]. cbn.
  intros H. apply andb_prop in H as [He Hl]. specialize (IH Hl).
  destruct e; try exact IH.
  unfold analysis_event in He. cbn in He. destruct (rq_url rq); try exact IH.
  discriminate He.
Qed.

Lemma analysis_s3_puts (l : list Event) :
  forallb analysis_event l = true -> count_events is_s3_put l = O.
Proof.
  induction l as [|e l IH]; [reflexivity|]. cbn.
  intros H. apply andb_prop in H as [He Hl]. rewrite (IH Hl).
  unfold analysis_event in He. apply andb_prop in He as [_ He].
  destruct (is_s3_put e); [discriminate He | reflexivity].
Qed.

(** ** Functions without effects *)

Lemma pure_Ok {A} (m : M A) (w w1 : World) (a : A) :
  pure m -> m w = Ok a w1 -> w1 = w.
Proof. intros Hm E. specialize (Hm w). now rewrite E in Hm. Qed.

Lemma pure_ret {A} (a : A) : pure (ret a).
Proof. intros w. reflexivity. Qed.

Lemma pure_raise {A} (e : Exn) : pure (@raise _ _ A e).
Proof. intros w. reflexivity. Qed.

Lemma pure_bind {A B} (m : M A) (k : A -> M B) :
  pure m -> (forall a, pure (k a)) -> pure (bind m k).
Proof.
  intros Hm Hk w. specialize (Hm w). unfold bind.
  destruct (m w) as [a w1|e w1|w1]; cbn in Hm; subst w1; [apply Hk | |]; reflexivity.
Qed.

Lemma pure_getitem (v : value) (k : string) : pure (getitem v k).
Proof.
  unfold getitem. destruct v; try apply pure_raise.
  destruct (dict_get d k); [apply pure_ret | apply pure_raise].
Qed.

Lemma pure_getitem0 (v : value) : pure (getitem0 v).
Proof.
  unfold getitem0.
  destruct v as [| | |s|s|l|d]; try apply pure_raise;
    try (destruct s; [apply pure_raise | apply pure_ret]).
  destruct l; [apply pure_raise | apply pure_ret].
Qed.

Lemma pure_contains (k : string) (v : value) : pure (contains k v).
Proof. destruct v; cbn; first [apply pure_raise | apply pure_ret]. Qed.

Lemma pure_py_loads (v : value) : pure (py_loads v).
Proof.
  unfold py_loads.
  destruct v; try apply pure_raise;
    (destruct (loads s); [apply pure_ret | apply pure_raise]).
Qed.

Ltac pure_auto :=
  repeat first
    [ apply pure_ret | apply pure_raise | apply pure_getitem | apply pure_getitem0
    | apply pure_contains | apply pure_py_loads
    | apply pure_bind; [|intros]
    | match goal with |- pure (if ?b then _ else _) => destruct b end
    | match goal with |- pure (match ?x with _ => _ end) => destruct x end ].

Lemma pure_validate (event : value) : pure (__validate event).
Proof. unfold __validate. pure_auto. Qed.

Lemma pure_get_body_from_first_record (event : value) :
  pure (__get_body_from_first_record event).
Proof. unfold __get_body_from_first_record. pure_auto. Qed.

Lemma pure_get_body_from_event (event : value) :
  pure (__get_body_from_event event).
Proof. unfold __get_body_from_event. pure_auto. Qed.

Lemma getitem_Ok_inv (v x : value) (k : string) (w w1 : World) :
  getitem v k w = Ok x w1 ->
  exists d, v = VDict d /\ dict_get d k = Some x /\ w1 = w.
Proof.
  unfold getitem. destruct v; try discriminate. 
  destruct (dict_get d k) eqn:E; [|discriminate].
  intros H. injection H as -> ->. now exists d.
Qed.


(** ** The orchestrator *)

Lemma request_Ok_inv (m : Method) (url : Endpoint) (headers : list (string * value))
  (payload : Payload) (w w1 : World) (r : Response) :
  request m url headers payload w = Ok r w1 ->
  trace w1 = trace w ++ [EHttp (mkRequest m url headers payload) (Resp r)] /\
  ssm w1 = ssm w /\ s3 w1 = s3 w.
Proof.
  unfold request. cbv zeta.
  destruct (fst (dt_send (mkRequest m url headers payload) (dt w))) eqn:E;
    [|discriminate].
  intros H. injection H as -> <-. cbn. repeat split.
Qed.

Lemma delete_project_Ok_inv (fuel : nat) (project_uuid : value) (w w1 : World) :
  __delete_project fuel project_uuid w = Ok tt w1 ->
  exists l, trace w1 = trace w ++ l /\
            deleted_projects l = [project_uuid] /\
            count_events is_s3_put l = O.
Proof.
  unfold __delete_project. intros H.
  apply bind_Ok_inv in H as (k & wa & Hkey & H).
  destruct (appends_Ok _ _ _ _ _ (get_api_key_analysis fuel) Hkey) as (lk & Ek & Fk).
  unfold bind at 1 2 3 in H. unfold logger_info, record in H.
  apply bind_Ok_inv in H as (r & wb & Hput & Hret).
  injection Hret as ->.
  apply request_Ok_inv in Hput as (Eb & _).
  cbn in Eb. rewrite Ek in Eb. repeat rewrite <- app_assoc in Eb.
  eexists. split; [exact Eb|].
  rewrite deleted_projects_app, count_events_app.
  rewrite (analysis_deleted_projects _ Fk), (analysis_s3_puts _ Fk).
  split; reflexivity.
Qed.

Lemma json_of_Ok_inv (r : Response) (v : value) (w w1 : World) :
  json_of r w = Ok v w1 -> loads (text r) = Some v /\ w1 = w.
Proof.
  unfold json_of. destruct (loads (text r)); [|discriminate].
  intros H. injection H as -> ->. now split.
Qed.

(** A call of [__create_project] that returns has ended on a creation request
    whose answer was not a 401, and returns the ["uuid"] of that answer. *)
Lemma create_project_Ok_inv (frames fuel : nat) :
  forall (w w1 : World) (project_uuid : value),
    __create_project frames fuel w = Ok project_uuid w1 ->
    exists (l : list Event) (rq : Request) (r : Response)
           (body : list (string * value)),
      trace w1 =
        trace w ++ l
          ++ [EHttp rq (Resp r);
              ELog INFO (VStr "ProjectCreated uuid= %s") [project_uuid]] /\
      forallb analysis_event l = true /\
      rq_method rq = PUT /\ rq_url rq = create_project /\
      status_code r <> 401 /\
      loads (text r) = Some (VDict body) /\
      dict_get body "uuid" = Some project_uuid.
Proof.
  induction frames as [|n IH]; intros w w1 project_uuid H; [discriminate H|].
  cbn [__create_project] in H.
  apply bind_Ok_inv in H as (k & wa & Hkey & H).
  destruct (appends_Ok _ _ _ _ _ (get_api_key_analysis fuel) Hkey) as (lk & Ek & Fk).
  unfold bind at 1 in H. unfold uuid4 at 1 in H.
  apply bind_Ok_inv in H as (r & wb & Hput & H).
  unfold put in Hput. apply request_Ok_inv in Hput as (Eb & _).
  cbn [trace set_draws] in Eb.
  destruct (status_code r =? 401) eqn:Hst.
  - apply bind_Ok_inv in H as (x & wc & Hrot & H).
    destruct (appends_Ok _ _ _ _ _ (rotate_api_key_analysis fuel) Hrot)
      as (lr & Er & Fr).
    destruct (IH _ _ _ H) as (l & rq & r' & body & Etr & Fl & Hrest).
    match type of Eb with
    | _ = _ ++ [?e] => exists (lk ++ [e] ++ lr ++ l)
    end.
    exists rq, r', body. split; [|split; [|exact Hrest]].
    + rewrite Etr, Er, Eb, Ek. repeat rewrite <- app_assoc. reflexivity.
    + repeat rewrite forallb_app. rewrite Fk, Fr, Fl. reflexivity.
  - apply bind_Ok_inv in H as (proj & wc & Hj & H).
    apply json_of_Ok_inv in Hj as (Hloads & ->).
    apply bind_Ok_inv in H as (u & wd & Hu & H).
    apply getitem_Ok_inv in Hu as (body & -> & Hget & ->).
    cbn in H. injection H as <- <-.
    match type of Eb with
    | _ = _ ++ [EHttp ?rq _] => exists lk, rq, r, body
    end.
    split; [cbn; rewrite Eb, Ek; repeat rewrite <- app_assoc; reflexivity|].
    split; [exact Fk|].
    repeat split; try assumption. now apply Z.eqb_neq.
Qed.

Lemma multipart_encoder_Ok_inv (fields : list (string * value)) (boundary : string)
  (w w1 : World) :
  multipart_encoder fields w = Ok boundary w1 ->
  encoder_error fields = None /\ trace w1 = trace w /\
  boundary = uuid_hex (uuid_v4 (urandom16 (draws w))).
Proof.
  unfold multipart_encoder, bind, uuid4.
  destruct (encoder_error fields); [discriminate|].
  intros H. injection H as <- <-. repeat split.
Qed.

(** A call of [__upload_sbom] that returns has built the multipart body from
    the project id and the SBOM it was given, has sent it in one upload
    request, its last, and returns the ["token"] of the answer. *)
Lemma upload_sbom_Ok_inv (fuel : nat) (project_uuid bom sbom_token : value)
  (w w1 : World) :
  __upload_sbom fuel project_uuid bom w = Ok sbom_token w1 ->
  exists (l : list Event) (rq : Request) (r : Response)
         (body : list (string * value)) (boundary : string),
    trace w1 = trace w ++ l ++ [EHttp rq (Resp r)] /\
    forallb analysis_event l = true /\
    rq_method rq = POST /\ rq_url rq = post_sbom /\
    rq_payload rq = Multipart boundary (upload_fields project_uuid bom) /\
    loads (text r) = Some (VDict body) /\
    dict_get body "token" = Some sbom_token.
Proof.
  unfold __upload_sbom. intros H.
  apply bind_Ok_inv in H as (k & wa & Hkey & H).
  destruct (appends_Ok _ _ _ _ _ (get_api_key_analysis fuel) Hkey) as (lk & Ek & Fk).
  apply bind_Ok_inv in H as (boundary & wb & Henc & H).
  apply multipart_encoder_Ok_inv in Henc as (_ & Eb & _).
  unfold bind at 1 2 3 in H. unfold logger_info, record in H.
  apply bind_Ok_inv in H as (r & wc & Hpost & H).
  unfold post in Hpost. apply request_Ok_inv in Hpost as (Ec & _).
  apply bind_Ok_inv in H as (json & wd & Hj & H).
  apply json_of_Ok_inv in Hj as (Hloads & ->).
  apply getitem_Ok_inv in H as (body & -> & Hget & ->).
  match type of Ec with
  | _ = _ ++ [EHttp ?rq _] =>
      exists (lk ++ [ELog INFO (VStr "<BomUploadHeaders>") [];
                     ELog INFO (VDict (rq_headers rq)) [];
                     ELog INFO (VStr "</BomUploadHeaders>") []]),
        rq, r, body, boundary
  end.
  split; [rewrite Ec; cbn; rewrite Eb, Ek; repeat rewrite <- app_assoc; reflexivity|].
  split; [rewrite forallb_app, Fk; reflexivity|].
  repeat split; assumption.
Qed.

(** A call of [__get_findings] that returns has ended on a findings request
    for the project it was given, and returns the JSON of the answer. *)
Lemma get_findings_Ok_inv (fuel : nat) (project_uuid sbom_token findings : value)
  (w w1 : World) :
  __get_findings fuel project_uuid sbom_token w = Ok findings w1 ->
  exists (l : list Event) (rq : Request) (r : Response),
    trace w1 =
      trace w ++ l
        ++ [EHttp rq (Resp r);
            ELog INFO (VStr "<Results are in!>") [];
            ELog INFO findings [];
            ELog INFO (VStr "</Results are in!>") []] /\
    forallb analysis_event l = true /\
    rq_method rq = GET /\ rq_url rq = get_findings project_uuid /\
    loads (text r) = Some findings.
Proof.
  unfold __get_findings. intros H.
  apply bind_Ok_inv in H as (k & wa & Hkey & H).
  destruct (appends_Ok _ _ _ _ _ (get_api_key_analysis fuel) Hkey) as (lk & Ek & Fk).
  apply bind_Ok_inv in H as ([] & wb & Hwhile & H).
  destruct (appends_Ok _ _ _ _ _ (get_findings_while_analysis fuel _ _) Hwhile)
    as (lw & Ew & Fw).
  apply bind_Ok_inv in H as (r & wc & Hget & H).
  unfold get in Hget. apply request_Ok_inv in Hget as (Ec & _).
  apply bind_Ok_inv in H as (json & wd & Hj & H).
  apply json_of_Ok_inv in Hj as (Hloads & ->).
  cbn in H. injection H as <- <-.
  match type of Ec with
  | _ = _ ++ [EHttp ?rq _] => exists (lk ++ lw), rq, r
  end.
  split; [cbn; rewrite Ec, Ew, Ek; repeat rewrite <- app_assoc; reflexivity|].
  split; [rewrite forallb_app, Fk, Fw; reflexivity|].
  repeat split. exact Hloads.
Qed.

(** The steps of a run of [dt_interface_handler] that returns. *)
Lemma dt_interface_handler_Ok_inv (frames fuel : nat) (event context v : value)
  (w w' : World) :
  dt_interface_handler frames fuel event context w = Ok v w' ->
  exists (d : list (string * value)) (bucket key : string) (o : S3Object)
         (project_uuid sbom_token findings : value) (w1 w2 w3 w4 : World),
    __get_body_from_first_record event w = Ok (VDict d) w /\
    dict_get d SBOM_BUCKET_NAME_KEY = Some (VStr bucket) /\
    dict_get d SBOM_S3_KEY = Some (VStr key) /\
    s3 w !! (bucket, key) = Some o /\
    __create_project frames fuel (emit (ES3Get (VStr bucket) (VStr key)) w)
      = Ok project_uuid w1 /\
    __upload_sbom fuel project_uuid (VStr (Body o)) w1 = Ok sbom_token w2 /\
    __get_findings fuel project_uuid sbom_token w2 = Ok findings w3 /\
    __delete_project fuel project_uuid w3 = Ok tt w4 /\
    v = VBool true /\
    s3 w' !! (bucket, "findings-" +:+ key) = Some (mkS3Object (dumps findings) []) /\
    trace w' =
      trace w4 ++ [ES3Put (VStr bucket) (VStr ("findings-" +:+ key))
                     (dumps findings) []].
Proof.
  unfold dt_interface_handler. intros H.
  apply bind_Ok_inv in H as ([] & wa & Hval & H).
  apply (pure_Ok _ _ _ _ (pure_validate event)) in Hval as ->.
  apply bind_Ok_inv in H as (s3_info & wa & Hbody & H).
  pose proof (pure_Ok _ _ _ _ (pure_get_body_from_first_record event) Hbody) as ->.
  apply bind_Ok_inv in H as (bucket_name & wa & Hb & H).
  apply getitem_Ok_inv in Hb as (d & -> & Hb & ->).
  apply bind_Ok_inv in H as (key & wa & Hk & H).
  apply getitem_Ok_inv in Hk as (d' & Ed & Hk & ->).
  injection Ed as <-.
  apply bind_Ok_inv in H as (o & wa & Hget & H).
  unfold s3_get in Hget.
  destruct bucket_name as [| | |bucket| | |]; try discriminate Hget.
  destruct key as [| | |key| | |]; try discriminate Hget.
  destruct (s3 w !! (bucket, key)) as [o'|] eqn:Hobj; [|discriminate Hget].
  injection Hget as -> <-.
  apply bind_Ok_inv in H as (project_uuid & w1 & Hcreate & H).
  apply bind_Ok_inv in H as (sbom_token & w2 & Hupload & H).
  apply bind_Ok_inv in H as (findings & w3 & Hfind & H).
  apply bind_Ok_inv in H as ([] & w4 & Hdel & H).
  apply bind_Ok_inv in H as (key2 & wa & Hk2 & H).
  apply getitem_Ok_inv in Hk2 as (d' & Ed & Hk2 & ->).
  injection Ed as <-. rewrite Hk in Hk2. injection Hk2 as <-.
  cbn in H. injection H as <- <-.
  exists d, bucket, key, o, project_uuid, sbom_token, findings, w1, w2, w3, w4.
  repeat (split; [assumption || reflexivity|]).
  split; [cbn; apply lookup_insert_eq | reflexivity].
Qed.

(** C5. Every run of [dt_interface_handler] that returns does so for a message
    carrying a bucket and a key under which the blob store holds an SBOM, with
    the value [True], and this is what it did, in this order.  It sent a
    creation request that the Analyzer did not answer with 401, and took the
    ["uuid"] of that answer as the project id.  It uploaded the SBOM of the
    message for that project.  It sent a findings request for that project,
    and parsed the answer.  Among all its requests exactly one asked for a
    project to be deleted, the one of the creation answer, and it came after
    the findings were fetched.
    Its last step, and its only write to the blob store, put the JSON of the
    findings answer in the same bucket under the key ["findings-" + key],
    where it is when the handler returns. *)
Theorem dt_interface_handler_stores_findings (frames fuel : nat)
  (event context v : value) (w w' : World) :
  dt_interface_handler frames fuel event context w = Ok v w' ->
  exists (d : list (string * value)) (bucket key : string) (o : S3Object)
         (project_uuid findings : value)
         (create upload fetch : Request) (created uploaded fetched : Response)
         (created_body : list (string * value)) (boundary : string)
         (l1 l2 l3 l4 : list Event),
    __get_body_from_first_record event w = Ok (VDict d) w /\
    dict_get d SBOM_BUCKET_NAME_KEY = Some (VStr bucket) /\
    dict_get d SBOM_S3_KEY = Some (VStr key) /\
    s3 w !! (bucket, key) = Some o /\
    v = VBool true /\
    trace w' =
      trace w ++ (l1 ++ [EHttp create (Resp created)]
                     ++ l2 ++ [EHttp upload (Resp uploaded)]
                     ++ l3 ++ [EHttp fetch (Resp fetched)]
                     ++ l4)
              ++ [ES3Put (VStr bucket) (VStr ("findings-" +:+ key))
                    (dumps findings) []] /\
    rq_url create = create_project /\
    status_code created <> 401 /\
    loads (text created) = Some (VDict created_body) /\
    dict_get created_body "uuid" = Some project_uuid /\
    rq_url upload = post_sbom /\
    rq_payload upload
    = Multipart boundary (upload_fields project_uuid (VStr (Body o))) /\
    rq_url fetch = get_findings project_uuid /\
    loads (text fetched) = Some findings /\
    deleted_projects (l1 ++ [EHttp create (Resp created)]
                         ++ l2 ++ [EHttp upload (Resp uploaded)]
                         ++ l3 ++ [EHttp fetch (Resp fetched)]
                         ++ l4) = [project_uuid] /\
    deleted_projects (l1 ++ [EHttp create (Resp created)]
                         ++ l2 ++ [EHttp upload (Resp uploaded)]
                         ++ l3 ++ [EHttp fetch (Resp fetched)]) = [] /\
    count_events is_s3_put (l1 ++ [EHttp create (Resp created)]
                               ++ l2 ++ [EHttp upload (Resp uploaded)]
                               ++ l3 ++ [EHttp fetch (Resp fetched)]
                               ++ l4) = O /\
    s3 w' !! (bucket, "findings-" +:+ key) = Some (mkS3Object (dumps findings) []).
Proof.
  intros H.
  destruct (dt_interface_handler_Ok_inv _ _ _ _ _ _ _ H)
    as (d & bucket & key & o & project_uuid & sbom_token & findings
        & w1 & w2 & w3 & w4 & Hbody & Hb & Hk & Hobj & Hcreate & Hupload & Hfind
        & Hdel & Hv & Hs3 & Htr).
  destruct (create_project_Ok_inv _ _ _ _ _ Hcreate)
    as (lc & create & created & created_body & Ec & Fc & _ & Uc & Sc & Lc & Gc).
  destruct (upload_sbom_Ok_inv _ _ _ _ _ _ Hupload)
    as (lu & upload & uploaded & ubody & boundary & Eu & Fu & _ & Uu & Pu & _ & _).
  destruct (get_findings_Ok_inv _ _ _ _ _ _ Hfind)
    as (lf & fetch & fetched & Ef & Ff & _ & Uf & Lf).
  destruct (delete_project_Ok_inv _ _ _ _ Hdel) as (ld & Ed & Dd & Pd).
  exists d, bucket, key, o, project_uuid, findings.
  exists create, upload, fetch, created, uploaded, fetched, created_body, boundary.
  exists (ES3Get (VStr bucket) (VStr key) :: lc).
  exists (ELog INFO (VStr "ProjectCreated uuid= %s") [project_uuid] :: lu).
  exists lf.
  exists ([ELog INFO (VStr "<Results are in!>") [];
           ELog INFO findings [];
           ELog INFO (VStr "</Results are in!>") []] ++ ld).
  repeat (split; [assumption|]).
  split.
  { rewrite Htr, Ed, Ef, Eu, Ec. cbn [trace emit].
    repeat first [rewrite <- app_assoc | rewrite <- app_comm_cons]. reflexivity. }
  repeat (split; [assumption|]).
  split; [|split; [|split; [|exact Hs3]]].
  - repeat first [ rewrite deleted_projects_app | rewrite Uc | rewrite Uu
                 | rewrite Uf | progress cbn [deleted_projects app] ].
    rewrite (analysis_deleted_projects _ Fc), (analysis_deleted_projects _ Fu),
      (analysis_deleted_projects _ Ff), Dd. reflexivity.
  - repeat first [ rewrite deleted_projects_app | rewrite Uc | rewrite Uu
                 | rewrite Uf | progress cbn [deleted_projects app] ].
    rewrite (analysis_deleted_projects _ Fc), (analysis_deleted_projects _ Fu),
      (analysis_deleted_projects _ Ff). reflexivity.
  - repeat first [ rewrite count_events_app
                 | progress cbn [count_events app is_s3_put Nat.add] ].
    rewrite (analysis_s3_puts _ Fc), (analysis_s3_puts _ Fu),
      (analysis_s3_puts _ Ff), Pd. reflexivity.
Qed.

Lemma delete_project_answered (fuel : nat) (project_uuid : value) (w : World)
  (k : string) (r : Response) (d : DT) :
  ssm w !! DT_API_KEY = Some k ->
  k <> EMPTY_VALUE ->
  dt_send (delete_request (VStr k) project_uuid) (dt w) = (Resp r, d) ->
  exists w',
    __delete_project fuel project_uuid w = Ok tt w' /\
    trace w' = trace w ++ delete_events k project_uuid (Resp r) /\
    s3 w' = s3 w /\ ssm w' = ssm w /\ dt w' = d.
Proof.
  intros Hk Hne Hsend. unfold __delete_project.
  rewrite (bind_Ok _ _ _ _ _ (get_api_key_warm fuel w k Hk Hne)).
  unfold bind, logger_info, record, put, request, ret. cbn.
  unfold delete_request in Hsend. rewrite Hsend. cbn.
  eexists. split; [reflexivity|]. cbn. repeat rewrite <- app_assoc.
  repeat split.
Qed.

Lemma dt_interface_handler_cleanup (frames fuel : nat) (event context : value)
  (w w1 w2 w3 : World) (d : list (string * value)) (bucket key k : string)
  (o : S3Object) (project_uuid sbom_token findings : value)
  (r : Response) (dt3 : DT) :
  truthy event = true ->
  __get_body_from_first_record event w = Ok (VDict d) w ->
  dict_get d SBOM_BUCKET_NAME_KEY = Some (VStr bucket) ->
  dict_get d SBOM_S3_KEY = Some (VStr key) ->
  s3 w !! (bucket, key) = Some o ->
  __create_project frames fuel (emit (ES3Get (VStr bucket) (VStr key)) w)
    = Ok project_uuid w1 ->
  __upload_sbom fuel project_uuid (VStr (Body o)) w1 = Ok sbom_token w2 ->
  __get_findings fuel project_uuid sbom_token w2 = Ok findings w3 ->
  ssm w3 !! DT_API_KEY = Some k ->
  k <> EMPTY_VALUE ->
  dt_send (delete_request (VStr k) project_uuid) (dt w3) = (Resp r, dt3) ->
  exists w',
    dt_interface_handler frames fuel event context w = Ok (VBool true) w' /\
    trace w' =
      trace w3 ++ delete_events k project_uuid (Resp r)
               ++ [ES3Put (VStr bucket) (VStr ("findings-" +:+ key))
                     (dumps findings) []] /\
    s3 w' !! (bucket, "findings-" +:+ key) = Some (mkS3Object (dumps findings) []).
Proof.
  intros Hev Hbody Hb Hk Hobj Hcreate Hupload Hfind Hkey Hne Hsend.
  destruct (delete_project_answered fuel project_uuid w3 k r dt3 Hkey Hne Hsend)
    as (w4 & Hdel & Etr & Es3 & _).
  unfold dt_interface_handler.
  unfold __validate at 1. rewrite Hev. cbn [negb].
  unfold bind at 1. unfold ret at 1.
  rewrite (bind_Ok _ _ _ _ _ Hbody).
  unfold bind at 1. unfold getitem at 1. rewrite Hb. unfold ret at 1.
  unfold bind at 1. unfold getitem at 1. rewrite Hk. unfold ret at 1.
  unfold bind at 1. unfold s3_get at 1. rewrite Hobj.
  rewrite (bind_Ok _ _ _ _ _ Hcreate).
  rewrite (bind_Ok _ _ _ _ _ Hupload).
  rewrite (bind_Ok _ _ _ _ _ Hfind).
  rewrite (bind_Ok _ _ _ _ _ Hdel).
  unfold bind at 1. unfold getitem at 1. rewrite Hk. unfold ret at 1.
  unfold bind, s3_put, ret. cbn.
  eexists. split; [reflexivity|]. cbn. split.
  - rewrite Etr. now rewrite <- app_assoc.
  - apply lookup_insert_eq.
Qed.

(** C6 (as amended). Once a run of [dt_interface_handler] has reached the
    cleanup step with an API key in the Secret Store, any answer of the
    Analyzer to the delete-project request, whatever its status code, is
    ignored: the request is sent once, nothing is logged about its outcome
    (no warning), it is not retried, and the run goes on to write the findings
    to the blob store and returns [True]. *)
Theorem delete_project_answer_is_ignored (frames fuel : nat) (event context : value)
  (w w1 w2 w3 : World) (d : list (string * value)) (bucket key k : string)
  (o : S3Object) (project_uuid sbom_token findings : value)
  (r : Response) (dt3 : DT) :
  truthy event = true ->
  __get_body_from_first_record event w = Ok (VDict d) w ->
  dict_get d SBOM_BUCKET_NAME_KEY = Some (VStr bucket) ->
  dict_get d SBOM_S3_KEY = Some (VStr key) ->
  s3 w !! (bucket, key) = Some o ->
  __create_project frames fuel (emit (ES3Get (VStr bucket) (VStr key)) w)
    = Ok project_uuid w1 ->
  __upload_sbom fuel project_uuid (VStr (Body o)) w1 = Ok sbom_token w2 ->
  __get_findings fuel project_uuid sbom_token w2 = Ok findings w3 ->
  ssm w3 !! DT_API_KEY = Some k ->
  k <> EMPTY_VALUE ->
  dt_send (delete_request (VStr k) project_uuid) (dt w3) = (Resp r, dt3) ->
  exists w',
    dt_interface_handler frames fuel event context w = Ok (VBool true) w' /\
    trace w' =
      trace w3 ++ delete_events k project_uuid (Resp r)
               ++ [ES3Put (VStr bucket) (VStr ("findings-" +:+ key))
                     (dumps findings) []] /\
    count_events is_warning (delete_events k project_uuid (Resp r)) = O /\
    count_events (http_to is_delete_url) (delete_events k project_uuid (Resp r)) = 1%nat /\
    s3 w' !! (bucket, "findings-" +:+ key) = Some (mkS3Object (dumps findings) []).
Proof.
  intros Hev Hbody Hb Hk Hobj Hcreate Hupload Hfind Hkey Hne Hsend.
  destruct (dt_interface_handler_cleanup frames fuel event context w w1 w2 w3 d bucket
              key k o project_uuid sbom_token findings r dt3
              Hev Hbody Hb Hk Hobj Hcreate Hupload Hfind Hkey Hne Hsend)
    as (w' & Hrun & Htr & Hs3).
  exists w'. repeat split; assumption.
Qed.


(** ** Authenticating as admin *)

Lemma surjective_send (rq : Request) (d : DT) :
  dt_send rq d = (fst (dt_send rq d), snd (dt_send rq d)).
Proof. now destruct (dt_send rq d). Qed.

Lemma root_password_ok (fuel : nat) (w : World) :
  answers is_admin_url ->
  enough_fuel fuel w ->
  exists p w1 l,
    __get_root_password fuel w = Ok (VStr p) w1 /\
    ssm w1 !! DT_ROOT_PWD = Some p /\ p <> EMPTY_VALUE /\
    (forall name, name <> DT_ROOT_PWD -> ssm w1 !! name = ssm w !! name) /\
    trace w1 = trace w ++ l /\ forallb admin_event l = true.
Proof.
  intros Hans Hfuel.
  assert (Hcases :
    (exists p, ssm w !! DT_ROOT_PWD = Some p /\ p <> EMPTY_VALUE) \/
    (ssm w !! DT_ROOT_PWD = None \/ ssm w !! DT_ROOT_PWD = Some EMPTY_VALUE)).
  { destruct (ssm w !! DT_ROOT_PWD) as [p|]; [|right; now left].
    destruct (String.eqb_spec p EMPTY_VALUE) as [->|Hne].
    - right; now right.
    - left. now exists p. }
  destruct Hcases as [(p & Hp & Hne) | Hcold].
  - assert (Hpos : exists n, fuel = S n).
    { destruct fuel; [|eauto]. destruct Hfuel as [H | [H _]]; lia. }
    destruct Hpos as (n & ->).
    exists p, (emit (ESsmGet DT_ROOT_PWD) w), [ESsmGet DT_ROOT_PWD].
    split; [now apply get_root_password_stored|].
    repeat split; auto.
  - assert (Hpos : exists n, fuel = S (S n)).
    { destruct Hfuel as [H | [_ (p & Hp & Hne)]].
      - destruct fuel as [|[|n]]; try lia. eauto.
      - destruct Hcold as [Hc | Hc]; rewrite Hc in Hp; [discriminate|].
        injection Hp as <-. contradiction. }
    destruct Hpos as (n & ->).
    set (new_pwd := uuid_str (uuid_v4 (urandom16 (draws w)))).
    destruct (Hans (force_chg_request new_pwd) (dt w) eq_refl) as (r & Hr).
    pose proof (surjective_send (force_chg_request new_pwd) (dt w)) as Hsend.
    rewrite Hr in Hsend.
    destruct (get_root_password_cold n w r _ Hcold Hsend)
      as (w1 & Hrun & _ & Htr & Hssm & _).
    fold new_pwd in Hrun, Htr, Hssm.
    exists new_pwd, w1. eexists. split; [exact Hrun|].
    split; [rewrite Hssm; apply lookup_insert_eq|].
    split; [apply uuid_str_not_EMPTY|].
    split; [intros name Hname; rewrite Hssm; now apply lookup_insert_ne|].
    split; [exact Htr | reflexivity].
Qed.


Lemma get_jwt_ok (fuel : nat) (w : World) :
  answers is_admin_url ->
  enough_fuel fuel w ->
  exists j w', __get_jwt fuel VNone w = Ok (VStr j) w' /\ admin_step w w' j.
Proof.
  intros Hans Hfuel.
  set (w0 := emit (ELog INFO (VStr "@START __get_jwt()") []) w).
  destruct (root_password_ok fuel w0 Hans Hfuel)
    as (p & w1 & l & Hroot & Hp & Hne & Hframe & Htr & Hl).
  destruct (Hans (login_request p) (dt w1) eq_refl) as (r & Hr).
  unfold __get_jwt. unfold bind at 1. unfold logger_info at 1, record at 1.
  fold w0. rewrite (bind_Ok _ _ _ _ _ Hroot).
  unfold bind, logger_info, record, post, request, ret. cbn.
  unfold login_request in Hr. rewrite Hr.
  eexists. eexists. split; [reflexivity|].
  split; [|intros name Hname; cbn; now apply Hframe].
  exists (ELog INFO (VStr "@START __get_jwt()") [] :: l), p, r.
  cbn. rewrite Htr. cbn. repeat rewrite <- app_assoc.
  repeat split; auto.
Qed.

Lemma admin_step_enough_fuel (w w' : World) (j : string) (n : nat) :
  admin_step w w' j -> enough_fuel (S n) w'.
Proof.
  intros ((l & p & r & _ & _ & _ & Hp & Hne) & _). right.
  split; [lia|]. now exists p.
Qed.

Lemma login_events_admin (p : string) (r : Response) :
  forallb admin_event (login_events p r) = true.
Proof. reflexivity. Qed.


Lemma request_answered (m : Method) (url : Endpoint) (headers : list (string * value))
  (payload : Payload) (w : World) (r : Response) :
  fst (dt_send (mkRequest m url headers payload) (dt w)) = Resp r ->
  request m url headers payload w
  = Ok r (emit (EHttp (mkRequest m url headers payload) (Resp r))
            (set_dt (snd (dt_send (mkRequest m url headers payload) (dt w))) w)).
Proof. intros E. unfold request. cbv zeta. now rewrite E. Qed.

Lemma ssm_put_parameter_overwrite (name s : string) (w : World) :
  ssm_value_ok s = true ->
  ssm_put_parameter name (VStr s) true w
  = Ok tt (set_ssm (<[name := s]> (ssm w)) (emit (ESsmPut name (VStr s) true) w)).
Proof.
  intros Hok. unfold ssm_put_parameter. rewrite Hok. now destruct (ssm w !! name).
Qed.

Lemma ssm_put_parameter_refused (name s : string) (o : bool) (w : World) :
  ssm_value_ok s = false ->
  ssm_put_parameter name (VStr s) o w
  = Raise (ClientError "ValidationException") (emit (ESsmPut name (VStr s) o) w).
Proof. intros Hok. unfold ssm_put_parameter. now rewrite Hok. Qed.

Lemma json_of_loads (r : Response) (v : value) (w : World) :
  loads (text r) = Some v -> json_of r w = Ok v w.
Proof. intros E. unfold json_of. now rewrite E. Qed.

Lemma getitem_dict (d : list (string * value)) (k : string) (v : value) (w : World) :
  dict_get d k = Some v -> getitem (VDict d) k w = Ok v w.
Proof. intros E. unfold getitem. now rewrite E. Qed.

(** ** Rotating the API key *)

Lemma DT_API_KEY_not_ROOT : DT_API_KEY <> DT_ROOT_PWD.
Proof. discriminate. Qed.

Lemma rotate_api_key_ok (fuel : nat) (w : World) (k : string) :
  answers is_admin_url ->
  rotates ->
  enough_fuel fuel w ->
  ssm w !! DT_API_KEY = Some k ->
  k <> EMPTY_VALUE ->
  exists (w' : World) (l : list Event) (p j k' : string) (rl r : Response)
         (body : list (string * value)),
    __rotate_api_key fuel w = Ok VNone w' /\
    trace w' =
      trace w ++ [ESsmGet DT_API_KEY] ++ (l ++ login_events p rl)
              ++ [EHttp (rotate_request k j) (Resp r);
                  ESsmPut DT_API_KEY (VStr k') true] /\
    forallb admin_event l = true /\
    j = text rl /\
    loads (text r) = Some (VDict body) /\
    dict_get body "key" = Some (VStr k') /\
    k' <> EMPTY_VALUE /\
    ssm w' !! DT_API_KEY = Some k' /\
    ssm w' !! DT_ROOT_PWD = Some p /\ p <> EMPTY_VALUE.
Proof.
  intros Hans Hrot Hfuel Hk Hne.
  set (w1 := emit (ESsmGet DT_API_KEY) w).
  destruct (get_jwt_ok fuel w1 Hans Hfuel)
    as (j & w2 & Hjwt & (l & p & rl & Htr & Hl & Hj & Hp & Hpne) & Hframe).
  destruct (Hrot (rotate_request k j) (dt w2) eq_refl)
    as (r & body & k' & Hr & Hloads & Hkey & Hok & Hk').
  unfold __rotate_api_key.
  rewrite (bind_Ok _ _ _ _ _ (get_api_key_warm fuel w k Hk Hne)). fold w1.
  rewrite (bind_Ok _ _ _ _ _ Hjwt).
  unfold post. unfold bearer, py_str.
  rewrite (bind_Ok _ _ _ _ _ (request_answered _ _ _ _ _ _ Hr)).
  rewrite (bind_Ok _ _ _ _ _ (json_of_loads _ _ _ Hloads)).
  rewrite (bind_Ok _ _ _ _ _ (getitem_dict _ _ _ _ Hkey)).
  rewrite (bind_Ok _ _ _ _ _ (ssm_put_parameter_overwrite _ _ _ Hok)).
  eexists. exists l, p, j, k', rl, r, body.
  split; [reflexivity|]. cbn.
  split; [rewrite Htr; cbn; now repeat rewrite <- app_assoc|].
  repeat (split; [assumption|]).
  split; [apply lookup_insert_eq|].
  split; [|assumption].
  rewrite lookup_insert_ne by apply DT_API_KEY_not_ROOT. exact Hp.
Qed.


(** C7 (as amended). With an API key in the Secret Store and an Analyzer that
    answers, and answers a rotation with a key that the Secret Store takes,
    [__rotate_api_key] reads the stored key, authenticates as admin, sends one
    rotation request for the stored key under the session token it got, and
    writes the key of the answer to the Secret Store under the API-key name
    with overwrite, where it then is.  It returns [None]: the new key reaches
    the caller through the Secret Store, not as a result. *)
Theorem rotate_api_key_persists_and_returns_none (fuel : nat) (w : World)
  (k : string) :
  answers is_admin_url ->
  rotates ->
  enough_fuel fuel w ->
  ssm w !! DT_API_KEY = Some k ->
  k <> EMPTY_VALUE ->
  exists (w' : World) (l : list Event) (p j k' : string) (rl r : Response)
         (body : list (string * value)),
    __rotate_api_key fuel w = Ok VNone w' /\
    trace w' =
      trace w ++ [ESsmGet DT_API_KEY] ++ (l ++ login_events p rl)
              ++ [EHttp (rotate_request k j) (Resp r);
                  ESsmPut DT_API_KEY (VStr k') true] /\
    forallb admin_event l = true /\
    j = text rl /\
    loads (text r) = Some (VDict body) /\
    dict_get body "key" = Some (VStr k') /\
    ssm w' !! DT_API_KEY = Some k'.
Proof.
  intros Hans Hrot Hfuel Hk Hne.
  destruct (rotate_api_key_ok fuel w k Hans Hrot Hfuel Hk Hne)
    as (w' & l & p & j & k' & rl & r & body & H1 & H2 & H3 & H4 & H5 & H6 & _ & H8 & _).
  exists w', l, p, j, k', rl, r, body. repeat split; assumption.
Qed.

(** ** Project creation against an Analyzer that always answers 401 *)

Lemma admin_events_count (kind : Endpoint -> bool) (l : list Event) :
  (forall u, is_admin_url u = true -> kind u = false) ->
  forallb admin_event l = true ->
  count_events (http_to kind) l = O.
Proof.
  intros Hkind. induction l as [|e l IH]; [reflexivity|]. cbn.
  intros H. apply andb_prop in H as [He Hl]. rewrite (IH Hl).
  destruct e; try reflexivity. cbn in He |- *. now rewrite (Hkind _ He).
Qed.


Lemma rotate_not_admin (u : Endpoint) : is_admin_url u = true -> is_rotate_url u = false.
Proof. now destruct u. Qed.




(** ** Polling an Analyzer that never reports the job as done *)

Lemma sleeps_app (l1 l2 : list Event) : sleeps (l1 ++ l2) = sleeps l1 ++ sleeps l2.
Proof.
  induction l1 as [|e l1 IH]; [reflexivity|]. cbn.
  destruct e; try exact IH. cbn. now rewrite IH.
Qed.

Lemma get_findings_while_never_ready :
  never_ready ->
  forall (n : nat) (key sbom_token : value) (w : World),
    exists w' l,
      __get_findings_while n key sbom_token w = OutOfFuel w' /\
      trace w' = trace w ++ l /\
      sleeps l = repeat (1 # 2)%Q n /\
      count_events (http_to is_status_url) l = n /\
      count_events is_warning l = O.
Proof.
  intros Hnever. induction n as [|n IH]; intros key sbom_token w.
  - exists w, []. cbn. now rewrite app_nil_r.
  - cbn [__get_findings_while]. unfold __findings_ready, get.
    match goal with
    | |- context [request GET (get_sbom_status sbom_token) ?h NoPayload] =>
        set (hs := h)
    end.
    destruct (Hnever (mkRequest GET (get_sbom_status sbom_token) hs NoPayload)
                (dt w) eq_refl)
      as (r & body & processing & Hr & Hloads & Hget & Htrue).
    unfold bind at 1. unfold bind at 1.
    rewrite (request_answered _ _ _ _ _ _ Hr).
    rewrite (bind_Ok _ _ _ _ _ (json_of_loads _ _ _ Hloads)).
    rewrite (bind_Ok _ _ _ _ _ (getitem_dict _ _ _ _ Hget)).
    unfold ret at 1. rewrite Htrue. cbn [negb].
    unfold bind at 1. unfold sleep at 1, record at 1.
    unfold bind at 1. unfold logger_info at 1, record at 1.
    match goal with
    | |- context [__get_findings_while n key sbom_token ?w0] => set (w1 := w0)
    end.
    destruct (IH key sbom_token w1) as (w' & l & Hrun & Htr & Hs & Hc & Hw).
    exists w'. eexists. split; [exact Hrun|].
    split; [rewrite Htr; cbn; repeat rewrite <- app_assoc; reflexivity|].
    cbn. rewrite Hs, Hc, Hw. repeat split.
Qed.

Lemma get_findings_never_ready :
  never_ready ->
  forall (fuel : nat) (project_uuid sbom_token : value) (w : World) (k : string),
    ssm w !! DT_API_KEY = Some k ->
    k <> EMPTY_VALUE ->
    exists w' l,
      __get_findings fuel project_uuid sbom_token w = OutOfFuel w' /\
      trace w' = trace w ++ [ESsmGet DT_API_KEY] ++ l /\
      sleeps l = repeat (1 # 2)%Q fuel /\
      count_events (http_to is_status_url) l = fuel /\
      count_events is_warning l = O.
Proof.
  intros Hnever fuel project_uuid sbom_token w k Hk Hne.
  unfold __get_findings.
  rewrite (bind_Ok _ _ _ _ _ (get_api_key_warm fuel w k Hk Hne)).
  destruct (get_findings_while_never_ready Hnever fuel (VStr k) sbom_token
              (emit (ESsmGet DT_API_KEY) w))
    as (w' & l & Hrun & Htr & Hrest).
  exists w', l. rewrite (bind_OutOfFuel _ _ _ _ Hrun).
  split; [reflexivity|]. split; [|exact Hrest].
  rewrite Htr. cbn. now rewrite <- app_assoc.
Qed.

(** C2 (as amended). The polling phase queries the job status and, after every
    answer that reports the job as still processing, sleeps for half a second
    and asks again.  Nothing bounds the total wait and no timeout error is
    raised: against an Analyzer that never reports the job as done, for every
    amount of fuel [__get_findings] is still polling when the fuel is spent,
    having made that many status requests, each followed by a pause of
    exactly half a second. *)
Theorem get_findings_polls_without_bound (fuel : nat)
  (project_uuid sbom_token : value) (w : World) (k : string) :
  never_ready ->
  ssm w !! DT_API_KEY = Some k ->
  k <> EMPTY_VALUE ->
  exists w' l,
    __get_findings fuel project_uuid sbom_token w = OutOfFuel w' /\
    trace w' = trace w ++ [ESsmGet DT_API_KEY] ++ l /\
    sleeps l = repeat (1 # 2)%Q fuel /\
    count_events (http_to is_status_url) l = fuel.
Proof.
  intros Hnever Hk Hne.
  destruct (get_findings_never_ready Hnever fuel project_uuid sbom_token w k Hk Hne)
    as (w' & l & H1 & H2 & H3 & H4 & _).
  exists w', l. repeat split; assumption.
Qed.


(** ** Bootstrapping the API key *)

Lemma granted_app (l1 l2 : list Event) : granted (l1 ++ l2) = granted l1 ++ granted l2.
Proof.
  induction l1 as [|e l1 IH]; [reflexivity|]. cbn.
  destruct e; try exact IH.
  destruct (rq_method rq); try exact IH.
  destruct (rq_url rq); try exact IH. cbn. now rewrite IH.
Qed.

Lemma ssm_writes_app (name : string) (l1 l2 : list Event) :
  ssm_writes name (l1 ++ l2) = ssm_writes name l1 ++ ssm_writes name l2.
Proof.
  induction l1 as [|e l1 IH]; [reflexivity|]. cbn.
  destruct e; try exact IH.
  destruct (String.eqb name0 name); [cbn; now rewrite IH | exact IH].
Qed.

Lemma quiet_granted (l : list Event) :
  forallb bootstrap_quiet l = true -> granted l = [].
Proof.
  induction l as [|e l IH]; [reflexivity|]. cbn.
  intros H. apply andb_prop in H as [He Hl]. specialize (IH Hl).
  destruct e; try exact IH. cbn in He.
  destruct (rq_method rq); try exact IH.
  destruct (rq_url rq); try exact IH. discriminate He.
Qed.

Lemma quiet_ssm_writes (l : list Event) :
  forallb bootstrap_quiet l = true -> ssm_writes DT_API_KEY l = [].
Proof.
  induction l as [|e l IH]; [reflexivity|]. cbn.
  intros H. apply andb_prop in H as [He Hl]. specialize (IH Hl).
  destruct e; try exact IH. cbn in He.
  destruct (String.eqb name DT_API_KEY); [discriminate He | exact IH].
Qed.

Lemma admin_event_quiet (e : Event) : admin_event e = true -> bootstrap_quiet e = true.
Proof.
  destruct e; cbn; try reflexivity; try discriminate.
  - now destruct (rq_url rq).
  - intros H. apply String.eqb_eq in H as ->. reflexivity.
Qed.

Lemma admin_events_quiet (l : list Event) :
  forallb admin_event l = true -> forallb bootstrap_quiet l = true.
Proof.
  induction l as [|e l IH]; [reflexivity|]. cbn.
  intros H. apply andb_prop in H as [He Hl].
  now rewrite (admin_event_quiet _ He), (IH Hl).
Qed.

Lemma get_automation_team_found (pre post : list value) (team uuid : value)
  (k : string) (w : World) :
  Forall other_team pre ->
  automation_team team uuid k ->
  __get_automation_team_data_from_dt_for (pre ++ team :: post) w
  = Ok (uuid, VStr k)
      (emit (ELog INFO (VStr "END __get_automation_team_data_from_dt %s") [uuid]) w).
Proof.
  intros Hpre (d & fk & more & -> & Hname & Huuid & Hkeys & Hkey).
  induction Hpre as [|t pre (dt & name & -> & Hn & Hneq) _ IH].
  - cbn [app __get_automation_team_data_from_dt_for].
    rewrite (bind_Ok _ _ _ _ _ (getitem_dict _ _ _ _ Hname)).
    rewrite eq_str_VStr_true.
    rewrite (bind_Ok _ _ _ _ _ (getitem_dict _ _ _ _ Huuid)).
    rewrite (bind_Ok _ _ _ _ _ (getitem_dict _ _ _ _ Hkeys)).
    unfold bind at 1. unfold getitem0 at 1. unfold ret at 1.
    rewrite (bind_Ok _ _ _ _ _ (getitem_dict _ _ _ _ Hkey)).
    reflexivity.
  - cbn [app __get_automation_team_data_from_dt_for].
    rewrite (bind_Ok _ _ _ _ _ (getitem_dict _ _ _ _ Hn)).
    rewrite Hneq. exact IH.
Qed.

Lemma grant_each_permission (perms : list string) (team_uuid : value)
  (headers : list (string * value)) (w : World) :
  answers is_grant_url ->
  exists w' l,
    for_each perms
      (fun perm =>
         post (add_permission_to_team perm team_uuid) headers NoPayload ;;
         ret tt) w = Ok tt w' /\
    trace w' = trace w ++ l /\
    granted l = map (fun perm => (perm, team_uuid)) perms /\
    ssm_writes DT_API_KEY l = [] /\
    ssm w' = ssm w.
Proof.
  intros Hans. revert w. induction perms as [|perm perms IH]; intros w.
  - exists w, []. cbn. now rewrite app_nil_r.
  - cbn [for_each]. unfold post.
    destruct (Hans (mkRequest POST (add_permission_to_team perm team_uuid)
                      headers NoPayload) (dt w) eq_refl) as (r & Hr).
    unfold bind at 1. unfold bind at 1.
    rewrite (request_answered _ _ _ _ _ _ Hr). unfold ret at 1.
    match goal with
    | |- context [for_each perms _ ?w0] => set (w1 := w0)
    end.
    destruct (IH w1) as (w' & l & Hrun & Htr & Hg & Hs & Hssm).
    unfold post in Hrun.
    exists w'. eexists. split; [exact Hrun|].
    split; [rewrite Htr; cbn; rewrite <- app_assoc; reflexivity|].
    cbn. rewrite Hg, Hs. repeat split. exact Hssm.
Qed.


Lemma admin_step_quiet (w w' : World) (j : string) :
  admin_step w w' j ->
  exists l, trace w' = trace w ++ l /\ forallb bootstrap_quiet l = true.
Proof.
  intros ((l & p & r & Htr & Hl & _) & _).
  exists (l ++ login_events p r). split; [exact Htr|].
  rewrite forallb_app. now rewrite (admin_events_quiet _ Hl).
Qed.

Lemma get_automation_team_ok (fuel : nat) (w : World) (pre post : list value)
  (team uuid : value) (k : string) :
  answers is_admin_url ->
  lists_teams (pre ++ team :: post) ->
  Forall other_team pre ->
  automation_team team uuid k ->
  enough_fuel fuel w ->
  exists w' l,
    __get_automation_team_data_from_dt fuel w = Ok (uuid, VStr k) w' /\
    trace w' = trace w ++ l /\
    forallb bootstrap_quiet l = true /\
    (exists p, ssm w' !! DT_ROOT_PWD = Some p /\ p <> EMPTY_VALUE) /\
    (forall name, name <> DT_ROOT_PWD -> ssm w' !! name = ssm w !! name).
Proof.
  intros Hans Hteams Hpre Hteam Hfuel.
  unfold __get_automation_team_data_from_dt, __get_teams.
  unfold bind at 1. unfold logger_info at 1, record at 1.
  unfold bind at 1. unfold bind at 1. unfold logger_info at 1, record at 1.
  match goal with
  | |- context [bind (__get_jwt fuel VNone) _ ?w0] => set (w1 := w0)
  end.
  destruct (get_jwt_ok fuel w1 Hans Hfuel) as (j & w2 & Hjwt & Hstep).
  rewrite (bind_Ok _ _ _ _ _ Hjwt). unfold get.
  match goal with
  | |- context [request GET get_teams_data ?h NoPayload] => set (hs := h)
  end.
  destruct (Hteams (mkRequest GET get_teams_data hs NoPayload) (dt w2) eq_refl)
    as (r & Hr & Hloads).
  rewrite (bind_Ok _ _ _ _ _ (request_answered _ _ _ _ _ _ Hr)).
  rewrite (bind_Ok _ _ _ _ _ (json_of_loads _ _ _ Hloads)).
  unfold bind at 1. unfold logger_info at 1, record at 1. unfold ret at 1.
  unfold bind at 1. unfold iterate at 1. unfold ret at 1.
  rewrite (get_automation_team_found pre post team uuid k _ Hpre Hteam).
  destruct (admin_step_quiet _ _ _ Hstep) as (l & Htr & Hl).
  destruct Hstep as ((_ & p & _ & _ & _ & _ & Hp & Hne) & Hframe).
  eexists. eexists. split; [reflexivity|].
  split; [cbn; rewrite Htr; cbn; repeat rewrite <- app_assoc; reflexivity|].
  split; [|split; [now exists p | exact Hframe]].
  cbn. rewrite forallb_app, Hl. reflexivity.
Qed.

Lemma set_team_permissions_ok (fuel : nat) (w : World) (team_uuid : value) :
  answers is_admin_url ->
  answers is_grant_url ->
  enough_fuel fuel w ->
  exists w' l,
    __set_team_permissions fuel team_uuid w = Ok tt w' /\
    trace w' = trace w ++ l /\
    granted l = map (fun perm => (perm, team_uuid)) permissions /\
    ssm_writes DT_API_KEY l = [] /\
    (forall name, name <> DT_ROOT_PWD -> ssm w' !! name = ssm w !! name).
Proof.
  intros Hans Hgrant Hfuel.
  unfold __set_team_permissions.
  unfold bind at 1. unfold logger_info at 1, record at 1.
  match goal with
  | |- context [bind (__get_jwt fuel VNone) _ ?w0] => set (w1 := w0)
  end.
  destruct (get_jwt_ok fuel w1 Hans Hfuel) as (j & w2 & Hjwt & Hstep).
  rewrite (bind_Ok _ _ _ _ _ Hjwt).
  match goal with
  | |- context [for_each permissions ?b] => set (body := b)
  end.
  destruct (grant_each_permission permissions team_uuid
              [("Authorization", bearer (VStr j)); ("Accept", VStr "application/json")]
              w2 Hgrant)
    as (w3 & lg & Hrun & Htr3 & Hg & Hs & Hssm).
  fold body in Hrun.
  rewrite (bind_Ok _ _ _ _ _ Hrun).
  destruct (admin_step_quiet _ _ _ Hstep) as (l & Htr & Hl).
  destruct Hstep as (_ & Hframe).
  eexists. eexists. split; [reflexivity|].
  split; [cbn; rewrite Htr3, Htr; cbn; repeat rewrite <- app_assoc; reflexivity|].
  split; [|split].
  - cbn. repeat rewrite granted_app. rewrite (quiet_granted _ Hl), Hg.
    reflexivity.
  - cbn. repeat rewrite ssm_writes_app. rewrite (quiet_ssm_writes _ Hl), Hs.
    reflexivity.
  - intros name Hname. cbn. rewrite Hssm. now apply Hframe.
Qed.

Lemma set_initial_api_key_ok (fuel : nat) (w : World) (pre post : list value)
  (team uuid : value) (k : string) :
  answers is_admin_url ->
  answers is_grant_url ->
  lists_teams (pre ++ team :: post) ->
  Forall other_team pre ->
  automation_team team uuid k ->
  ssm_value_ok k = true ->
  (2 <= fuel)%nat ->
  exists w' l,
    __set_initial_api_key_in_ssm fuel w = Ok (VStr k) w' /\
    trace w' = trace w ++ l /\
    granted l = map (fun perm => (perm, uuid)) permissions /\
    ssm_writes DT_API_KEY l = [VStr k] /\
    ssm w' !! DT_API_KEY = Some k.
Proof.
  intros Hans Hgrant Hteams Hpre Hteam Hok Hfuel.
  unfold __set_initial_api_key_in_ssm.
  destruct (get_automation_team_ok fuel w pre post team uuid k Hans Hteams Hpre
              Hteam (or_introl Hfuel))
    as (w1 & l1 & Hrun1 & Htr1 & Hq1 & _ & _).
  rewrite (bind_Ok _ _ _ _ _ Hrun1). cbn [fst snd].
  destruct (set_team_permissions_ok fuel w1 uuid Hans Hgrant (or_introl Hfuel))
    as (w2 & l2 & Hrun2 & Htr2 & Hg2 & Hs2 & _).
  rewrite (bind_Ok _ _ _ _ _ Hrun2).
  rewrite (bind_Ok _ _ _ _ _ (ssm_put_parameter_overwrite _ _ _ Hok)).
  eexists. eexists. split; [reflexivity|].
  split; [cbn; rewrite Htr2, Htr1; repeat rewrite <- app_assoc; reflexivity|].
  split; [|split].
  - repeat rewrite granted_app. rewrite (quiet_granted _ Hq1), Hg2.
    reflexivity.
  - repeat rewrite ssm_writes_app. rewrite (quiet_ssm_writes _ Hq1), Hs2.
    reflexivity.
  - cbn. apply lookup_insert_eq.
Qed.

Lemma get_api_key_cold (fuel : nat) (w : World) (pre post : list value)
  (team uuid : value) (k : string) :
  answers is_admin_url ->
  answers is_grant_url ->
  lists_teams (pre ++ team :: post) ->
  Forall other_team pre ->
  automation_team team uuid k ->
  ssm_value_ok k = true ->
  (2 <= fuel)%nat ->
  (ssm w !! DT_API_KEY = None \/ ssm w !! DT_API_KEY = Some EMPTY_VALUE) ->
  exists w' l,
    __get_api_key fuel w = Ok (VStr k) w' /\
    trace w' = trace w ++ l /\
    granted l = map (fun perm => (perm, uuid)) permissions /\
    ssm_writes DT_API_KEY l = [VStr k] /\
    ssm w' !! DT_API_KEY = Some k.
Proof.
  intros Hans Hgrant Hteams Hpre Hteam Hok Hfuel Hcold.
  unfold __get_api_key.
  destruct Hcold as [Habsent | Hempty].
  - set (w1 := emit (ESsmGet DT_API_KEY) w).
    rewrite (try_except_caught _ _ _ w w1 ParameterNotFound);
      [| unfold bind, ssm_get_parameter; now rewrite Habsent | reflexivity].
    unfold bind at 1. unfold logger_info at 1, record at 1.
    match goal with
    | |- context [__set_initial_api_key_in_ssm fuel ?w0] => set (w2 := w0)
    end.
    destruct (set_initial_api_key_ok fuel w2 pre post team uuid k Hans Hgrant
                Hteams Hpre Hteam Hok Hfuel)
      as (w' & l & Hrun & Htr & Hg & Hs & Hk).
    exists w'. eexists. split; [exact Hrun|].
    split; [rewrite Htr; cbn; repeat rewrite <- app_assoc; reflexivity|].
    cbn. now rewrite Hg, Hs.
  - set (w1 := emit (ESsmGet DT_API_KEY) w).
    destruct (set_initial_api_key_ok fuel w1 pre post team uuid k Hans Hgrant
                Hteams Hpre Hteam Hok Hfuel)
      as (w' & l & Hrun & Htr & Hg & Hs & Hk).
    exists w'. eexists. split.
    + apply try_except_Ok. unfold bind at 1. unfold ssm_get_parameter at 1.
      rewrite Hempty. fold w1. rewrite eq_str_VStr_true. exact Hrun.
    + split; [rewrite Htr; cbn; repeat rewrite <- app_assoc; reflexivity|].
      cbn. now rewrite Hg, Hs.
Qed.

(** C3. Starting from a Secret Store in which the API key is absent or is the
    [EMPTY] placeholder, with an Analyzer that answers and whose team listing
    has a team named "Automation" whose first API key is a value the Secret
    Store takes, one call of [__get_api_key] returns the key of that team's
    first API key.  Along the way it sent exactly one grant
    request for each of the nine permissions of the fixed set, in the order of
    the set and all for that team, and no other grant; it wrote the key to the
    Secret Store exactly once, and the key it returns is the one the store
    then holds. *)
Theorem get_api_key_bootstraps (fuel : nat) (w : World) (pre post : list value)
  (team uuid : value) (k : string) :
  answers is_admin_url ->
  answers is_grant_url ->
  lists_teams (pre ++ team :: post) ->
  Forall other_team pre ->
  automation_team team uuid k ->
  ssm_value_ok k = true ->
  (2 <= fuel)%nat ->
  (ssm w !! DT_API_KEY = None \/ ssm w !! DT_API_KEY = Some EMPTY_VALUE) ->
  exists w' l,
    __get_api_key fuel w = Ok (VStr k) w' /\
    trace w' = trace w ++ l /\
    granted l =
      [("ACCESS_MANAGEMENT", uuid);
       ("POLICY_MANAGEMENT", uuid);
       ("POLICY_VIOLATION_ANALYSIS", uuid);
       ("PORTFOLIO_MANAGEMENT", uuid);
       ("PROJECT_CREATION_UPLOAD", uuid);
       ("SYSTEM_CONFIGURATION", uuid);
       ("VIEW_PORTFOLIO", uuid);
       ("VIEW_VULNERABILITY", uuid);
       ("VULNERABILITY_ANALYSIS", uuid)] /\
    ssm_writes DT_API_KEY l = [VStr k] /\
    ssm w' !! DT_API_KEY = Some k.
Proof.
  intros Hans Hgrant Hteams Hpre Hteam Hok Hfuel Hcold.
  exact (get_api_key_cold fuel w pre post team uuid k Hans Hgrant Hteams Hpre
           Hteam Hok Hfuel Hcold).
Qed.


(** ** The handlers of api.py *)

Section Handlers.

Context `{HP : !Helpers}.

Lemma pristine_handler_rejected (event context bom_obj : value) (w : World)
  (bucket : string) (e : Exn) :
  __get_body_from_event event w = Ok bom_obj w ->
  environ w !! SBOM_BUCKET_NAME_KEY = Some bucket ->
  core_validate bom_obj = Some e ->
  pristine_sbom_ingress_handler event context w
  = match e with
    | ValidationError text =>
        Ok (VDict [("statusCode", VInt 400);
                   ("isBase64Encoded", VBool false);
                   ("body", VStr text)])
          (set_draws (S (draws w)) w)
    | _ => Raise e (set_draws (S (draws w)) w)
    end.
Proof.
  intros Hbody Henv Hval. unfold pristine_sbom_ingress_handler.
  rewrite (bind_Ok _ _ _ _ _ Hbody).
  unfold bind at 1. unfold environ_get at 1. rewrite Henv.
  unfold bind at 1. unfold uuid4 at 1.
  unfold try_except, bind, validate. rewrite Hval. unfold raise.
  destruct e; reflexivity.
Qed.

Lemma pristine_handler_accepted (event context bom_obj token : value)
  (w w2 : World) (bucket : string) :
  __get_body_from_event event w = Ok bom_obj w ->
  environ w !! SBOM_BUCKET_NAME_KEY = Some bucket ->
  core_validate bom_obj = None ->
  __generate_sbom_api_token (set_draws (S (draws w)) w) = Ok token w2 ->
  let key := "sbom-" +:+ uuid_str (uuid_v4 (urandom16 (draws w))) in
  let object := mkS3Object (dumps bom_obj) [(ENRICHMENT_ID, token)] in
  pristine_sbom_ingress_handler event context w
  = Ok (__create_pristine_response_obj (VStr bucket) (VStr key))
      (set_s3 (<[(bucket, key) := object]> (s3 w2))
         (emit (ES3Put (VStr bucket) (VStr key) (dumps bom_obj)
                  [(ENRICHMENT_ID, token)]) w2)).
Proof.
  intros Hbody Henv Hval Htok key object. unfold pristine_sbom_ingress_handler.
  rewrite (bind_Ok _ _ _ _ _ Hbody).
  unfold bind at 1. unfold environ_get at 1. rewrite Henv.
  unfold bind at 1. unfold uuid4 at 1.
  apply try_except_Ok.
  unfold bind at 1. unfold validate. rewrite Hval. unfold ret at 1.
  rewrite (bind_Ok _ _ _ _ _ Htok).
  reflexivity.
Qed.

(** C10. For an event whose body parses to an SBOM, with the bucket name in the
    environment: when validation raises, the handler leaves the trace and the
    blob store as they were (no S3 put), and when what it raises is a
    validation error the handler returns the response with [statusCode] 400
    and the error text as [body]; when validation succeeds (and the token
    generator returns), the handler puts the SBOM bytes in the bucket under
    the fresh key ["sbom-" + uuid] and returns the response with [statusCode]
    200.  So the put happens only after a successful validation. *)
Theorem pristine_sbom_ingress_handler_validates (event context bom_obj : value)
  (w : World) (bucket : string) :
  __get_body_from_event event w = Ok bom_obj w ->
  environ w !! SBOM_BUCKET_NAME_KEY = Some bucket ->
  let key := "sbom-" +:+ uuid_str (uuid_v4 (urandom16 (draws w))) in
  let outcome := pristine_sbom_ingress_handler event context w in
  (forall e,
     core_validate bom_obj = Some e ->
     trace (world_of outcome) = trace w /\
     s3 (world_of outcome) = s3 w /\
     forall text,
       e = ValidationError text ->
       exists w',
         outcome = Ok (VDict [("statusCode", VInt 400);
                              ("isBase64Encoded", VBool false);
                              ("body", VStr text)]) w') /\
  (core_validate bom_obj = None ->
   forall token w2,
     __generate_sbom_api_token (set_draws (S (draws w)) w) = Ok token w2 ->
     exists w',
       outcome
       = Ok (VDict [("statusCode", VInt 200);
                    ("isBase64Encoded", VBool false);
                    ("body", VStr (dumps (VDict [("valid", VBool true);
                                                 ("s3BucketName", VStr bucket);
                                                 ("s3ObjectKey", VStr key)])))]) w' /\
       trace w' = trace w2 ++ [ES3Put (VStr bucket) (VStr key) (dumps bom_obj)
                                 [(ENRICHMENT_ID, token)]] /\
       s3 w' !! (bucket, key)
       = Some (mkS3Object (dumps bom_obj) [(ENRICHMENT_ID, token)])).
Proof.
  intros Hbody Henv key outcome. split.
  - intros e Hval. unfold outcome.
    rewrite (pristine_handler_rejected event context bom_obj w bucket e Hbody Henv Hval).
    split; [now destruct e|]. split; [now destruct e|].
    intros text ->. eexists. reflexivity.
  - intros Hval token w2 Htok. unfold outcome.
    rewrite (pristine_handler_accepted event context bom_obj token w w2 bucket
               Hbody Henv Hval Htok).
    eexists. split; [reflexivity|]. split; [reflexivity|].
    cbn. apply lookup_insert_eq.
Qed.

Lemma delete_token_handler_index_zero (event context : value) (w : World)
  (ev params rsp team first : list (string * value)) (team_name : value)
  (token : string) (rest : list value) (d : DDB) :
  first_token_has_index_zero ->
  event = VDict ev ->
  dict_get ev "pathParameters" = Some (VDict params) ->
  dict_get params "team" = Some team_name ->
  dict_get params "token" = Some (VStr token) ->
  ddb_get_item TEAM_TABLE_NAME (VDict [("Id", team_name)]) (ddb w)
  = (inr (VDict rsp), d) ->
  dict_get rsp "Item" = Some (VDict team) ->
  dict_get team "tokens" = Some (VList (VDict first :: rest)) ->
  dict_get first "token" = Some (VStr token) ->
  delete_token_handler event context w
  = Ok (__token_response_obj 401 (VStr token)
          (VStr (no_such_token (VStr token) team_name)))
      (emit (EDdbGet TEAM_TABLE_NAME (VDict [("Id", team_name)])) (set_ddb d w)).
Proof.
  intros Hidx -> Hpp Hteam Htoken Hget Hitem Htokens Hfirst.
  unfold delete_token_handler.
  rewrite (bind_Ok _ _ _ _ _ (getitem_dict _ _ _ _ Hpp)).
  rewrite (bind_Ok _ _ _ _ _ (getitem_dict _ _ _ _ Hteam)).
  rewrite (bind_Ok _ _ _ _ _ (getitem_dict _ _ _ _ Hpp)).
  rewrite (bind_Ok _ _ _ _ _ (getitem_dict _ _ _ _ Htoken)).
  unfold bind at 1. unfold table_get_item at 1. cbv zeta. rewrite Hget. cbn [fst snd].
  rewrite (bind_Ok _ _ _ _ _ (getitem_dict _ _ _ _ Hitem)).
  rewrite (bind_Ok _ _ _ _ _ (getitem_dict _ _ _ _ Htokens)).
  rewrite (bind_Ok _ _ _ _ _ (Hidx first rest token _ Hfirst)).
  reflexivity.
Qed.

(** C9. When the token asked for is the first of the team's stored tokens, so
    that the index lookup gives 0, [delete_token_handler] takes the integer 0
    for "not found": it issues no update against the team table (the only
    thing it did is the one read of the team) and returns the response with
    [statusCode] 401 whose body carries the "No such token" error, although
    the token is there. *)
Theorem delete_token_handler_skips_first_token (event context : value) (w : World)
  (ev params rsp team first : list (string * value)) (team_name : value)
  (token : string) (rest : list value) (d : DDB) :
  first_token_has_index_zero ->
  event = VDict ev ->
  dict_get ev "pathParameters" = Some (VDict params) ->
  dict_get params "team" = Some team_name ->
  dict_get params "token" = Some (VStr token) ->
  ddb_get_item TEAM_TABLE_NAME (VDict [("Id", team_name)]) (ddb w)
  = (inr (VDict rsp), d) ->
  dict_get rsp "Item" = Some (VDict team) ->
  dict_get team "tokens" = Some (VList (VDict first :: rest)) ->
  dict_get first "token" = Some (VStr token) ->
  exists w',
    delete_token_handler event context w
    = Ok (VDict [("statusCode", VInt 401);
                 ("isBase64Encoded", VBool false);
                 ("body",
                  VStr (dumps (VDict [("token", VStr token);
                                      ("error",
                                       VStr (no_such_token (VStr token)
                                               team_name))])))])
        w' /\
    trace w' = trace w ++ [EDdbGet TEAM_TABLE_NAME (VDict [("Id", team_name)])] /\
    count_events is_ddb_update (trace w') = count_events is_ddb_update (trace w) /\
    ddb w' = d.
Proof.
  intros Hidx Hev Hpp Hteam Htoken Hget Hitem Htokens Hfirst.
  eexists. split.
  - rewrite (delete_token_handler_index_zero event context w ev params rsp team
               first team_name token rest d Hidx Hev Hpp Hteam Htoken Hget Hitem
               Htokens Hfirst).
    reflexivity.
  - cbn. split; [reflexivity|]. split; [|reflexivity].
    rewrite count_events_app. cbn. lia.
Qed.

End Handlers.


(** * Further properties of the client *)

(** ** Upload and project creation: what is made of the answer *)

Lemma field_of_body_run (r : Response) (field : string) (w : World) :
  (json <- json_of r ;; getitem json field) w = field_of_body r field w.
Proof.
  unfold bind, json_of, field_of_body, getitem, ret, raise.
  destruct (loads (text r)) as [v|]; [|reflexivity].
  destruct v; try reflexivity.
  destruct (dict_get d field); reflexivity.
Qed.

Lemma multipart_encoder_refused (fields : list (string * value)) (e : Exn)
  (w : World) :
  encoder_error fields = Some e ->
  multipart_encoder fields w = Raise e (set_draws (S (draws w)) w).
Proof. intros E. unfold multipart_encoder, bind, uuid4. now rewrite E. Qed.

Lemma multipart_encoder_accepted (fields : list (string * value)) (w : World) :
  encoder_error fields = None ->
  multipart_encoder fields w
  = Ok (uuid_hex (uuid_v4 (urandom16 (draws w)))) (set_draws (S (draws w)) w).
Proof. intros E. unfold multipart_encoder, bind, uuid4. now rewrite E. Qed.

(** X1. With an API key in the Secret Store, [__upload_sbom] first builds the
    multipart body from the project id and the SBOM it was given.  When the
    encoder refuses them, as it does a project id that is a number, a boolean
    or a dict, its exception leaves the function before anything is sent, the
    read of the key being all that happened.  Otherwise the function
    sends one upload request and, whatever the status code of the answer (401
    included), does nothing more: no rotation, no retry.  Its outcome is then
    read off the body alone: the ["token"] of the JSON object, [KeyError] when
    there is none, [TypeError] when the body is JSON but not an object, a JSON
    decoding error when it is not JSON. *)
Theorem upload_sbom_outcome (fuel : nat) (project_uuid bom : value) (w : World)
  (k : string) :
  let boundary := uuid_hex (uuid_v4 (urandom16 (draws w))) in
  ssm w !! DT_API_KEY = Some k ->
  k <> EMPTY_VALUE ->
  (unencodable project_uuid = true ->
   encoder_error (upload_fields project_uuid bom) = Some AttributeError) /\
  match encoder_error (upload_fields project_uuid bom) with
  | Some e =>
      exists w',
        __upload_sbom fuel project_uuid bom w = Raise e w' /\
        trace w' = trace w ++ [ESsmGet DT_API_KEY] /\
        ssm w' = ssm w /\ dt w' = dt w
  | None =>
      forall (r : Response) (d : DT),
        dt_send (upload_request k boundary project_uuid bom) (dt w) = (Resp r, d) ->
        exists w',
          __upload_sbom fuel project_uuid bom w = field_of_body r "token" w' /\
          trace w' = trace w ++ upload_events k boundary project_uuid bom r /\
          ssm w' = ssm w /\ dt w' = d
  end.
Proof.
  intros boundary Hk Hne.
  split; [apply encoder_error_unencodable|].
  destruct (encoder_error (upload_fields project_uuid bom)) as [e|] eqn:Henc.
  - unfold __upload_sbom.
    rewrite (bind_Ok _ _ _ _ _ (get_api_key_warm fuel w k Hk Hne)).
    rewrite (bind_Raise _ _ _ _ _ (multipart_encoder_refused _ _ _ Henc)).
    eexists. split; [reflexivity|]. repeat split.
  - intros r d Hsend. unfold __upload_sbom.
    rewrite (bind_Ok _ _ _ _ _ (get_api_key_warm fuel w k Hk Hne)).
    rewrite (bind_Ok _ _ _ _ _ (multipart_encoder_accepted _ _ Henc)).
    cbn [draws emit set_draws]. fold boundary.
    unfold bind at 1. unfold logger_info at 1, record at 1.
    unfold bind at 1. unfold logger_info at 1, record at 1.
    unfold bind at 1. unfold logger_info at 1, record at 1.
    unfold post.
    match goal with
    | |- context [bind (request POST post_sbom ?h ?b) _ ?w0] => set (w1 := w0)
    end.
    assert (Hr : fst (dt_send (upload_request k boundary project_uuid bom) (dt w1))
                 = Resp r) by (change (dt w1) with (dt w); now rewrite Hsend).
    unfold upload_request, upload_headers in Hr.
    rewrite (bind_Ok _ _ _ _ _ (request_answered _ _ _ _ _ _ Hr)).
    rewrite field_of_body_run.
    eexists. split; [reflexivity|].
    subst w1. cbn [trace ssm dt emit set_dt set_draws].
    unfold upload_request, upload_headers in Hsend. rewrite Hsend.
    repeat rewrite <- app_assoc. repeat split.
Qed.

(** X2. With an API key in the Secret Store, an answer to the creation request
    whose status is not 401 ends [__create_project] at once, without any
    rotation: the result is the ["uuid"] of the JSON body, and a body without
    one (or that is not JSON) makes the call raise, whatever the status code
    says.  This holds of any call that the recursion limit lets in. *)
Theorem create_project_outcome (n fuel : nat) (w : World) (k : string)
  (r : Response) (d : DT) :
  let name := uuid_str (uuid_v4 (urandom16 (draws w))) in
  ssm w !! DT_API_KEY = Some k ->
  k <> EMPTY_VALUE ->
  dt_send (create_request k name) (dt w) = (Resp r, d) ->
  status_code r <> 401 ->
  exists w1,
    trace w1 = trace w ++ [ESsmGet DT_API_KEY; EHttp (create_request k name) (Resp r)] /\
    ssm w1 = ssm w /\ dt w1 = d /\
    __create_project (S n) fuel w
    = match field_of_body r "uuid" w1 with
      | Ok project_uuid w1 =>
          Ok project_uuid
            (emit (ELog INFO (VStr "ProjectCreated uuid= %s") [project_uuid]) w1)
      | other => other
      end.
Proof.
  intros name Hk Hne Hsend Hstatus. cbn [__create_project].
  rewrite (bind_Ok _ _ _ _ _ (get_api_key_warm fuel w k Hk Hne)).
  unfold bind at 1. unfold uuid4 at 1. cbn [draws emit set_draws]. fold name.
  unfold put.
  match goal with
  | |- context [bind (request PUT create_project ?h ?b) _ ?w0] => set (w0' := w0)
  end.
  assert (Hr : fst (dt_send (create_request k name) (dt w0')) = Resp r)
    by (change (dt w0') with (dt w); now rewrite Hsend).
  unfold create_request in Hr.
  rewrite (bind_Ok _ _ _ _ _ (request_answered _ _ _ _ _ _ Hr)).
  apply Z.eqb_neq in Hstatus. rewrite Hstatus.
  match goal with
  | |- context [bind (json_of r) _ ?w0] => set (w1 := w0)
  end.
  exists w1. split; [|split; [|split]].
  - subst w1 w0'. cbn [trace emit set_dt set_draws]. now rewrite <- app_assoc.
  - reflexivity.
  - subst w1 w0'. cbn [dt emit set_dt set_draws].
    unfold create_request in Hsend. now rewrite Hsend.
  - unfold field_of_body, bind, json_of, getitem, ret, raise, logger_info, record.
    destruct (loads (text r)) as [v|]; [|reflexivity].
    destruct v; try reflexivity.
    destruct (dict_get d0 "uuid"); reflexivity.
Qed.



(** ** Polling an Analyzer that becomes ready *)

Lemma get_findings_while_ready (k extra : nat) (key sbom_token : value) :
  forall w : World,
    done_after k key sbom_token (dt w) ->
    exists w' l,
      __get_findings_while (S k + extra) key sbom_token w = Ok tt w' /\
      trace w' = trace w ++ l /\
      sleeps l = repeat (1 # 2)%Q k /\
      count_events (http_to is_status_url) l = S k /\
      count_events (http_to is_findings_url) l = O /\
      dt w' = polled (S k) key sbom_token (dt w) /\
      ssm w' = ssm w.
Proof.
  induction k as [|k IH]; intros w (r & body & processing & Hr & Hloads & Hget & Hk).
  - cbn [Nat.add __get_findings_while]. unfold __findings_ready, get.
    unfold status_request in Hr.
    unfold bind at 1. unfold bind at 1.
    rewrite (request_answered _ _ _ _ _ _ Hr).
    rewrite (bind_Ok _ _ _ _ _ (json_of_loads _ _ _ Hloads)).
    rewrite (bind_Ok _ _ _ _ _ (getitem_dict _ _ _ _ Hget)).
    unfold ret at 1. rewrite Hk. cbn [negb].
    eexists. eexists. split; [reflexivity|].
    cbn. repeat split.
  - destruct Hk as (Htrue & Hrest).
    change (S (S k) + extra)%nat with (S (S k + extra)).
    cbn [__get_findings_while]. unfold __findings_ready at 1. unfold get.
    unfold status_request in Hr.
    unfold bind at 1. unfold bind at 1.
    rewrite (request_answered _ _ _ _ _ _ Hr).
    rewrite (bind_Ok _ _ _ _ _ (json_of_loads _ _ _ Hloads)).
    rewrite (bind_Ok _ _ _ _ _ (getitem_dict _ _ _ _ Hget)).
    unfold ret at 1. rewrite Htrue. cbn [negb].
    unfold bind at 1. unfold sleep at 1, record at 1.
    unfold bind at 1. unfold logger_info at 1, record at 1.
    match goal with
    | |- context [__get_findings_while _ key sbom_token ?w0] => set (w1 := w0)
    end.
    destruct (IH w1) as (w' & l & Hrun & Htr & Hs & Hc & Hf & Hdt & Hssm).
    { exact Hrest. }
    exists w'. eexists. split; [exact Hrun|].
    split; [rewrite Htr; cbn; repeat rewrite <- app_assoc; reflexivity|].
    cbn. rewrite Hs, Hc, Hf. repeat split.
    + rewrite Hdt. reflexivity.
    + rewrite Hssm. reflexivity.
Qed.

(** X4. When the Analyzer reports the job as processing [k] times and then as
    done, and answers the findings request with JSON, [__get_findings] returns
    that JSON as soon as it has more than [k] units of fuel: it made [k + 1]
    status requests, paused half a second after each of the first [k], and
    fetched the findings once. *)
Theorem get_findings_returns_when_ready (fuel k : nat)
  (project_uuid sbom_token findings : value) (w : World) (key : string)
  (rf : Response) :
  ssm w !! DT_API_KEY = Some key ->
  key <> EMPTY_VALUE ->
  done_after k (VStr key) sbom_token (dt w) ->
  (k < fuel)%nat ->
  fst (dt_send (findings_request (VStr key) project_uuid)
         (polled (S k) (VStr key) sbom_token (dt w))) = Resp rf ->
  loads (text rf) = Some findings ->
  exists w' l,
    __get_findings fuel project_uuid sbom_token w = Ok findings w' /\
    trace w' = trace w ++ l /\
    sleeps l = repeat (1 # 2)%Q k /\
    count_events (http_to is_status_url) l = S k /\
    count_events (http_to is_findings_url) l = 1%nat.
Proof.
  intros Hkey Hne Hready Hfuel Hrf Hloads.
  assert (Hsplit : exists extra, fuel = (S k + extra)%nat)
    by (exists (fuel - S k)%nat; lia).
  destruct Hsplit as (extra & ->).
  unfold __get_findings.
  rewrite (bind_Ok _ _ _ _ _ (get_api_key_warm _ w key Hkey Hne)).
  destruct (get_findings_while_ready k extra (VStr key) sbom_token
              (emit (ESsmGet DT_API_KEY) w) Hready)
    as (w1 & l & Hrun & Htr & Hs & Hc & Hf & Hdt & _).
  rewrite (bind_Ok _ _ _ _ _ Hrun). unfold get.
  unfold findings_request in Hrf. cbn [dt emit] in Hdt. rewrite <- Hdt in Hrf.
  rewrite (bind_Ok _ _ _ _ _ (request_answered _ _ _ _ _ _ Hrf)).
  rewrite (bind_Ok _ _ _ _ _ (json_of_loads _ _ _ Hloads)).
  eexists. eexists. split; [reflexivity|].
  split; [cbn; rewrite Htr; cbn; repeat rewrite <- app_assoc; reflexivity|].
  repeat rewrite sleeps_app. repeat rewrite count_events_app.
  rewrite Hs, Hc, Hf. cbn. rewrite app_nil_r. repeat split; lia.
Qed.


(** ** Bootstrap against a team listing that cannot serve *)

Lemma get_automation_team_listing (fuel : nat) (w : World) (teams : list value) :
  answers is_admin_url ->
  lists_teams teams ->
  enough_fuel fuel w ->
  exists w' l,
    __get_automation_team_data_from_dt fuel w
    = __get_automation_team_data_from_dt_for teams w' /\
    trace w' = trace w ++ l /\
    forallb bootstrap_quiet l = true /\
    (forall name, name <> DT_ROOT_PWD -> ssm w' !! name = ssm w !! name).
Proof.
  intros Hans Hteams Hfuel.
  unfold __get_automation_team_data_from_dt, __get_teams.
  unfold bind at 1. unfold logger_info at 1, record at 1.
  unfold bind at 1. unfold bind at 1. unfold logger_info at 1, record at 1.
  match goal with
  | |- context [bind (__get_jwt fuel VNone) _ ?w0] => set (w1 := w0)
  end.
  destruct (get_jwt_ok fuel w1 Hans Hfuel) as (j & w2 & Hjwt & Hstep).
  rewrite (bind_Ok _ _ _ _ _ Hjwt). unfold get.
  match goal with
  | |- context [request GET get_teams_data ?h NoPayload] => set (hs := h)
  end.
  destruct (Hteams (mkRequest GET get_teams_data hs NoPayload) (dt w2) eq_refl)
    as (r & Hr & Hloads).
  rewrite (bind_Ok _ _ _ _ _ (request_answered _ _ _ _ _ _ Hr)).
  rewrite (bind_Ok _ _ _ _ _ (json_of_loads _ _ _ Hloads)).
  unfold bind at 1. unfold logger_info at 1, record at 1. unfold ret at 1.
  unfold bind at 1. unfold iterate at 1. unfold ret at 1.
  destruct (admin_step_quiet _ _ _ Hstep) as (l & Htr & Hl).
  destruct Hstep as (_ & Hframe).
  eexists. eexists. split; [reflexivity|].
  split; [cbn; rewrite Htr; cbn; repeat rewrite <- app_assoc; reflexivity|].
  split; [|exact Hframe].
  cbn. rewrite forallb_app, Hl. reflexivity.
Qed.

Lemma get_api_key_bootstrap_fails (fuel : nat) (w : World) (teams : list value)
  (e : Exn) :
  answers is_admin_url ->
  lists_teams teams ->
  (2 <= fuel)%nat ->
  (ssm w !! DT_API_KEY = None \/ ssm w !! DT_API_KEY = Some EMPTY_VALUE) ->
  (forall w0, __get_automation_team_data_from_dt_for teams w0 = Raise e w0) ->
  is_ParameterNotFound e = false ->
  exists w' l,
    __get_api_key fuel w = Raise e w' /\
    trace w' = trace w ++ l /\
    granted l = [] /\
    ssm_writes DT_API_KEY l = [] /\
    ssm w' !! DT_API_KEY = ssm w !! DT_API_KEY.
Proof.
  intros Hans Hteams Hfuel Hcold Hfor He.
  assert (Hinit : forall w0,
    ssm w0 = ssm w ->
    exists w' l,
      __set_initial_api_key_in_ssm fuel w0 = Raise e w' /\
      trace w' = trace w0 ++ l /\
      forallb bootstrap_quiet l = true /\
      ssm w' !! DT_API_KEY = ssm w !! DT_API_KEY).
  { intros w0 Hssm.
    destruct (get_automation_team_listing fuel w0 teams Hans Hteams
                (or_introl Hfuel)) as (w1 & l & Hrun & Htr & Hq & Hframe).
    exists w1, l. unfold __set_initial_api_key_in_ssm.
    rewrite (bind_Raise _ _ w0 w1 e) by (rewrite Hrun; apply Hfor).
    repeat split; try assumption.
    rewrite (Hframe _ DT_API_KEY_not_ROOT). now rewrite Hssm. }
  unfold __get_api_key.
  destruct Hcold as [Habsent | Hempty].
  - set (w1 := emit (ESsmGet DT_API_KEY) w).
    rewrite (try_except_caught _ _ _ w w1 ParameterNotFound);
      [| unfold bind, ssm_get_parameter; now rewrite Habsent | reflexivity].
    unfold bind at 1. unfold logger_info at 1, record at 1.
    match goal with
    | |- context [__set_initial_api_key_in_ssm fuel ?w0] => set (w2 := w0)
    end.
    destruct (Hinit w2 eq_refl) as (w' & l & Hrun & Htr & Hq & Hkey).
    exists w'. eexists. split; [exact Hrun|].
    split; [rewrite Htr; cbn; repeat rewrite <- app_assoc; reflexivity|].
    cbn. rewrite (quiet_granted _ Hq), (quiet_ssm_writes _ Hq). repeat split.
    exact Hkey.
  - set (w1 := emit (ESsmGet DT_API_KEY) w).
    destruct (Hinit w1 eq_refl) as (w' & l & Hrun & Htr & Hq & Hkey).
    exists w'. eexists. split.
    + apply (try_except_passed _ _ _ w w' e); [|exact He].
      unfold bind at 1. unfold ssm_get_parameter at 1.
      rewrite Hempty. fold w1. rewrite eq_str_VStr_true. exact Hrun.
    + split; [rewrite Htr; cbn; repeat rewrite <- app_assoc; reflexivity|].
      cbn. rewrite (quiet_granted _ Hq), (quiet_ssm_writes _ Hq). repeat split.
      exact Hkey.
Qed.

Lemma no_automation_team (teams : list value) (w : World) :
  Forall other_team teams ->
  __get_automation_team_data_from_dt_for teams w
  = Raise (PyException "Unable to find Automation team in DT") w.
Proof.
  induction 1 as [|t teams (d & name & -> & Hn & Hneq) _ IH]; [reflexivity|].
  cbn [__get_automation_team_data_from_dt_for].
  rewrite (bind_Ok _ _ _ _ _ (getitem_dict _ _ _ _ Hn)).
  rewrite Hneq. exact IH.
Qed.

Lemma automation_team_without_key (pre post : list value) (team : value) (w : World) :
  Forall other_team pre ->
  keyless_automation_team team ->
  __get_automation_team_data_from_dt_for (pre ++ team :: post) w = Raise IndexError w.
Proof.
  intros Hpre (d & uuid & -> & Hname & Huuid & Hkeys).
  induction Hpre as [|t pre (dt & name & -> & Hn & Hneq) _ IH].
  - cbn [app __get_automation_team_data_from_dt_for].
    rewrite (bind_Ok _ _ _ _ _ (getitem_dict _ _ _ _ Hname)).
    rewrite eq_str_VStr_true.
    rewrite (bind_Ok _ _ _ _ _ (getitem_dict _ _ _ _ Huuid)).
    rewrite (bind_Ok _ _ _ _ _ (getitem_dict _ _ _ _ Hkeys)).
    reflexivity.
  - cbn [app __get_automation_team_data_from_dt_for].
    rewrite (bind_Ok _ _ _ _ _ (getitem_dict _ _ _ _ Hn)).
    rewrite Hneq. exact IH.
Qed.

(** X5. When the API key has to be bootstrapped and no team of the Analyzer's
    listing is named "Automation", [__get_api_key] raises
    [Exception("Unable to find Automation team in DT")]: it has granted no
    permission and written no API key, and the Secret Store's API-key entry is
    as it was, so the next call starts the bootstrap again. *)
Theorem get_api_key_without_automation_team (fuel : nat) (w : World)
  (teams : list value) :
  answers is_admin_url ->
  lists_teams teams ->
  Forall other_team teams ->
  (2 <= fuel)%nat ->
  (ssm w !! DT_API_KEY = None \/ ssm w !! DT_API_KEY = Some EMPTY_VALUE) ->
  exists w' l,
    __get_api_key fuel w
    = Raise (PyException "Unable to find Automation team in DT") w' /\
    trace w' = trace w ++ l /\
    granted l = [] /\
    ssm_writes DT_API_KEY l = [] /\
    ssm w' !! DT_API_KEY = ssm w !! DT_API_KEY.
Proof.
  intros Hans Hteams Hother Hfuel Hcold.
  apply (get_api_key_bootstrap_fails fuel w teams _ Hans Hteams Hfuel Hcold);
    [|reflexivity].
  intros w0. now apply no_automation_team.
Qed.

(** X6. When the team named "Automation" has an empty list of API keys, the
    bootstrap stops at [team["apiKeys"][0]] with [IndexError]: again no
    permission is granted and no API key is written. *)
Theorem get_api_key_with_keyless_team (fuel : nat) (w : World)
  (pre post : list value) (team : value) :
  answers is_admin_url ->
  lists_teams (pre ++ team :: post) ->
  Forall other_team pre ->
  keyless_automation_team team ->
  (2 <= fuel)%nat ->
  (ssm w !! DT_API_KEY = None \/ ssm w !! DT_API_KEY = Some EMPTY_VALUE) ->
  exists w' l,
    __get_api_key fuel w = Raise IndexError w' /\
    trace w' = trace w ++ l /\
    granted l = [] /\
    ssm_writes DT_API_KEY l = [] /\
    ssm w' !! DT_API_KEY = ssm w !! DT_API_KEY.
Proof.
  intros Hans Hteams Hpre Hteam Hfuel Hcold.
  apply (get_api_key_bootstrap_fails fuel w _ _ Hans Hteams Hfuel Hcold);
    [|reflexivity].
  intros w0. now apply automation_team_without_key.
Qed.


(** ** The admin password when the Analyzer cannot be reached *)

(** X7. When the admin password has to be rotated and the
    force-change-password request fails in transport, [__get_root_password]
    raises the request's exception and the Secret Store is exactly as it was:
    a password the Analyzer never received is not stored, and nothing is
    retried. *)
Theorem get_root_password_unreachable (n : nat) (w : World) (d : DT) :
  let new_pwd := uuid_str (uuid_v4 (urandom16 (draws w))) in
  (ssm w !! DT_ROOT_PWD = None \/ ssm w !! DT_ROOT_PWD = Some EMPTY_VALUE) ->
  dt_send (force_chg_request new_pwd) (dt w) = (ConnErr, d) ->
  exists w',
    __get_root_password (S n) w = Raise RequestException w' /\
    trace w' = trace w ++ [ESsmGet DT_ROOT_PWD] ++ failed_change_events new_pwd /\
    ssm w' = ssm w.
Proof.
  intros new_pwd Hcold Hsend.
  set (w1 := emit (ESsmGet DT_ROOT_PWD) w).
  assert (Hchg : exists w',
    __change_dt_root_pwd w1 = Raise RequestException w' /\
    trace w' = trace w1 ++ failed_change_events new_pwd /\ ssm w' = ssm w).
  { unfold __change_dt_root_pwd, bind, logger_info, record, uuid4, post, request,
      ssm_put_parameter, ret. cbn.
    fold new_pwd. unfold force_chg_request in Hsend. rewrite Hsend. cbn.
    eexists. split; [reflexivity|]. cbn. repeat rewrite <- app_assoc.
    split; reflexivity. }
  destruct Hchg as (w' & Hchg & Htr & Hssm).
  exists w'. split; [|split; [|exact Hssm]].
  - cbn [__get_root_password].
    destruct Hcold as [Habsent | Hempty].
    + rewrite (try_except_caught _ _ _ w w1 ParameterNotFound).
      * now rewrite (bind_Raise _ _ _ _ _ Hchg).
      * unfold bind, ssm_get_parameter. now rewrite Habsent.
      * reflexivity.
    + apply (try_except_passed _ _ _ w w' RequestException); [|reflexivity].
      unfold bind at 1. unfold ssm_get_parameter. rewrite Hempty.
      fold w1. rewrite eq_str_VStr_true.
      now rewrite (bind_Raise _ _ _ _ _ Hchg).
  - rewrite Htr. cbn. now rewrite <- app_assoc.
Qed.

(** X8. Given a password, [__get_jwt] does not read the Secret Store, and it
    never looks at the status of the login answer: whatever the Analyzer
    answers, a refusal included, the text of the answer is returned as the
    session token. *)
Theorem get_jwt_with_password (fuel : nat) (w : World) (pwd : string)
  (r : Response) (d : DT) :
  dt_send (login_request pwd) (dt w) = (Resp r, d) ->
  exists w',
    __get_jwt fuel (VStr pwd) w = Ok (VStr (text r)) w' /\
    trace w' = trace w ++ [ELog INFO (VStr "@START __get_jwt()") []]
                 ++ login_events pwd r /\
    ssm w' = ssm w /\ dt w' = d.
Proof.
  intros Hsend.
  unfold __get_jwt, bind, logger_info, record, post, request, ret. cbn.
  unfold login_request in Hsend. rewrite Hsend. cbn.
  eexists. split; [reflexivity|]. cbn. repeat rewrite <- app_assoc.
  repeat split.
Qed.

(** ** The orchestrator before it reaches the Analyzer *)

(** X9. An event that is not a dict never gets [dt_interface_handler] started:
    an empty or false one ([None], [""], [0], [[]]) is refused with the
    validation error, any other (a JSON string, as the repository's own test
    passes, a list, a number) with [TypeError]; in both cases nothing was
    read, requested or written. *)
Theorem dt_interface_handler_rejects_non_dict (frames fuel : nat)
  (event context : value) (w : World) :
  is_dict event = false ->
  dt_interface_handler frames fuel event context w
  = if truthy event then Raise TypeError w
    else Raise (ValidationError "event should never be none") w.
Proof.
  intros Hnd. unfold dt_interface_handler, __validate.
  destruct event as [|b|z|s|s|l|d]; try discriminate Hnd; cbn [truthy].
  - reflexivity.
  - destruct b; reflexivity.
  - destruct (z =? 0); reflexivity.
  - destruct (String.eqb s ""); cbn [negb]; [reflexivity|].
    unfold __get_body_from_first_record, bind, ret, contains, getitem, raise.
    destruct (index 0 "Records" s); reflexivity.
  - destruct (String.eqb s ""); reflexivity.
  - destruct l as [|x l]; [reflexivity|].
    unfold __get_body_from_first_record, bind, ret, contains, getitem, raise.
    destruct (existsb _ _); reflexivity.
Qed.

(** X10. When the bucket has no object under the key of the message,
    [dt_interface_handler] raises the blob store's error right after the
    failed read: no request went to the Analyzer, so no project was created. *)
Theorem dt_interface_handler_missing_sbom (frames fuel : nat)
  (event context : value) (w : World) (d : list (string * value))
  (bucket key : string) :
  truthy event = true ->
  __get_body_from_first_record event w = Ok (VDict d) w ->
  dict_get d SBOM_BUCKET_NAME_KEY = Some (VStr bucket) ->
  dict_get d SBOM_S3_KEY = Some (VStr key) ->
  s3 w !! (bucket, key) = None ->
  dt_interface_handler frames fuel event context w
  = Raise (ClientError "NoSuchKey") (emit (ES3Get (VStr bucket) (VStr key)) w).
Proof.
  intros Hev Hbody Hb Hk Hobj.
  unfold dt_interface_handler.
  unfold __validate at 1. rewrite Hev. cbn [negb].
  unfold bind at 1. unfold ret at 1.
  rewrite (bind_Ok _ _ _ _ _ Hbody).
  unfold bind at 1. unfold getitem at 1. rewrite Hb. unfold ret at 1.
  unfold bind at 1. unfold getitem at 1. rewrite Hk. unfold ret at 1.
  unfold bind at 1. unfold s3_get at 1. rewrite Hobj. reflexivity.
Qed.


(** ** The orchestrator when a step fails *)

Lemma appends_weaken {A} (p q : Event -> bool) (m : M A) :
  (forall e, p e = true -> q e = true) -> appends p m -> appends q m.
Proof.
  intros Hpq Hm w. destruct (Hm w) as (l & Htr & Hl). exists l. split; [exact Htr|].
  clear Htr. induction l as [|e l IH]; [reflexivity|]. cbn in Hl |- *.
  apply andb_prop in Hl as [He Hl]. now rewrite (Hpq _ He), (IH Hl).
Qed.

Lemma analysis_not_s3_put (e : Event) : analysis_event e = true -> not_s3_put e = true.
Proof. unfold analysis_event, not_s3_put. intros H. now apply andb_prop in H. Qed.

Lemma fails_quietly_appends {A} (p : Event -> bool) (m : M A) :
  appends p m -> fails_quietly p m.
Proof.
  intros Hm w. specialize (Hm w). destruct (m w); [exact I | exact Hm | exact Hm].
Qed.

Lemma fails_quietly_bind {A B} (p : Event -> bool) (m : M A) (k : A -> M B) :
  appends p m -> (forall a, fails_quietly p (k a)) -> fails_quietly p (bind m k).
Proof.
  intros Hm Hk w. destruct (Hm w) as (l1 & E1 & F1). unfold bind.
  destruct (m w) as [a w1|e w1|w1]; cbn in E1.
  - specialize (Hk a w1). destruct (k a w1) as [b w2|e w2|w2]; [exact I| |];
      destruct Hk as (l2 & E2 & F2); exists (l1 ++ l2);
      (split; [now rewrite E2, E1, app_assoc | now rewrite forallb_app, F1, F2]).
  - now exists l1.
  - now exists l1.
Qed.

Lemma not_s3_put_count (l : list Event) :
  forallb not_s3_put l = true -> count_events is_s3_put l = O.
Proof.
  induction l as [|e l IH]; [reflexivity|]. cbn.
  intros H. apply andb_prop in H as [He Hl]. rewrite (IH Hl).
  unfold not_s3_put in He. destruct (is_s3_put e); [discriminate He | reflexivity].
Qed.

Lemma delete_project_not_s3_put (fuel : nat) (project_uuid : value) :
  appends not_s3_put (__delete_project fuel project_uuid).
Proof.
  unfold __delete_project.
  apply appends_bind;
    [exact (appends_weaken _ _ _ analysis_not_s3_put (get_api_key_analysis fuel))|].
  intros k. appends_auto.
Qed.

Lemma dt_interface_handler_fails_quietly (frames fuel : nat)
  (event context : value) :
  fails_quietly not_s3_put (dt_interface_handler frames fuel event context).
Proof.
  unfold dt_interface_handler.
  apply fails_quietly_bind; [unfold __validate; appends_auto|]. intros _.
  apply fails_quietly_bind.
  { unfold __get_body_from_first_record. appends_auto. }
  intros s3_info.
  apply fails_quietly_bind; [appends_auto|]. intros bucket_name.
  apply fails_quietly_bind; [appends_auto|]. intros key.
  assert (Hstr : (exists b k, bucket_name = VStr b /\ key = VStr k) \/
                 (forall w, exists w', s3_get bucket_name key w
                                       = Raise ParamValidationError w' /\
                                       trace w' = trace w ++ [ES3Get bucket_name key])).
  { destruct bucket_name as [| | |b| | |];
      try (right; intros w; eexists; split; reflexivity).
    destruct key as [| | |k| | |];
      try (right; intros w; eexists; split; reflexivity).
    left. now exists b, k. }
  destruct Hstr as [(b & k & -> & ->) | Hbad].
  - apply fails_quietly_bind; [appends_auto|]. intros o.
    apply fails_quietly_bind.
    { exact (appends_weaken _ _ _ analysis_not_s3_put
               (create_project_analysis frames fuel)). }
    intros project_uuid.
    apply fails_quietly_bind.
    { exact (appends_weaken _ _ _ analysis_not_s3_put
               (upload_sbom_analysis fuel _ _)). }
    intros sbom_token.
    apply fails_quietly_bind.
    { exact (appends_weaken _ _ _ analysis_not_s3_put
               (get_findings_analysis fuel _ _)). }
    intros findings.
    apply fails_quietly_bind; [apply delete_project_not_s3_put|]. intros _.
    apply fails_quietly_bind; [appends_auto|]. intros original_key.
    intros w. reflexivity.
  - intros w. destruct (Hbad w) as (w' & Hrun & Htr).
    rewrite (bind_Raise _ _ _ _ _ Hrun). now exists [ES3Get bucket_name key].
Qed.

(** X11. A run of [dt_interface_handler] that does not return, because a step
    raised or because it is still polling, has not written to the blob store:
    the findings object is only ever put by a run that then returns [True]. *)
Theorem dt_interface_handler_writes_only_on_return (frames fuel : nat)
  (event context : value) (w : World) :
  match dt_interface_handler frames fuel event context w with
  | Ok v _ => v = VBool true
  | Raise _ w' | OutOfFuel w' =>
      exists l, trace w' = trace w ++ l /\ count_events is_s3_put l = O
  end.
Proof.
  pose proof (dt_interface_handler_fails_quietly frames fuel event context w) as Hq.
  destruct (dt_interface_handler frames fuel event context w)
    as [v w'|e w'|w'] eqn:Hrun.
  - now destruct (dt_interface_handler_Ok_inv _ _ _ _ _ _ _ Hrun)
      as (? & ? & ? & ? & ? & ? & ? & ? & ? & ? & ? & _ & _ & _ & _ & _ & _ & _ & _
          & Hv & _).
  - destruct Hq as (l & Htr & Hl). exists l. split; [exact Htr|].
    now apply not_s3_put_count.
  - destruct Hq as (l & Htr & Hl). exists l. split; [exact Htr|].
    now apply not_s3_put_count.
Qed.

(** X12. When the upload or the fetching of the findings raises after the
    project was created, [dt_interface_handler] raises the same exception and
    has sent no delete request: the project stays in the Analyzer. *)
Theorem dt_interface_handler_leaves_project (frames fuel : nat)
  (event context : value) (w w1 w' : World) (d : list (string * value))
  (bucket key : string) (o : S3Object) (project_uuid : value) (e : Exn) :
  truthy event = true ->
  __get_body_from_first_record event w = Ok (VDict d) w ->
  dict_get d SBOM_BUCKET_NAME_KEY = Some (VStr bucket) ->
  dict_get d SBOM_S3_KEY = Some (VStr key) ->
  s3 w !! (bucket, key) = Some o ->
  __create_project frames fuel (emit (ES3Get (VStr bucket) (VStr key)) w)
    = Ok project_uuid w1 ->
  (__upload_sbom fuel project_uuid (VStr (Body o)) w1 = Raise e w' \/
   exists sbom_token w2,
     __upload_sbom fuel project_uuid (VStr (Body o)) w1 = Ok sbom_token w2 /\
     __get_findings fuel project_uuid sbom_token w2 = Raise e w') ->
  dt_interface_handler frames fuel event context w = Raise e w' /\
  exists l,
    trace w' = trace w ++ l /\
    deleted_projects l = [] /\
    (1 <= count_events (http_to is_create_url) l)%nat.
Proof.
  intros Hev Hbody Hb Hk Hobj Hcreate Hfail.
  assert (Hrun : dt_interface_handler frames fuel event context w = Raise e w').
  { unfold dt_interface_handler.
    unfold __validate at 1. rewrite Hev. cbn [negb].
    unfold bind at 1. unfold ret at 1.
    rewrite (bind_Ok _ _ _ _ _ Hbody).
    unfold bind at 1. unfold getitem at 1. rewrite Hb. unfold ret at 1.
    unfold bind at 1. unfold getitem at 1. rewrite Hk. unfold ret at 1.
    unfold bind at 1. unfold s3_get at 1. rewrite Hobj.
    rewrite (bind_Ok _ _ _ _ _ Hcreate).
    destruct Hfail as [Hup | (tok & w2 & Hup & Hfind)].
    - now rewrite (bind_Raise _ _ _ _ _ Hup).
    - rewrite (bind_Ok _ _ _ _ _ Hup). now rewrite (bind_Raise _ _ _ _ _ Hfind). }
  split; [exact Hrun|].
  destruct (create_project_Ok_inv _ _ _ _ _ Hcreate)
    as (lc & rq & r & body & E1 & Fc & _ & Uc & _).
  set (l1 := lc ++ [EHttp rq (Resp r);
                    ELog INFO (VStr "ProjectCreated uuid= %s") [project_uuid]]).
  assert (F1 : forallb analysis_event l1 = true).
  { unfold l1. rewrite forallb_app, Fc. cbn. unfold analysis_event. cbn.
    now rewrite Uc. }
  assert (Hcount : (1 <= count_events (http_to is_create_url) l1)%nat).
  { unfold l1. rewrite count_events_app. cbn. rewrite Uc. cbn. lia. }
  cbn [trace emit] in E1. fold l1 in E1.
  destruct Hfail as [Hup | (tok & w2 & Hup & Hfind)].
  - pose proof (upload_sbom_analysis fuel project_uuid (VStr (Body o)) w1)
      as (l2 & E2 & F2).
    rewrite Hup in E2. cbn in E2.
    exists ([ES3Get (VStr bucket) (VStr key)] ++ l1 ++ l2).
    split; [rewrite E2, E1; now repeat rewrite <- app_assoc|].
    repeat rewrite deleted_projects_app. repeat rewrite count_events_app.
    rewrite (analysis_deleted_projects _ F1), (analysis_deleted_projects _ F2).
    split; [reflexivity | cbn; lia].
  - destruct (appends_Ok _ _ _ _ _ (upload_sbom_analysis fuel _ _) Hup)
      as (l2 & E2 & F2).
    pose proof (get_findings_analysis fuel project_uuid tok w2) as (l3 & E3 & F3).
    rewrite Hfind in E3. cbn in E3.
    exists ([ES3Get (VStr bucket) (VStr key)] ++ l1 ++ l2 ++ l3).
    split; [rewrite E3, E2, E1; now repeat rewrite <- app_assoc|].
    repeat rewrite deleted_projects_app. repeat rewrite count_events_app.
    rewrite (analysis_deleted_projects _ F1), (analysis_deleted_projects _ F2),
      (analysis_deleted_projects _ F3).
    split; [reflexivity | cbn; lia].
Qed.


(** ** The admin password, once stored, is left alone *)

Section KeepsRoot.

Variable p : string.
Hypothesis p_not_EMPTY : p <> EMPTY_VALUE.

Lemma keeps_pure {A} (m : M A) : pure m -> keeps_root p m.
Proof.
  intros Hm w Hw. rewrite (Hm w). split; [exact Hw|].
  exists []. now rewrite app_nil_r.
Qed.

Lemma keeps_out_of_fuel {A} : keeps_root p (@out_of_fuel _ _ A).
Proof. intros w Hw. split; [exact Hw|]. exists []. cbn. now rewrite app_nil_r. Qed.

Lemma keeps_bind {A B} (m : M A) (k : A -> M B) :
  keeps_root p m -> (forall a, keeps_root p (k a)) -> keeps_root p (bind m k).
Proof.
  intros Hm Hk w Hw. destruct (Hm w Hw) as (H1 & l1 & E1 & F1). unfold bind.
  destruct (m w) as [a w1|e w1|w1]; cbn in H1, E1 |- *.
  - destruct (Hk a w1 H1) as (H2 & l2 & E2 & F2). split; [exact H2|].
    exists (l1 ++ l2). split; [now rewrite E2, E1, app_assoc|].
    now rewrite forallb_app, F1, F2.
  - split; [exact H1|]. now exists l1.
  - split; [exact H1|]. now exists l1.
Qed.

Lemma keeps_try_except {A} (m : M A) (h : Exn -> bool) (k : Exn -> M A) :
  keeps_root p m -> (forall e, keeps_root p (k e)) -> keeps_root p (try_except m h k).
Proof.
  intros Hm Hk w Hw. destruct (Hm w Hw) as (H1 & l1 & E1 & F1). unfold try_except.
  destruct (m w) as [a w1|e w1|w1]; cbn in H1, E1 |- *.
  - split; [exact H1|]. now exists l1.
  - destruct (h e).
    + destruct (Hk e w1 H1) as (H2 & l2 & E2 & F2). split; [exact H2|].
      exists (l1 ++ l2). split; [now rewrite E2, E1, app_assoc|].
      now rewrite forallb_app, F1, F2.
    + split; [exact H1|]. now exists l1.
  - split; [exact H1|]. now exists l1.
Qed.

Lemma keeps_record (e : Event) : no_root_change e = true -> keeps_root p (record e).
Proof.
  intros He w Hw. split; [exact Hw|]. exists [e]. cbn. now rewrite He.
Qed.

Lemma keeps_request (m : Method) (url : Endpoint) (headers : list (string * value))
  (payload : Payload) :
  is_force_chg_url url = false -> keeps_root p (request m url headers payload).
Proof.
  intros Hurl w Hw. unfold request. cbv zeta.
  destruct (fst (dt_send (mkRequest m url headers payload) (dt w))) eqn:E;
    (split; [exact Hw|]); eexists; (split; [reflexivity|]); cbn; now rewrite Hurl.
Qed.

Lemma keeps_ssm_get_parameter (name : string) : keeps_root p (ssm_get_parameter name).
Proof.
  intros w Hw. unfold ssm_get_parameter.
  destruct (ssm w !! name); (split; [exact Hw|]); now exists [ESsmGet name].
Qed.

Lemma keeps_ssm_put_parameter (name : string) (v : value) (o : bool) :
  String.eqb name DT_ROOT_PWD = false -> keeps_root p (ssm_put_parameter name v o).
Proof.
  intros Hname w Hw. unfold ssm_put_parameter.
  assert (Hne : name <> DT_ROOT_PWD) by now apply String.eqb_neq.
  assert (Hev : forallb no_root_change [ESsmPut name v o] = true)
    by (cbn; now rewrite Hname).
  destruct v; try (split; [exact Hw | now exists [ESsmPut name v o]]);
    try (split; [exact Hw | eexists; split; [reflexivity | exact Hev]]).
  destruct (ssm_value_ok s);
    [|split; [exact Hw | eexists; split; [reflexivity | exact Hev]]].
  destruct (ssm w !! name); [destruct o|]; cbn;
    try (split; [now rewrite lookup_insert_ne | eexists; split; [reflexivity | exact Hev]]).
  split; [exact Hw | eexists; split; [reflexivity | exact Hev]].
Qed.

Lemma keeps_s3_get (bucket key : value) : keeps_root p (s3_get bucket key).
Proof.
  intros w Hw. unfold s3_get.
  destruct bucket, key;
    try match goal with |- context [s3 w !! ?k] => destruct (s3 w !! k) end;
    (split; [exact Hw | eexists; split; reflexivity]).
Qed.

Lemma keeps_s3_put (bucket key : value) (body : string)
  (metadata : list (string * value)) :
  keeps_root p (s3_put bucket key body metadata).
Proof.
  intros w Hw. unfold s3_put.
  destruct bucket, key; (split; [exact Hw | eexists; split; reflexivity]).
Qed.

Lemma keeps_uuid4 : keeps_root p uuid4.
Proof. intros w Hw. split; [exact Hw|]. exists []. cbn. now rewrite app_nil_r. Qed.

Lemma keeps_for_each {A} (l : list A) (body : A -> M unit) :
  (forall a, keeps_root p (body a)) -> keeps_root p (for_each l body).
Proof.
  intros Hb. induction l as [|a l IH]; cbn.
  - apply keeps_pure, pure_ret.
  - apply keeps_bind; [apply Hb | intros _; exact IH].
Qed.

Lemma pure_json_of (r : Response) : pure (json_of r).
Proof. unfold json_of. destruct (loads (text r)); intros w; reflexivity. Qed.

Lemma pure_iterate (v : value) : pure (iterate v).
Proof. destruct v; intros w; reflexivity. Qed.

Lemma keeps_get_root_password (fuel : nat) : keeps_root p (__get_root_password fuel).
Proof.
  destruct fuel as [|n]; [apply keeps_out_of_fuel|].
  intros w Hw. rewrite (get_root_password_stored n w p Hw p_not_EMPTY).
  split; [exact Hw|]. now exists [ESsmGet DT_ROOT_PWD].
Qed.

Create HintDb keeps.

Ltac keeps_step :=
  first
    [ apply keeps_out_of_fuel | apply keeps_uuid4
    | apply keeps_ssm_get_parameter | apply keeps_s3_get | apply keeps_s3_put
    | apply keeps_get_root_password
    | apply keeps_pure;
      first [ apply pure_ret | apply pure_raise | apply pure_getitem
            | apply pure_getitem0 | apply pure_contains | apply pure_py_loads
            | apply pure_json_of | apply pure_iterate | apply pure_validate
            | apply pure_get_body_from_first_record ]
    | apply keeps_record; reflexivity
    | apply keeps_request; reflexivity
    | apply keeps_ssm_put_parameter; reflexivity
    | solve [auto with keeps]
    | apply keeps_bind; [|intros]
    | apply keeps_try_except; [|intros]
    | apply keeps_for_each; intros
    | match goal with |- keeps_root _ (if ?b then _ else _) => destruct b end
    | match goal with |- keeps_root _ (match ?x with _ => _ end) => destruct x end ].

Ltac keeps_auto :=
  unfold logger_info, sleep, get, post, put; repeat keeps_step.

Lemma keeps_get_jwt (fuel : nat) : keeps_root p (__get_jwt fuel VNone).
Proof. unfold __get_jwt. keeps_auto. Qed.

#[local] Hint Resolve keeps_get_jwt : keeps.

Lemma keeps_get_automation_team_for (teams : list value) :
  keeps_root p (__get_automation_team_data_from_dt_for teams).
Proof.
  induction teams as [|team rest IH];
    cbn [__get_automation_team_data_from_dt_for]; keeps_auto.
Qed.

#[local] Hint Resolve keeps_get_automation_team_for : keeps.

Lemma keeps_get_api_key (fuel : nat) : keeps_root p (__get_api_key fuel).
Proof.
  unfold __get_api_key, __set_initial_api_key_in_ssm,
    __get_automation_team_data_from_dt, __get_teams, __set_team_permissions.
  keeps_auto.
Qed.

#[local] Hint Resolve keeps_get_api_key : keeps.

Lemma keeps_rotate_api_key (fuel : nat) : keeps_root p (__rotate_api_key fuel).
Proof. unfold __rotate_api_key. keeps_auto. Qed.

#[local] Hint Resolve keeps_rotate_api_key : keeps.

Lemma keeps_create_project (frames fuel : nat) :
  keeps_root p (__create_project frames fuel).
Proof. induction frames as [|n IH]; cbn [__create_project]; keeps_auto. Qed.

#[local] Hint Resolve keeps_create_project : keeps.

Lemma keeps_get_findings_while (fuel : nat) (key token : value) :
  keeps_root p (__get_findings_while fuel key token).
Proof.
  induction fuel as [|n IH]; cbn [__get_findings_while]; unfold __findings_ready;
    keeps_auto.
Qed.

#[local] Hint Resolve keeps_get_findings_while : keeps.

Lemma keeps_dt_interface_handler (frames fuel : nat) (event context : value) :
  keeps_root p (dt_interface_handler frames fuel event context).
Proof.
  unfold dt_interface_handler, __upload_sbom, multipart_encoder, __get_findings,
    __delete_project.
  keeps_auto.
Qed.

End KeepsRoot.

Lemma no_root_change_reading (l : list Event) :
  forallb no_root_change l = true ->
  count_events (http_to is_force_chg_url) l = O /\ ssm_writes DT_ROOT_PWD l = [].
Proof.
  induction l as [|e l IH]; [split; reflexivity|]. cbn.
  intros H. apply andb_prop in H as [He Hl]. destruct (IH Hl) as [Hc Hs].
  rewrite Hc. destruct e; cbn in He |- *; try (split; [reflexivity | exact Hs]).
  - destruct (is_force_chg_url (rq_url rq)); [discriminate He|]. now split.
  - destruct (String.eqb name DT_ROOT_PWD); [discriminate He|]. now split.
Qed.

(** X13. Once the admin password is in the Secret Store (and is not the
    placeholder), no run of [dt_interface_handler] touches it, however the run
    ends: the stored value is the same afterwards, no force-change-password
    request was sent and nothing was written under the password's name.  The
    one-time rotation cannot happen a second time. *)
Theorem dt_interface_handler_keeps_admin_password (frames fuel : nat)
  (event context : value) (w : World) (p : string) :
  p <> EMPTY_VALUE ->
  ssm w !! DT_ROOT_PWD = Some p ->
  ssm (world_of (dt_interface_handler frames fuel event context w)) !! DT_ROOT_PWD
  = Some p /\
  exists l,
    trace (world_of (dt_interface_handler frames fuel event context w))
    = trace w ++ l /\
    count_events (http_to is_force_chg_url) l = O /\
    ssm_writes DT_ROOT_PWD l = [].
Proof.
  intros Hp Hw.
  destruct (keeps_dt_interface_handler p Hp frames fuel event context w Hw)
    as (Hssm & l & Htr & Hl).
  split; [exact Hssm|]. exists l. split; [exact Htr|].
  now apply no_root_change_reading.
Qed.


(** ** More on the handlers of api.py *)

Section MoreHandlers.

Context `{HP : !Helpers}.

(** X14. When the index lookup gives a non-zero integer [i] (a negative one
    included), [delete_token_handler] issues exactly one update, with the
    expression [REMOVE #t[i]] on the team's item, and always answers with a
    response: 200 when the table accepts the update, 500 carrying the error
    text when the update raises.  No exception of the update leaves the
    handler. *)
Theorem delete_token_handler_removes (event context : value) (w : World)
  (ev params rsp team : list (string * value)) (team_name token tokens : value)
  (i : Z) (d : DDB) :
  let key := VDict [("Id", team_name)] in
  let w1 := emit (EDdbGet TEAM_TABLE_NAME key) (set_ddb d w) in
  let update :=
    ddb_update_item TEAM_TABLE_NAME key (remove_expression i) [("#t", "tokens")] d in
  let w2 :=
    emit (EDdbUpdate TEAM_TABLE_NAME key (remove_expression i) [("#t", "tokens")])
      (set_ddb (snd update) w1) in
  event = VDict ev ->
  dict_get ev "pathParameters" = Some (VDict params) ->
  dict_get params "team" = Some team_name ->
  dict_get params "token" = Some token ->
  ddb_get_item TEAM_TABLE_NAME key (ddb w) = (inr (VDict rsp), d) ->
  dict_get rsp "Item" = Some (VDict team) ->
  dict_get team "tokens" = Some tokens ->
  __get_token_index tokens token w1 = Ok (VInt i) w1 ->
  i <> 0 ->
  delete_token_handler event context w
  = match fst update with
    | inr _ => Ok (__token_response_obj 200 token VNone) w2
    | inl err =>
        Ok (__token_response_obj 500 token
              (VStr ("Request Error: " +:+ exn_str err))) w2
    end.
Proof.
  intros key w1 update w2 -> Hpp Hteam Htoken Hget Hitem Htokens Hidx Hi.
  unfold delete_token_handler.
  rewrite (bind_Ok _ _ _ _ _ (getitem_dict _ _ _ _ Hpp)).
  rewrite (bind_Ok _ _ _ _ _ (getitem_dict _ _ _ _ Hteam)).
  rewrite (bind_Ok _ _ _ _ _ (getitem_dict _ _ _ _ Hpp)).
  rewrite (bind_Ok _ _ _ _ _ (getitem_dict _ _ _ _ Htoken)).
  unfold bind at 1. unfold table_get_item at 1. cbv zeta.
  fold key. rewrite Hget. cbn [fst snd]. fold w1.
  rewrite (bind_Ok _ _ _ _ _ (getitem_dict _ _ _ _ Hitem)).
  rewrite (bind_Ok _ _ _ _ _ (getitem_dict _ _ _ _ Htokens)).
  rewrite (bind_Ok _ _ _ _ _ Hidx).
  assert (Htruthy : truthy (VInt i) = true)
    by (cbn; now apply negb_true_iff, Z.eqb_neq).
  rewrite Htruthy.
  unfold try_except, bind, table_update_item. cbv zeta.
  change ("REMOVE #t[" +:+ py_str (VInt i) +:+ "]") with (remove_expression i).
  change (ddb w1) with d. fold update.
  destruct (fst update); reflexivity.
Qed.

(** X15. When the team table has no item for the team (the answer of
    [get_item] carries no ["Item"]), [delete_token_handler] raises
    [KeyError] instead of answering: no response object is built and no update
    is issued. *)
Theorem delete_token_handler_unknown_team (event context : value) (w : World)
  (ev params rsp : list (string * value)) (team_name token : value) (d : DDB) :
  event = VDict ev ->
  dict_get ev "pathParameters" = Some (VDict params) ->
  dict_get params "team" = Some team_name ->
  dict_get params "token" = Some token ->
  ddb_get_item TEAM_TABLE_NAME (VDict [("Id", team_name)]) (ddb w)
  = (inr (VDict rsp), d) ->
  dict_get rsp "Item" = None ->
  delete_token_handler event context w
  = Raise (KeyError "Item")
      (emit (EDdbGet TEAM_TABLE_NAME (VDict [("Id", team_name)])) (set_ddb d w)).
Proof.
  intros -> Hpp Hteam Htoken Hget Hitem.
  unfold delete_token_handler.
  rewrite (bind_Ok _ _ _ _ _ (getitem_dict _ _ _ _ Hpp)).
  rewrite (bind_Ok _ _ _ _ _ (getitem_dict _ _ _ _ Hteam)).
  rewrite (bind_Ok _ _ _ _ _ (getitem_dict _ _ _ _ Hpp)).
  rewrite (bind_Ok _ _ _ _ _ (getitem_dict _ _ _ _ Htoken)).
  unfold bind at 1. unfold table_get_item at 1. cbv zeta. rewrite Hget.
  cbn [fst snd]. unfold bind at 1. unfold getitem at 1. rewrite Hitem.
  reflexivity.
Qed.

(** X17. Without the bucket name in the environment,
    [pristine_sbom_ingress_handler] raises [KeyError] as soon as the body is
    parsed: the SBOM is not validated, so even an invalid one gets no 400
    response, and nothing is stored. *)
Theorem pristine_handler_without_bucket (event context bom_obj : value) (w : World) :
  __get_body_from_event event w = Ok bom_obj w ->
  environ w !! SBOM_BUCKET_NAME_KEY = None ->
  pristine_sbom_ingress_handler event context w
  = Raise (KeyError SBOM_BUCKET_NAME_KEY) w.
Proof.
  intros Hbody Henv. unfold pristine_sbom_ingress_handler.
  rewrite (bind_Ok _ _ _ _ _ Hbody).
  unfold bind at 1. unfold environ_get at 1. now rewrite Henv.
Qed.

End MoreHandlers.

(** X16. [jwt_authorizer_handler] grants every request: for an event that has
    a method ARN and an authorization token, whatever the token is, the
    result is the allow policy for that ARN, which is never the deny policy;
    and the event is all it looks at. *)
Theorem jwt_authorizer_handler_allows (event context : value) (w : World)
  (ev : list (string * value)) (method_arn token : value) :
  event = VDict ev ->
  dict_get ev "methodArn" = Some method_arn ->
  dict_get ev "authorizationToken" = Some token ->
  jwt_authorizer_handler event context w = Ok (allow_policy method_arn) w /\
  allow_policy method_arn <> deny_policy.
Proof.
  intros -> Harn Htoken. split; [|discriminate].
  unfold jwt_authorizer_handler.
  rewrite (bind_Ok _ _ _ _ _ (getitem_dict _ _ _ _ Harn)).
  rewrite (bind_Ok _ _ _ _ _ (getitem_dict _ _ _ _ Htoken)).
  reflexivity.
Qed.

(** X18. [__get_records_from_event] gives the ["Records"] of a dict event and
    raises [KeyError("No 'Records' Key in event")] for a dict without them; an
    event that is neither a dict nor a string is treated as the empty dict
    and gets the same [KeyError], not a type error. *)
Theorem get_records_from_event_outcome (event : value) (w : World) :
  let w' :=
    emit (ELog INFO (VStr "Incoming Event Type: %s") [VStr (type_name event)])
      (emit (ELog INFO (VStr "Incoming Event: %s") [event]) w) in
  match event with
  | VStr _ => True
  | VDict d =>
      __get_records_from_event event w
      = match dict_get d "Records" with
        | Some records => Ok records w'
        | None => Raise (KeyError "No 'Records' Key in event") w'
        end
  | _ =>
      __get_records_from_event event w
      = Raise (KeyError "No 'Records' Key in event") w'
  end.
Proof.
  intros w'. destruct event; try exact I; try reflexivity.
  unfold __get_records_from_event, bind, logger_info, record, ret, contains,
    getitem, raise.
  destruct (dict_get d "Records"); reflexivity.
Qed.


(** ** Polling through a transport failure *)

Lemma request_unanswered (m : Method) (url : Endpoint) (headers : list (string * value))
  (payload : Payload) (w : World) :
  fst (dt_send (mkRequest m url headers payload) (dt w)) = ConnErr ->
  request m url headers payload w
  = Raise RequestException
      (emit (EHttp (mkRequest m url headers payload) ConnErr)
         (set_dt (snd (dt_send (mkRequest m url headers payload) (dt w))) w)).
Proof. intros E. unfold request. cbv zeta. now rewrite E. Qed.

Lemma get_findings_while_lost (k extra : nat) (key sbom_token : value) :
  forall w : World,
    lost_after k key sbom_token (dt w) ->
    exists w' l,
      __get_findings_while (S k + extra) key sbom_token w
      = Raise RequestException w' /\
      trace w' = trace w ++ l /\
      sleeps l = repeat (1 # 2)%Q k /\
      count_events (http_to is_status_url) l = S k /\
      count_events (http_to is_findings_url) l = O.
Proof.
  induction k as [|k IH]; intros w Hlost.
  - cbn [Nat.add __get_findings_while]. unfold __findings_ready, get.
    cbn [lost_after] in Hlost. unfold status_request in Hlost.
    unfold bind at 1. unfold bind at 1.
    rewrite (request_unanswered _ _ _ _ _ Hlost).
    eexists. eexists. split; [reflexivity|]. cbn. repeat split.
  - destruct Hlost as (r & body & processing & Hr & Hloads & Hget & Htrue & Hrest).
    change (S (S k) + extra)%nat with (S (S k + extra)).
    cbn [__get_findings_while]. unfold __findings_ready at 1. unfold get.
    unfold status_request in Hr.
    unfold bind at 1. unfold bind at 1.
    rewrite (request_answered _ _ _ _ _ _ Hr).
    rewrite (bind_Ok _ _ _ _ _ (json_of_loads _ _ _ Hloads)).
    rewrite (bind_Ok _ _ _ _ _ (getitem_dict _ _ _ _ Hget)).
    unfold ret at 1. rewrite Htrue. cbn [negb].
    unfold bind at 1. unfold sleep at 1, record at 1.
    unfold bind at 1. unfold logger_info at 1, record at 1.
    match goal with
    | |- context [__get_findings_while _ key sbom_token ?w0] => set (w1 := w0)
    end.
    destruct (IH w1 Hrest) as (w' & l & Hrun & Htr & Hs & Hc & Hf).
    exists w'. eexists. split; [exact Hrun|].
    split; [rewrite Htr; cbn; repeat rewrite <- app_assoc; reflexivity|].
    cbn. rewrite Hs, Hc, Hf. repeat split.
Qed.

(** X19. A status request that fails in transport is not taken for "not ready
    yet": after [k] answers that report processing, the failure ends
    [__get_findings] with the request's exception.  It had paused [k] times,
    it does not ask again, and the findings are never requested. *)
Theorem get_findings_stops_on_transport_failure (fuel k : nat)
  (project_uuid sbom_token : value) (w : World) (key : string) :
  ssm w !! DT_API_KEY = Some key ->
  key <> EMPTY_VALUE ->
  lost_after k (VStr key) sbom_token (dt w) ->
  (k < fuel)%nat ->
  exists w' l,
    __get_findings fuel project_uuid sbom_token w = Raise RequestException w' /\
    trace w' = trace w ++ l /\
    sleeps l = repeat (1 # 2)%Q k /\
    count_events (http_to is_status_url) l = S k /\
    count_events (http_to is_findings_url) l = O.
Proof.
  intros Hkey Hne Hlost Hfuel.
  assert (Hsplit : exists extra, fuel = (S k + extra)%nat)
    by (exists (fuel - S k)%nat; lia).
  destruct Hsplit as (extra & ->).
  unfold __get_findings.
  rewrite (bind_Ok _ _ _ _ _ (get_api_key_warm _ w key Hkey Hne)).
  destruct (get_findings_while_lost k extra (VStr key) sbom_token
              (emit (ESsmGet DT_API_KEY) w) Hlost)
    as (w1 & l & Hrun & Htr & Hs & Hc & Hf).
  rewrite (bind_Raise _ _ _ _ _ Hrun).
  exists w1. eexists. split; [reflexivity|].
  split; [rewrite Htr; cbn; rewrite <- app_assoc; reflexivity|].
  cbn. now rewrite Hs, Hc, Hf.
Qed.

(** ** The bootstrap happens once *)

(** X20. After a successful bootstrap (of a key that the Secret Store takes)
    the key is in the Secret Store, so the next [__get_api_key] is a plain
    read that returns the same key and sends nothing to the Analyzer, unless
    the key the Analyzer handed out is itself the text of the [EMPTY]
    placeholder. *)
Theorem get_api_key_bootstraps_once (fuel fuel' : nat) (w : World)
  (pre post : list value) (team uuid : value) (k : string) :
  answers is_admin_url ->
  answers is_grant_url ->
  lists_teams (pre ++ team :: post) ->
  Forall other_team pre ->
  automation_team team uuid k ->
  ssm_value_ok k = true ->
  (2 <= fuel)%nat ->
  (ssm w !! DT_API_KEY = None \/ ssm w !! DT_API_KEY = Some EMPTY_VALUE) ->
  k <> EMPTY_VALUE ->
  exists w',
    __get_api_key fuel w = Ok (VStr k) w' /\
    __get_api_key fuel' w' = Ok (VStr k) (emit (ESsmGet DT_API_KEY) w').
Proof.
  intros Hans Hgrant Hteams Hpre Hteam Hok Hfuel Hcold Hne.
  destruct (get_api_key_cold fuel w pre post team uuid k Hans Hgrant Hteams Hpre
              Hteam Hok Hfuel Hcold) as (w' & l & Hrun & _ & _ & _ & Hk).
  exists w'. split; [exact Hrun|]. now apply get_api_key_warm.
Qed.

(** ** A key that the Secret Store refuses *)

Lemma set_initial_api_key_refused (fuel : nat) (w : World) (pre post : list value)
  (team uuid : value) :
  answers is_admin_url ->
  answers is_grant_url ->
  lists_teams (pre ++ team :: post) ->
  Forall other_team pre ->
  automation_team team uuid "" ->
  (2 <= fuel)%nat ->
  exists w' l,
    __set_initial_api_key_in_ssm fuel w
    = Raise (ClientError "ValidationException") w' /\
    trace w' = trace w ++ l /\
    granted l = map (fun perm => (perm, uuid)) permissions /\
    ssm w' !! DT_API_KEY = ssm w !! DT_API_KEY.
Proof.
  intros Hans Hgrant Hteams Hpre Hteam Hfuel.
  unfold __set_initial_api_key_in_ssm.
  destruct (get_automation_team_ok fuel w pre post team uuid "" Hans Hteams Hpre
              Hteam (or_introl Hfuel))
    as (w1 & l1 & Hrun1 & Htr1 & Hq1 & _ & Hf1).
  rewrite (bind_Ok _ _ _ _ _ Hrun1). cbn [fst snd].
  destruct (set_team_permissions_ok fuel w1 uuid Hans Hgrant (or_introl Hfuel))
    as (w2 & l2 & Hrun2 & Htr2 & Hg2 & Hs2 & Hf2).
  rewrite (bind_Ok _ _ _ _ _ Hrun2).
  rewrite (bind_Raise _ _ _ _ _
             (ssm_put_parameter_refused DT_API_KEY "" true w2 eq_refl)).
  eexists. eexists. split; [reflexivity|].
  split; [cbn; rewrite Htr2, Htr1; repeat rewrite <- app_assoc; reflexivity|].
  split.
  - repeat rewrite granted_app. rewrite (quiet_granted _ Hq1), Hg2.
    cbn [granted app]. apply app_nil_r.
  - cbn. rewrite (Hf2 _ DT_API_KEY_not_ROOT). apply Hf1, DT_API_KEY_not_ROOT.
Qed.

(** X21. When the first API key of the "Automation" team is the empty string,
    the bootstrap grants the nine permissions and then fails at the write:
    the Secret Store refuses an empty value, the refusal
    ([ValidationException]) leaves [__get_api_key], and the API-key entry of
    the store is as it was, so that the next call goes through the bootstrap,
    and the grants, again. *)
Theorem get_api_key_with_empty_key (fuel : nat) (w : World) (pre post : list value)
  (team uuid : value) :
  answers is_admin_url ->
  answers is_grant_url ->
  lists_teams (pre ++ team :: post) ->
  Forall other_team pre ->
  automation_team team uuid "" ->
  (2 <= fuel)%nat ->
  (ssm w !! DT_API_KEY = None \/ ssm w !! DT_API_KEY = Some EMPTY_VALUE) ->
  exists w' l,
    __get_api_key fuel w = Raise (ClientError "ValidationException") w' /\
    trace w' = trace w ++ l /\
    granted l = map (fun perm => (perm, uuid)) permissions /\
    ssm w' !! DT_API_KEY = ssm w !! DT_API_KEY.
Proof.
  intros Hans Hgrant Hteams Hpre Hteam Hfuel Hcold.
  unfold __get_api_key.
  destruct Hcold as [Habsent | Hempty].
  - set (w1 := emit (ESsmGet DT_API_KEY) w).
    rewrite (try_except_caught _ _ _ w w1 ParameterNotFound);
      [| unfold bind, ssm_get_parameter; now rewrite Habsent | reflexivity].
    unfold bind at 1. unfold logger_info at 1, record at 1.
    match goal with
    | |- context [__set_initial_api_key_in_ssm fuel ?w0] => set (w2 := w0)
    end.
    destruct (set_initial_api_key_refused fuel w2 pre post team uuid Hans Hgrant
                Hteams Hpre Hteam Hfuel)
      as (w' & l & Hrun & Htr & Hg & Hk).
    exists w'. eexists. split; [exact Hrun|].
    split; [rewrite Htr; cbn; repeat rewrite <- app_assoc; reflexivity|].
    cbn. split; [exact Hg | exact Hk].
  - set (w1 := emit (ESsmGet DT_API_KEY) w).
    destruct (set_initial_api_key_refused fuel w1 pre post team uuid Hans Hgrant
                Hteams Hpre Hteam Hfuel)
      as (w' & l & Hrun & Htr & Hg & Hk).
    exists w'. eexists. split.
    + apply (try_except_passed _ _ _ w w' (ClientError "ValidationException"));
        [|reflexivity].
      unfold bind at 1. unfold ssm_get_parameter at 1.
      rewrite Hempty. fold w1. rewrite eq_str_VStr_true. exact Hrun.
    + split; [rewrite Htr; cbn; repeat rewrite <- app_assoc; reflexivity|].
      cbn. split; [exact Hg | exact Hk].
Qed.

(** X22. When the Analyzer answers a rotation with an empty key,
    [__rotate_api_key] fails at the write as well: the rotation request was
    sent and answered, so the Analyzer has replaced the key, but the Secret
    Store refuses the empty value and still holds the old key when the
    refusal leaves the function. *)
Theorem rotate_api_key_with_empty_key (fuel : nat) (w : World) (k : string) :
  answers is_admin_url ->
  rotates_to_nothing ->
  enough_fuel fuel w ->
  ssm w !! DT_API_KEY = Some k ->
  k <> EMPTY_VALUE ->
  exists w' l,
    __rotate_api_key fuel w = Raise (ClientError "ValidationException") w' /\
    trace w' = trace w ++ l /\
    count_events (http_to is_rotate_url) l = 1%nat /\
    ssm w' !! DT_API_KEY = Some k.
Proof.
  intros Hans Hrot Hfuel Hk Hne.
  set (w1 := emit (ESsmGet DT_API_KEY) w).
  destruct (get_jwt_ok fuel w1 Hans Hfuel)
    as (j & w2 & Hjwt & (l & p & rl & Htr & Hl & Hj & Hp & Hpne) & Hframe).
  destruct (Hrot (rotate_request k j) (dt w2) eq_refl)
    as (r & body & Hr & Hloads & Hkey).
  unfold __rotate_api_key.
  rewrite (bind_Ok _ _ _ _ _ (get_api_key_warm fuel w k Hk Hne)). fold w1.
  rewrite (bind_Ok _ _ _ _ _ Hjwt).
  unfold post. unfold bearer, py_str.
  rewrite (bind_Ok _ _ _ _ _ (request_answered _ _ _ _ _ _ Hr)).
  rewrite (bind_Ok _ _ _ _ _ (json_of_loads _ _ _ Hloads)).
  rewrite (bind_Ok _ _ _ _ _ (getitem_dict _ _ _ _ Hkey)).
  rewrite (bind_Raise _ _ _ _ _
             (ssm_put_parameter_refused DT_API_KEY "" true _ eq_refl)).
  eexists. eexists. split; [reflexivity|].
  split; [cbn; rewrite Htr; cbn; repeat rewrite <- app_assoc; reflexivity|].
  split.
  - cbn. repeat rewrite count_events_app.
    rewrite (admin_events_count _ _ rotate_not_admin Hl). reflexivity.
  - cbn. rewrite (Hframe _ DT_API_KEY_not_ROOT). exact Hk.
Qed.


End Theory.

(** * The statements on the stub *)

Import Stub.

Section OnTheStub.

Variable cfg : Config.

Lemma stub_answers_admin : @answers (stub_analyzer cfg) is_admin_url.
Proof.
  intros rq d H. cbn. unfold stub_send.
  destruct (rq_url rq); try discriminate H; eexists; reflexivity.
Qed.

Lemma stub_answers_grant : @answers (stub_analyzer cfg) is_grant_url.
Proof.
  intros rq d H. cbn. unfold stub_send.
  destruct (rq_url rq); try discriminate H; eexists; reflexivity.
Qed.

Lemma stub_rotates : @rotates (stub_analyzer cfg) stub_json.
Proof.
  intros rq d H. cbn. unfold stub_send.
  destruct (rq_url rq); try discriminate H.
  exists (mkResponse 200 "ROTATED"), [("key", VStr "key-1")], "key-1".
  repeat split. discriminate.
Qed.

Lemma stub_lists_teams :
  @lists_teams (stub_analyzer cfg) stub_json
    ([VDict [("name", VStr "Administrators"); ("uuid", VStr "team-0");
             ("apiKeys", VList [])]]
     ++ VDict [("name", VStr "Automation"); ("uuid", VStr "team-1");
               ("apiKeys", VList [VDict [("key", VStr "key-0")];
                                  VDict [("key", VStr "key-00")]])] :: []).
Proof.
  intros rq d H. cbn. unfold stub_send.
  destruct (rq_url rq); try discriminate H.
  exists (mkResponse 200 "TEAMS"). split; reflexivity.
Qed.

End OnTheStub.


Lemma stub_never_ready :
  @never_ready (Stub.stub_analyzer Stub.stuck) Stub.stub_json.
Proof.
  intros rq d H. cbn. unfold Stub.stub_send.
  destruct (rq_url rq); try discriminate H.
  exists (mkResponse 200 "PROCESSING"), [("processing", VBool true)], (VBool true).
  repeat split.
Qed.


(** ** Project creation (C1) *)



(** ** Polling (C2) *)

Lemma get_findings_polls_without_bound_witness :
  exists w' l,
    @__get_findings (Stub.stub_analyzer Stub.stuck) _ _ _ 4
      (VStr "proj-1") (VStr "tok-1") (Stub.warm Stub.stuck) = OutOfFuel w' /\
    trace w' = trace (Stub.warm Stub.stuck) ++ [ESsmGet DT_API_KEY] ++ l /\
    sleeps l = repeat (1 # 2)%Q 4 /\
    count_events (http_to is_status_url) l = 4%nat.
Proof.
  apply (@get_findings_polls_without_bound (Stub.stub_analyzer Stub.stuck)
           _ _ _ 4 (VStr "proj-1") (VStr "tok-1") (Stub.warm Stub.stuck) "key-0").
  - apply stub_never_ready.
  - reflexivity.
  - discriminate.
Defined.

(** The claim fails: against the stub that never reports the job as done, ten
    polls and ten pauses later no timeout error has been raised and the client
    is still polling; and so it is after any number of polls. *)
Lemma get_findings_never_times_out :
  (exists w',
     @__get_findings (Stub.stub_analyzer Stub.stuck) _ _ _ 10
       (VStr "proj-1") (VStr "tok-1") (Stub.warm Stub.stuck) = OutOfFuel w' /\
     count_events (http_to is_status_url) (trace w') = 10%nat /\
     sleeps (trace w') = repeat (1 # 2)%Q 10) /\
  (forall fuel, exists w',
     @__get_findings (Stub.stub_analyzer Stub.stuck) _ _ _ fuel
       (VStr "proj-1") (VStr "tok-1") (Stub.warm Stub.stuck) = OutOfFuel w').
Proof.
  split.
  - eexists. repeat split; vm_compute; reflexivity.
  - intros fuel.
    destruct (@get_findings_never_ready (Stub.stub_analyzer Stub.stuck) _ _ _
                stub_never_ready fuel (VStr "proj-1") (VStr "tok-1")
                (Stub.warm Stub.stuck) "key-0" eq_refl ltac:(discriminate))
      as (w' & l & Hrun & _).
    now exists w'.
Qed.

(** ** Bootstrap of the API key (C3) *)

Lemma get_api_key_bootstraps_witness :
  exists w' l,
    @__get_api_key (Stub.stub_analyzer Stub.happy) _ _ _ 2 (Stub.cold Stub.happy)
    = Ok (VStr "key-0") w' /\
    trace w' = trace (Stub.cold Stub.happy) ++ l /\
    granted l =
      [("ACCESS_MANAGEMENT", VStr "team-1");
       ("POLICY_MANAGEMENT", VStr "team-1");
       ("POLICY_VIOLATION_ANALYSIS", VStr "team-1");
       ("PORTFOLIO_MANAGEMENT", VStr "team-1");
       ("PROJECT_CREATION_UPLOAD", VStr "team-1");
       ("SYSTEM_CONFIGURATION", VStr "team-1");
       ("VIEW_PORTFOLIO", VStr "team-1");
       ("VIEW_VULNERABILITY", VStr "team-1");
       ("VULNERABILITY_ANALYSIS", VStr "team-1")] /\
    ssm_writes DT_API_KEY l = [VStr "key-0"] /\
    ssm w' !! DT_API_KEY = Some "key-0".
Proof.
  apply (@get_api_key_bootstraps (Stub.stub_analyzer Stub.happy) _ _ _ 2
           (Stub.cold Stub.happy)
           [VDict [("name", VStr "Administrators"); ("uuid", VStr "team-0");
                   ("apiKeys", VList [])]]
           []
           (VDict [("name", VStr "Automation"); ("uuid", VStr "team-1");
                   ("apiKeys", VList [VDict [("key", VStr "key-0")];
                                      VDict [("key", VStr "key-00")]])])
           (VStr "team-1") "key-0").
  - apply stub_answers_admin.
  - apply stub_answers_grant.
  - apply stub_lists_teams.
  - constructor; [|constructor].
    eexists. eexists. repeat split; reflexivity.
  - eexists. eexists. eexists. repeat split; reflexivity.
  - reflexivity.
  - lia.
  - left. reflexivity.
Defined.

(** ** Rotation of the admin password (C4) *)

Lemma get_root_password_rotates_once_witness :
  exists w',
    @__get_root_password (Stub.stub_analyzer Stub.happy) _ _ 2 (Stub.cold Stub.happy)
    = Ok (VStr "01234567-89ab-4def-8123-456789abcdef") w' /\
    ssm w' !! DT_ROOT_PWD = Some "01234567-89ab-4def-8123-456789abcdef" /\
    count_events (http_to is_admin_url) (trace w') = 1%nat /\
    count_events is_ssm_put (trace w') = 1%nat.
Proof.
  destruct (@get_root_password_rotates_once (Stub.stub_analyzer Stub.happy) _ _ 0
              (Stub.cold Stub.happy) (mkResponse 200 "") O
              (or_introl eq_refl) eq_refl)
    as (w' & Hrun & _ & Htr & Hssm & _).
  exists w'. split; [exact Hrun|].
  split; [rewrite Hssm; reflexivity|].
  rewrite Htr. split; reflexivity.
Defined.

(** ** The orchestrator on the scenario of the spec (C5, C6) *)

(** The SBOM at (sboms, sbom-abc), two polls that report processing, then the
    findings: the run returns [True], the findings of the stub end up at
    (sboms, findings-sbom-abc), and the one project deleted is the one
    created, ["proj-1"]. *)
Lemma dt_interface_handler_stores_findings_witness :
  (@dt_interface_handler (stub_analyzer happy) _ _ _ _ 5 5 message VNone (warm happy)
   = Ok (VBool true) (scenario_end happy) /\
   s3 (scenario_end happy) !! ("sboms", "findings-sbom-abc")
   = Some (mkS3Object (dumps (VDict [("vulns", VList [])])) []) /\
   deleted_projects (trace (scenario_end happy)) = [VStr "proj-1"] /\
   count_events (http_to is_create_url) (trace (scenario_end happy)) = 1%nat /\
   count_events (http_to is_findings_url) (trace (scenario_end happy)) = 1%nat) /\
  exists (d : list (string * value)) (bucket key : string) (o : S3Object)
         (project_uuid findings : value)
         (create upload fetch : Request) (created uploaded fetched : Response)
         (created_body : list (string * value)) (boundary : string)
         (l1 l2 l3 l4 : list Event),
    __get_body_from_first_record message (warm happy) = Ok (VDict d) (warm happy) /\
    dict_get d SBOM_BUCKET_NAME_KEY = Some (VStr bucket) /\
    dict_get d SBOM_S3_KEY = Some (VStr key) /\
    s3 (warm happy) !! (bucket, key) = Some o /\
    VBool true = VBool true /\
    trace (scenario_end happy) =
      trace (warm happy)
        ++ (l1 ++ [EHttp create (Resp created)]
               ++ l2 ++ [EHttp upload (Resp uploaded)]
               ++ l3 ++ [EHttp fetch (Resp fetched)]
               ++ l4)
        ++ [ES3Put (VStr bucket) (VStr ("findings-" +:+ key)) (dumps findings) []] /\
    rq_url create = create_project /\
    status_code created <> 401 /\
    loads (text created) = Some (VDict created_body) /\
    dict_get created_body "uuid" = Some project_uuid /\
    rq_url upload = post_sbom /\
    rq_payload upload
    = Multipart boundary (upload_fields project_uuid (VStr (Body o))) /\
    rq_url fetch = get_findings project_uuid /\
    loads (text fetched) = Some findings /\
    deleted_projects (l1 ++ [EHttp create (Resp created)]
                         ++ l2 ++ [EHttp upload (Resp uploaded)]
                         ++ l3 ++ [EHttp fetch (Resp fetched)]
                         ++ l4) = [project_uuid] /\
    deleted_projects (l1 ++ [EHttp create (Resp created)]
                         ++ l2 ++ [EHttp upload (Resp uploaded)]
                         ++ l3 ++ [EHttp fetch (Resp fetched)]) = [] /\
    count_events is_s3_put (l1 ++ [EHttp create (Resp created)]
                               ++ l2 ++ [EHttp upload (Resp uploaded)]
                               ++ l3 ++ [EHttp fetch (Resp fetched)]
                               ++ l4) = O /\
    s3 (scenario_end happy) !! (bucket, "findings-" +:+ key)
    = Some (mkS3Object (dumps findings) []).
Proof.
  assert (Hrun : @dt_interface_handler (stub_analyzer happy) _ _ _ _ 5 5 message
                   VNone (warm happy) = Ok (VBool true) (scenario_end happy))
    by (vm_compute; reflexivity).
  split.
  - split; [exact Hrun|]. repeat split; vm_compute; reflexivity.
  - exact (@dt_interface_handler_stores_findings (stub_analyzer happy) _ _ _ _ 5 5
             message VNone (VBool true) (warm happy) (scenario_end happy) Hrun).
Defined.

(** The stub that answers the delete request with status 500: the run still
    stores the findings, and logs no warning. *)
Lemma delete_project_answer_is_ignored_witness :
  exists w',
    @dt_interface_handler (stub_analyzer delete_refused) _ _ _ _ 5 5 message VNone
      (warm delete_refused) = Ok (VBool true) w' /\
    trace w' =
      trace (scenario_found delete_refused)
        ++ delete_events "key-0" (VStr "proj-1")
             (Resp (mkResponse 500 "Internal Server Error"))
        ++ [ES3Put (VStr "sboms") (VStr ("findings-" +:+ "sbom-abc"))
              (dumps (VDict [("vulns", VList [])])) []] /\
    count_events is_warning
      (delete_events "key-0" (VStr "proj-1")
         (Resp (mkResponse 500 "Internal Server Error"))) = O /\
    count_events (http_to is_delete_url)
      (delete_events "key-0" (VStr "proj-1")
         (Resp (mkResponse 500 "Internal Server Error"))) = 1%nat /\
    s3 w' !! ("sboms", "findings-" +:+ "sbom-abc")
    = Some (mkS3Object (dumps (VDict [("vulns", VList [])])) []).
Proof.
  apply (@delete_project_answer_is_ignored (stub_analyzer delete_refused) _ _ _ _
           5 5 message VNone (warm delete_refused) (scenario_created delete_refused)
           (scenario_uploaded delete_refused) (scenario_found delete_refused)
           [(SBOM_BUCKET_NAME_KEY, VStr "sboms"); (SBOM_S3_KEY, VStr "sbom-abc")]
           "sboms" "sbom-abc" "key-0"
           (mkS3Object "BOM" [(ENRICHMENT_ID, VStr "sbom-api-1")])
           (VStr "proj-1") (VStr "tok-1") (VDict [("vulns", VList [])])
           (mkResponse 500 "Internal Server Error") 3%nat).
  - reflexivity.
  - vm_compute; reflexivity.
  - reflexivity.
  - reflexivity.
  - vm_compute; reflexivity.
  - vm_compute; reflexivity.
  - vm_compute; reflexivity.
  - vm_compute; reflexivity.
  - vm_compute; reflexivity.
  - discriminate.
  - vm_compute; reflexivity.
Defined.

(** The claim fails: when the delete request fails in transport, the exception
    leaves [dt_interface_handler]; the one delete request was made, nothing
    was logged as a warning, and the findings were never written. *)
Lemma delete_failure_prevents_store :
  exists w',
    @dt_interface_handler (stub_analyzer delete_unreachable) _ _ _ _ 5 5 message
      VNone (warm delete_unreachable) = Raise RequestException w' /\
    count_events (http_to is_delete_url) (trace w') = 1%nat /\
    count_events is_warning (trace w') = O /\
    count_events is_s3_put (trace w') = O /\
    s3 w' !! ("sboms", "findings-sbom-abc") = None.
Proof. eexists. repeat split; vm_compute; reflexivity. Qed.

(** ** Rotation of the API key (C7) *)

Lemma rotate_api_key_persists_and_returns_none_witness :
  exists (w' : @World (stub_analyzer happy) stub_dynamo) (l : list Event)
         (p j k' : string) (rl r : Response) (body : list (string * value)),
    __rotate_api_key 1 (warm happy) = Ok VNone w' /\
    trace w' =
      trace (warm happy) ++ [ESsmGet DT_API_KEY]
        ++ (l ++ @login_events (stub_analyzer happy) p rl)
        ++ [EHttp (rotate_request "key-0" j) (Resp r);
            ESsmPut DT_API_KEY (VStr k') true] /\
    forallb admin_event l = true /\
    j = text rl /\
    loads (text r) = Some (VDict body) /\
    dict_get body "key" = Some (VStr k') /\
    ssm w' !! DT_API_KEY = Some k'.
Proof.
  apply (@rotate_api_key_persists_and_returns_none (stub_analyzer happy) _ _ _ 1
           (warm happy) "key-0").
  - apply stub_answers_admin.
  - apply stub_rotates.
  - right. split; [lia|]. exists "s3cret". split; [reflexivity | discriminate].
  - reflexivity.
  - discriminate.
Defined.

(** The claim fails in its last part: the stub hands out the new key
    ["key-1"], which [__rotate_api_key] stores, but what it returns is [None]. *)
Lemma rotate_api_key_returns_none :
  exists w',
    @__rotate_api_key (stub_analyzer happy) _ _ _ 1 (warm happy) = Ok VNone w' /\
    ssm w' !! DT_API_KEY = Some "key-1".
Proof. eexists. split; vm_compute; reflexivity. Qed.

(** ** The stored API key (C8) *)

Lemma get_api_key_stored_witness :
  exists w',
    @__get_api_key (stub_analyzer happy) _ _ _ 0 (warm happy) = Ok (VStr "key-0") w' /\
    trace w' = trace (warm happy) ++ [ESsmGet DT_API_KEY] /\
    ssm w' = ssm (warm happy) /\ dt w' = dt (warm happy) /\
    s3 w' = s3 (warm happy) /\ ddb w' = ddb (warm happy).
Proof.
  apply (@get_api_key_stored (stub_analyzer happy) _ _ _ 0 (warm happy) "key-0").
  - reflexivity.
  - discriminate.
Defined.

(** ** The handlers of api.py (C9, C10) *)

Lemma stub_first_token_has_index_zero :
  @first_token_has_index_zero (stub_analyzer happy) stub_dynamo (stub_helpers happy).
Proof.
  intros first rest token w H. cbn. rewrite H.
  now rewrite eq_str_VStr_true.
Qed.

(** Team "team-a" holds the token ["sbom-api-1"] first: asked to delete it,
    the handler answers 401 and leaves the table alone. *)
Lemma delete_token_handler_skips_first_token_witness :
  exists w',
    @delete_token_handler (stub_analyzer happy) _ _ (stub_helpers happy)
      (delete_event "sbom-api-1") VNone with_team_a
    = Ok (VDict [("statusCode", VInt 401);
                 ("isBase64Encoded", VBool false);
                 ("body",
                  VStr (dumps (VDict [("token", VStr "sbom-api-1");
                                      ("error",
                                       VStr (no_such_token (VStr "sbom-api-1")
                                               (VStr "team-a")))])))])
        w' /\
    trace w' = trace with_team_a
                 ++ [EDdbGet TEAM_TABLE_NAME (VDict [("Id", VStr "team-a")])] /\
    count_events is_ddb_update (trace w')
    = count_events is_ddb_update (trace with_team_a) /\
    ddb w' = [("team-a", team_a)].
Proof.
  apply (@delete_token_handler_skips_first_token (stub_analyzer happy) _ _
           (stub_helpers happy) (delete_event "sbom-api-1") VNone with_team_a
           [("pathParameters",
             VDict [("team", VStr "team-a"); ("token", VStr "sbom-api-1")])]
           [("team", VStr "team-a"); ("token", VStr "sbom-api-1")]
           [("Item", team_a)]
           [("Id", VStr "team-a");
            ("tokens",
             VList [VDict [("name", VStr "ci"); ("token", VStr "sbom-api-1")];
                    VDict [("name", VStr "cd"); ("token", VStr "sbom-api-2")]])]
           [("name", VStr "ci"); ("token", VStr "sbom-api-1")]
           (VStr "team-a") "sbom-api-1"
           [VDict [("name", VStr "cd"); ("token", VStr "sbom-api-2")]]
           [("team-a", team_a)]).
  - apply stub_first_token_has_index_zero.
  - reflexivity.
  - reflexivity.
  - reflexivity.
  - reflexivity.
  - reflexivity.
  - reflexivity.
  - reflexivity.
  - reflexivity.
Defined.

(** A body that is not an SBOM is answered with 400 and stores nothing; an
    SBOM is stored under a fresh key and answered with 200. *)
Lemma pristine_sbom_ingress_handler_validates_witness :
  (exists w',
     @pristine_sbom_ingress_handler (stub_analyzer happy) _ _ _ (stub_helpers happy)
       (VDict [("body", VStr "NOT-A-BOM")]) VNone (warm happy)
     = Ok (VDict [("statusCode", VInt 400);
                  ("isBase64Encoded", VBool false);
                  ("body", VStr "'bomFormat' is a required property")]) w') /\
  trace (world_of
           (@pristine_sbom_ingress_handler (stub_analyzer happy) _ _ _
              (stub_helpers happy) (VDict [("body", VStr "NOT-A-BOM")]) VNone
              (warm happy)))
  = trace (warm happy) /\
  s3 (world_of
        (@pristine_sbom_ingress_handler (stub_analyzer happy) _ _ _
           (stub_helpers happy) (VDict [("body", VStr "NOT-A-BOM")]) VNone
           (warm happy)))
  = s3 (warm happy).
Proof.
  assert (Hbody : @__get_body_from_event (stub_analyzer happy) _ _
                     (VDict [("body", VStr "NOT-A-BOM")]) (warm happy)
                   = Ok (VDict [("hello", VStr "world")]) (warm happy))
    by (vm_compute; reflexivity).
  assert (Henv : environ (warm happy) !! SBOM_BUCKET_NAME_KEY = Some "sboms")
    by (vm_compute; reflexivity).
  destruct (@pristine_sbom_ingress_handler_validates (stub_analyzer happy) _ _ _
              (stub_helpers happy) (VDict [("body", VStr "NOT-A-BOM")]) VNone
              (VDict [("hello", VStr "world")]) (warm happy) "sboms"
              Hbody Henv)
    as [Hrejected _].
  destruct (Hrejected (ValidationError "'bomFormat' is a required property") eq_refl)
    as (Htrace & Hs3 & Hresponse).
  split; [exact (Hresponse _ eq_refl)|]. split; assumption.
Defined.

(** ** Upload, creation and polling on the stub (X1 to X4) *)

(** A project id that is a string is uploaded; one that is a number is
    refused by the encoder, and nothing is sent. *)
Lemma upload_sbom_outcome_witness :
  (exists w',
     @__upload_sbom (stub_analyzer happy) _ _ _ _ 1 (VStr "proj-1") (VStr "BOM")
       (warm happy)
     = @field_of_body (stub_analyzer happy) _ _ (mkResponse 200 "TOKEN") "token" w' /\
     trace w' =
       trace (warm happy)
         ++ upload_events "key-0" (uuid_hex (uuid_v4 (urandom16 (draws (warm happy)))))
              (VStr "proj-1") (VStr "BOM") (mkResponse 200 "TOKEN") /\
     ssm w' = ssm (warm happy) /\ dt w' = (O : @DT (stub_analyzer happy))) /\
  (exists w',
     @__upload_sbom (stub_analyzer happy) _ _ _ _ 1 (VInt 5) (VStr "BOM") (warm happy)
     = Raise AttributeError w' /\
     trace w' = trace (warm happy) ++ [ESsmGet DT_API_KEY] /\
     ssm w' = ssm (warm happy) /\ dt w' = dt (warm happy)).
Proof.
  split.
  - apply (proj2 (@upload_sbom_outcome (stub_analyzer happy) _ _ _ _ 1
                    (VStr "proj-1") (VStr "BOM") (warm happy) "key-0" eq_refl
                    ltac:(discriminate))
             (mkResponse 200 "TOKEN") O).
    reflexivity.
  - apply (proj2 (@upload_sbom_outcome (stub_analyzer happy) _ _ _ _ 1 (VInt 5)
                    (VStr "BOM") (warm happy) "key-0" eq_refl
                    ltac:(discriminate))).
Defined.

Lemma create_project_outcome_witness :
  exists w1,
    trace w1 =
      trace (warm happy)
        ++ [ESsmGet DT_API_KEY;
            EHttp (create_request "key-0"
                     (uuid_str (uuid_v4 (urandom16 (draws (warm happy))))))
              (Resp (mkResponse 201 "PROJECT"))] /\
    ssm w1 = ssm (warm happy) /\ dt w1 = (O : @DT (stub_analyzer happy)) /\
    @__create_project (stub_analyzer happy) _ _ _ 1 0 (warm happy)
    = match @field_of_body (stub_analyzer happy) _ _ (mkResponse 201 "PROJECT")
              "uuid" w1 with
      | Ok project_uuid w1 =>
          Ok project_uuid
            (emit (ELog INFO (VStr "ProjectCreated uuid= %s") [project_uuid]) w1)
      | other => other
      end.
Proof.
  apply (@create_project_outcome (stub_analyzer happy) _ _ _ 0 0 (warm happy) "key-0"
           (mkResponse 201 "PROJECT") O).
  - reflexivity.
  - discriminate.
  - reflexivity.
  - discriminate.
Defined.


Lemma stub_ready_after_two :
  @done_after (stub_analyzer happy) stub_json 2 (VStr "key-0") (VStr "tok-1")
    (dt (warm happy)).
Proof.
  exists (mkResponse 200 "PROCESSING"), [("processing", VBool true)], (VBool true).
  repeat split.
  exists (mkResponse 200 "PROCESSING"), [("processing", VBool true)], (VBool true).
  repeat split.
  exists (mkResponse 200 "DONE"), [("processing", VBool false)], (VBool false).
  repeat split.
Qed.

(** The scenario of the spec: two polls report processing, the third does not. *)
Lemma get_findings_returns_when_ready_witness :
  exists w' l,
    @__get_findings (stub_analyzer happy) _ _ _ 5 (VStr "proj-1") (VStr "tok-1")
      (warm happy) = Ok (VDict [("vulns", VList [])]) w' /\
    trace w' = trace (warm happy) ++ l /\
    sleeps l = repeat (1 # 2)%Q 2 /\
    count_events (http_to is_status_url) l = 3%nat /\
    count_events (http_to is_findings_url) l = 1%nat.
Proof.
  apply (@get_findings_returns_when_ready (stub_analyzer happy) _ _ _ 5 2
           (VStr "proj-1") (VStr "tok-1") (VDict [("vulns", VList [])])
           (warm happy) "key-0" (mkResponse 200 "FINDINGS")).
  - reflexivity.
  - discriminate.
  - apply stub_ready_after_two.
  - lia.
  - reflexivity.
  - reflexivity.
Defined.

(** ** Bootstrap and authentication that go wrong (X5 to X8) *)

Lemma lab_answers (setup : Lab.Setup) :
  Lab.reachable setup = true -> @answers (Lab.lab_analyzer setup) is_admin_url.
Proof.
  intros Hreach rq d H. cbn. unfold Lab.lab_send. rewrite Hreach.
  destruct (rq_url rq); try discriminate H; eexists; reflexivity.
Qed.

Lemma lab_lists_only_admins :
  @lists_teams (Lab.lab_analyzer Lab.only_admins) Lab.lab_json
    [VDict [("name", VStr "Administrators"); ("uuid", VStr "team-0");
            ("apiKeys", VList [VDict [("key", VStr "key-a")]])]].
Proof.
  intros rq d H. cbn. unfold Lab.lab_send. cbn.
  destruct (rq_url rq); try discriminate H.
  eexists. split; reflexivity.
Qed.

Lemma lab_lists_keyless :
  @lists_teams (Lab.lab_analyzer Lab.keyless) Lab.lab_json
    ([VDict [("name", VStr "Administrators"); ("uuid", VStr "team-0");
             ("apiKeys", VList [VDict [("key", VStr "key-a")]])]]
     ++ VDict [("name", VStr "Automation"); ("uuid", VStr "team-1");
               ("apiKeys", VList [])] :: []).
Proof.
  intros rq d H. cbn. unfold Lab.lab_send. cbn.
  destruct (rq_url rq); try discriminate H.
  eexists. split; reflexivity.
Qed.

Lemma administrators_is_other_team :
  other_team (VDict [("name", VStr "Administrators"); ("uuid", VStr "team-0");
                     ("apiKeys", VList [VDict [("key", VStr "key-a")]])]).
Proof. eexists. eexists. repeat split; reflexivity. Qed.

Lemma get_api_key_without_automation_team_witness :
  exists w' l,
    @__get_api_key (Lab.lab_analyzer Lab.only_admins) _ Lab.lab_json _ 2
      (Lab.lab_world Lab.only_admins [])
    = Raise (PyException "Unable to find Automation team in DT") w' /\
    trace w' = trace (Lab.lab_world Lab.only_admins []) ++ l /\
    granted l = [] /\
    ssm_writes DT_API_KEY l = [] /\
    ssm w' !! DT_API_KEY = ssm (Lab.lab_world Lab.only_admins []) !! DT_API_KEY.
Proof.
  apply (@get_api_key_without_automation_team (Lab.lab_analyzer Lab.only_admins) _
           Lab.lab_json _ 2 (Lab.lab_world Lab.only_admins [])
           [VDict [("name", VStr "Administrators"); ("uuid", VStr "team-0");
                   ("apiKeys", VList [VDict [("key", VStr "key-a")]])]]).
  - now apply lab_answers.
  - apply lab_lists_only_admins.
  - constructor; [apply administrators_is_other_team | constructor].
  - lia.
  - left. reflexivity.
Defined.

Lemma get_api_key_with_keyless_team_witness :
  exists w' l,
    @__get_api_key (Lab.lab_analyzer Lab.keyless) _ Lab.lab_json _ 2
      (Lab.lab_world Lab.keyless [(DT_API_KEY, EMPTY_VALUE)])
    = Raise IndexError w' /\
    trace w' = trace (Lab.lab_world Lab.keyless [(DT_API_KEY, EMPTY_VALUE)]) ++ l /\
    granted l = [] /\
    ssm_writes DT_API_KEY l = [] /\
    ssm w' !! DT_API_KEY
    = ssm (Lab.lab_world Lab.keyless [(DT_API_KEY, EMPTY_VALUE)]) !! DT_API_KEY.
Proof.
  apply (@get_api_key_with_keyless_team (Lab.lab_analyzer Lab.keyless) _
           Lab.lab_json _ 2 (Lab.lab_world Lab.keyless [(DT_API_KEY, EMPTY_VALUE)])
           [VDict [("name", VStr "Administrators"); ("uuid", VStr "team-0");
                   ("apiKeys", VList [VDict [("key", VStr "key-a")]])]]
           []
           (VDict [("name", VStr "Automation"); ("uuid", VStr "team-1");
                   ("apiKeys", VList [])])).
  - now apply lab_answers.
  - apply lab_lists_keyless.
  - constructor; [apply administrators_is_other_team | constructor].
  - eexists. eexists. repeat split; reflexivity.
  - lia.
  - right. reflexivity.
Defined.

Lemma get_root_password_unreachable_witness :
  exists w',
    @__get_root_password (Lab.lab_analyzer Lab.unreachable) _ _ 1
      (Lab.lab_world Lab.unreachable [(DT_ROOT_PWD, EMPTY_VALUE)])
    = Raise RequestException w' /\
    trace w' =
      trace (Lab.lab_world Lab.unreachable [(DT_ROOT_PWD, EMPTY_VALUE)])
        ++ [ESsmGet DT_ROOT_PWD]
        ++ failed_change_events
             (uuid_str (uuid_v4 (urandom16
                (draws (Lab.lab_world Lab.unreachable [(DT_ROOT_PWD, EMPTY_VALUE)]))))) /\
    ssm w' = ssm (Lab.lab_world Lab.unreachable [(DT_ROOT_PWD, EMPTY_VALUE)]).
Proof.
  apply (@get_root_password_unreachable (Lab.lab_analyzer Lab.unreachable) _ _ 0
           (Lab.lab_world Lab.unreachable [(DT_ROOT_PWD, EMPTY_VALUE)]) O).
  - right. reflexivity.
  - reflexivity.
Defined.

Lemma get_jwt_with_password_witness :
  exists w',
    @__get_jwt (Lab.lab_analyzer Lab.upload_refused) _ _ 0 (VStr "wrong")
      (Lab.lab_world Lab.upload_refused [])
    = Ok (VStr "jwt-1") w' /\
    trace w' =
      trace (Lab.lab_world Lab.upload_refused [])
        ++ [ELog INFO (VStr "@START __get_jwt()") []]
        ++ @login_events (Lab.lab_analyzer Lab.upload_refused) "wrong"
             (mkResponse 200 "jwt-1") /\
    ssm w' = ssm (Lab.lab_world Lab.upload_refused []) /\
    dt w' = (1%nat : @DT (Lab.lab_analyzer Lab.upload_refused)).
Proof.
  apply (@get_jwt_with_password (Lab.lab_analyzer Lab.upload_refused) _ _ 0
           (Lab.lab_world Lab.upload_refused []) "wrong" (mkResponse 200 "jwt-1")
           1%nat).
  reflexivity.
Defined.

(** ** The orchestrator on runs that stop early (X9, X10, X12, X13) *)

(** The repository's test passes the SBOM as a JSON string. *)
Lemma dt_interface_handler_rejects_non_dict_witness :
  @dt_interface_handler (stub_analyzer happy) _ _ _ _ 5 5 (VStr "BOM") VNone
    (warm happy)
  = if truthy (VStr "BOM") then Raise TypeError (warm happy)
    else Raise (ValidationError "event should never be none") (warm happy).
Proof.
  apply (@dt_interface_handler_rejects_non_dict (stub_analyzer happy) _ _ _ _ 5 5
           (VStr "BOM") VNone (warm happy)).
  reflexivity.
Defined.

Lemma dt_interface_handler_missing_sbom_witness :
  @dt_interface_handler (stub_analyzer happy) _ _ _ _ 5 5 message VNone
    (world happy warm_secrets [] [] [])
  = Raise (ClientError "NoSuchKey")
      (emit (ES3Get (VStr "sboms") (VStr "sbom-abc"))
         (world happy warm_secrets [] [] [])).
Proof.
  apply (@dt_interface_handler_missing_sbom (stub_analyzer happy) _ _ _ _ 5 5
           message VNone (world happy warm_secrets [] [] [])
           [(SBOM_BUCKET_NAME_KEY, VStr "sboms"); (SBOM_S3_KEY, VStr "sbom-abc")]
           "sboms" "sbom-abc").
  - reflexivity.
  - vm_compute; reflexivity.
  - reflexivity.
  - reflexivity.
  - vm_compute; reflexivity.
Defined.

(** The upload is answered with 401 and a body that is not JSON: the run
    raises the decoding error and the project it created is not deleted. *)
Lemma dt_interface_handler_leaves_project_witness :
  @dt_interface_handler (Lab.lab_analyzer Lab.upload_refused) _ Lab.lab_json _ _
    5 5 message VNone (Lab.lab_world Lab.upload_refused warm_secrets)
  = Raise JSONDecodeError
      (world_of
         (@__upload_sbom (Lab.lab_analyzer Lab.upload_refused) _ Lab.lab_json _ _ 5
            (VStr "proj-1") (VStr "BOM")
            (world_of
               (@__create_project (Lab.lab_analyzer Lab.upload_refused) _
                  Lab.lab_json _ 5 5
                  (emit (ES3Get (VStr "sboms") (VStr "sbom-abc"))
                     (Lab.lab_world Lab.upload_refused warm_secrets)))))) /\
  exists l,
    trace
      (world_of
         (@__upload_sbom (Lab.lab_analyzer Lab.upload_refused) _ Lab.lab_json _ _ 5
            (VStr "proj-1") (VStr "BOM")
            (world_of
               (@__create_project (Lab.lab_analyzer Lab.upload_refused) _
                  Lab.lab_json _ 5 5
                  (emit (ES3Get (VStr "sboms") (VStr "sbom-abc"))
                     (Lab.lab_world Lab.upload_refused warm_secrets))))))
    = trace (Lab.lab_world Lab.upload_refused warm_secrets) ++ l /\
    deleted_projects l = [] /\
    (1 <= count_events (http_to is_create_url) l)%nat.
Proof.
  apply (@dt_interface_handler_leaves_project (Lab.lab_analyzer Lab.upload_refused)
           _ Lab.lab_json _ _ 5 5 message VNone
           (Lab.lab_world Lab.upload_refused warm_secrets)
           (world_of
              (@__create_project (Lab.lab_analyzer Lab.upload_refused) _
                 Lab.lab_json _ 5 5
                 (emit (ES3Get (VStr "sboms") (VStr "sbom-abc"))
                    (Lab.lab_world Lab.upload_refused warm_secrets))))
           _
           [(SBOM_BUCKET_NAME_KEY, VStr "sboms"); (SBOM_S3_KEY, VStr "sbom-abc")]
           "sboms" "sbom-abc"
           (mkS3Object "BOM" [(ENRICHMENT_ID, VStr "sbom-api-1")])
           (VStr "proj-1") JSONDecodeError).
  - reflexivity.
  - vm_compute; reflexivity.
  - reflexivity.
  - reflexivity.
  - vm_compute; reflexivity.
  - vm_compute; reflexivity.
  - left. vm_compute; reflexivity.
Defined.

Lemma dt_interface_handler_keeps_admin_password_witness :
  ssm (world_of (@dt_interface_handler (stub_analyzer happy) _ _ _ _ 5 5 message
                   VNone (warm happy))) !! DT_ROOT_PWD = Some "s3cret" /\
  exists l,
    trace (world_of (@dt_interface_handler (stub_analyzer happy) _ _ _ _ 5 5 message
                       VNone (warm happy)))
    = trace (warm happy) ++ l /\
    count_events (http_to is_force_chg_url) l = O /\
    ssm_writes DT_ROOT_PWD l = [].
Proof.
  apply (@dt_interface_handler_keeps_admin_password (stub_analyzer happy) _ _ _ _
           5 5 message VNone (warm happy) "s3cret").
  - discriminate.
  - reflexivity.
Defined.

(** ** The other handlers on the stub (X14 to X17) *)

(** The second token of team "team-a" is found at index 1 and removed. *)
Lemma delete_token_handler_removes_witness :
  @delete_token_handler (stub_analyzer happy) _ _ (stub_helpers happy)
    (delete_event "sbom-api-2") VNone with_team_a
  = Ok (__token_response_obj 200 (VStr "sbom-api-2") VNone)
      (emit (EDdbUpdate TEAM_TABLE_NAME (VDict [("Id", VStr "team-a")])
               (remove_expression 1) [("#t", "tokens")])
         (emit (EDdbGet TEAM_TABLE_NAME (VDict [("Id", VStr "team-a")]))
            with_team_a)).
Proof.
  apply (@delete_token_handler_removes (stub_analyzer happy) _ _ (stub_helpers happy)
           (delete_event "sbom-api-2") VNone with_team_a
           [("pathParameters",
             VDict [("team", VStr "team-a"); ("token", VStr "sbom-api-2")])]
           [("team", VStr "team-a"); ("token", VStr "sbom-api-2")]
           [("Item", team_a)]
           [("Id", VStr "team-a");
            ("tokens",
             VList [VDict [("name", VStr "ci"); ("token", VStr "sbom-api-1")];
                    VDict [("name", VStr "cd"); ("token", VStr "sbom-api-2")]])]
           (VStr "team-a") (VStr "sbom-api-2")
           (VList [VDict [("name", VStr "ci"); ("token", VStr "sbom-api-1")];
                   VDict [("name", VStr "cd"); ("token", VStr "sbom-api-2")]])
           1 [("team-a", team_a)]).
  - reflexivity.
  - reflexivity.
  - reflexivity.
  - reflexivity.
  - reflexivity.
  - reflexivity.
  - reflexivity.
  - reflexivity.
  - discriminate.
Defined.

Lemma delete_token_handler_unknown_team_witness :
  @delete_token_handler (stub_analyzer happy) _ _ (stub_helpers happy)
    (delete_event "sbom-api-1") VNone (world happy warm_secrets [] [] [])
  = Raise (KeyError "Item")
      (emit (EDdbGet TEAM_TABLE_NAME (VDict [("Id", VStr "team-a")]))
         (world happy warm_secrets [] [] [])).
Proof.
  apply (@delete_token_handler_unknown_team (stub_analyzer happy) _ _
           (stub_helpers happy) (delete_event "sbom-api-1") VNone
           (world happy warm_secrets [] [] [])
           [("pathParameters",
             VDict [("team", VStr "team-a"); ("token", VStr "sbom-api-1")])]
           [("team", VStr "team-a"); ("token", VStr "sbom-api-1")]
           [] (VStr "team-a") (VStr "sbom-api-1") []).
  - reflexivity.
  - reflexivity.
  - reflexivity.
  - reflexivity.
  - reflexivity.
  - reflexivity.
Defined.

Lemma jwt_authorizer_handler_allows_witness :
  @jwt_authorizer_handler (stub_analyzer happy) _
    (VDict [("methodArn", VStr "arn:aws:execute-api:eu:1:api/GET/teams");
            ("authorizationToken", VStr "not-a-jwt")]) VNone (warm happy)
  = Ok (allow_policy (VStr "arn:aws:execute-api:eu:1:api/GET/teams")) (warm happy) /\
  allow_policy (VStr "arn:aws:execute-api:eu:1:api/GET/teams") <> deny_policy.
Proof.
  apply (@jwt_authorizer_handler_allows (stub_analyzer happy) _ _ VNone (warm happy)
           [("methodArn", VStr "arn:aws:execute-api:eu:1:api/GET/teams");
            ("authorizationToken", VStr "not-a-jwt")]
           (VStr "arn:aws:execute-api:eu:1:api/GET/teams") (VStr "not-a-jwt"));
    reflexivity.
Defined.

(** An invalid SBOM, and no bucket name in the environment. *)
Lemma pristine_handler_without_bucket_witness :
  @pristine_sbom_ingress_handler (stub_analyzer happy) _ _ _ (stub_helpers happy)
    (VDict [("body", VStr "NOT-A-BOM")]) VNone with_team_a
  = Raise (KeyError SBOM_BUCKET_NAME_KEY) with_team_a.
Proof.
  apply (@pristine_handler_without_bucket (stub_analyzer happy) _ _ _
           (stub_helpers happy) (VDict [("body", VStr "NOT-A-BOM")]) VNone
           (VDict [("hello", VStr "world")]) with_team_a).
  - vm_compute; reflexivity.
  - vm_compute; reflexivity.
Defined.

(** ** Polling an unreachable Analyzer, and the second read of the key (X19, X20) *)

Lemma get_findings_stops_on_transport_failure_witness :
  exists w' l,
    @__get_findings (Lab.lab_analyzer Lab.unreachable) _ Lab.lab_json _ 3
      (VStr "proj-1") (VStr "tok-1") (Lab.lab_world Lab.unreachable warm_secrets)
    = Raise RequestException w' /\
    trace w' = trace (Lab.lab_world Lab.unreachable warm_secrets) ++ l /\
    sleeps l = repeat (1 # 2)%Q 0 /\
    count_events (http_to is_status_url) l = 1%nat /\
    count_events (http_to is_findings_url) l = O.
Proof.
  apply (@get_findings_stops_on_transport_failure (Lab.lab_analyzer Lab.unreachable)
           _ Lab.lab_json _ 3 0 (VStr "proj-1") (VStr "tok-1")
           (Lab.lab_world Lab.unreachable warm_secrets) "key-0").
  - reflexivity.
  - discriminate.
  - reflexivity.
  - lia.
Defined.

Lemma get_api_key_bootstraps_once_witness :
  exists w',
    @__get_api_key (stub_analyzer happy) _ _ _ 2 (cold happy) = Ok (VStr "key-0") w' /\
    @__get_api_key (stub_analyzer happy) _ _ _ 0 w'
    = Ok (VStr "key-0") (emit (ESsmGet DT_API_KEY) w').
Proof.
  apply (@get_api_key_bootstraps_once (stub_analyzer happy) _ _ _ 2 0 (cold happy)
           [VDict [("name", VStr "Administrators"); ("uuid", VStr "team-0");
                   ("apiKeys", VList [])]]
           []
           (VDict [("name", VStr "Automation"); ("uuid", VStr "team-1");
                   ("apiKeys", VList [VDict [("key", VStr "key-0")];
                                      VDict [("key", VStr "key-00")]])])
           (VStr "team-1") "key-0").
  - apply stub_answers_admin.
  - apply stub_answers_grant.
  - apply stub_lists_teams.
  - constructor; [|constructor].
    eexists. eexists. repeat split; reflexivity.
  - eexists. eexists. eexists. repeat split; reflexivity.
  - reflexivity.
  - lia.
  - left. reflexivity.
  - discriminate.
Defined.

(** ** A key that the Secret Store refuses (X21, X22) *)

Lemma lab_answers_grant (setup : Lab.Setup) :
  Lab.reachable setup = true -> @answers (Lab.lab_analyzer setup) is_grant_url.
Proof.
  intros Hreach rq d H. cbn. unfold Lab.lab_send. rewrite Hreach.
  destruct (rq_url rq); try discriminate H; eexists; reflexivity.
Qed.

Lemma lab_lists_empty_key :
  @lists_teams (Lab.lab_analyzer Lab.empty_key) Lab.lab_json
    ([] ++ VDict [("name", VStr "Automation"); ("uuid", VStr "team-1");
                  ("apiKeys", VList [VDict [("key", VStr "")]])] :: []).
Proof.
  intros rq d H. cbn. unfold Lab.lab_send. cbn.
  destruct (rq_url rq); try discriminate H.
  eexists. split; reflexivity.
Qed.

Lemma lab_rotates_to_nothing :
  @rotates_to_nothing (Lab.lab_analyzer Lab.empty_key) Lab.lab_json.
Proof.
  intros rq d H. cbn. unfold Lab.lab_send. cbn.
  destruct (rq_url rq); try discriminate H.
  exists (mkResponse 200 "ROTATED-TO-NOTHING"), [("key", VStr "")].
  repeat split.
Qed.

Lemma get_api_key_with_empty_key_witness :
  exists w' l,
    @__get_api_key (Lab.lab_analyzer Lab.empty_key) _ Lab.lab_json _ 2
      (Lab.lab_world Lab.empty_key [])
    = Raise (ClientError "ValidationException") w' /\
    trace w' = trace (Lab.lab_world Lab.empty_key []) ++ l /\
    granted l = map (fun perm => (perm, VStr "team-1")) permissions /\
    ssm w' !! DT_API_KEY = ssm (Lab.lab_world Lab.empty_key []) !! DT_API_KEY.
Proof.
  apply (@get_api_key_with_empty_key (Lab.lab_analyzer Lab.empty_key) _
           Lab.lab_json _ 2 (Lab.lab_world Lab.empty_key []) [] []
           (VDict [("name", VStr "Automation"); ("uuid", VStr "team-1");
                   ("apiKeys", VList [VDict [("key", VStr "")]])])
           (VStr "team-1")).
  - now apply lab_answers.
  - now apply lab_answers_grant.
  - apply lab_lists_empty_key.
  - constructor.
  - eexists. eexists. eexists. repeat split; reflexivity.
  - lia.
  - left. reflexivity.
Defined.

Lemma rotate_api_key_with_empty_key_witness :
  exists w' l,
    @__rotate_api_key (Lab.lab_analyzer Lab.empty_key) _ Lab.lab_json _ 1
      (Lab.lab_world Lab.empty_key warm_secrets)
    = Raise (ClientError "ValidationException") w' /\
    trace w' = trace (Lab.lab_world Lab.empty_key warm_secrets) ++ l /\
    count_events (http_to is_rotate_url) l = 1%nat /\
    ssm w' !! DT_API_KEY = Some "key-0".
Proof.
  apply (@rotate_api_key_with_empty_key (Lab.lab_analyzer Lab.empty_key) _
           Lab.lab_json _ 1 (Lab.lab_world Lab.empty_key warm_secrets) "key-0").
  - now apply lab_answers.
  - apply lab_rotates_to_nothing.
  - right. split; [lia|]. exists "s3cret". split; [reflexivity | discriminate].
  - reflexivity.
  - discriminate.
Defined.
